(** * Encyclopinya: the retrieval pipeline, the config cache and the
      knowledge commands, embedded from the Python sources.

    Conventions of the embedding.
    - Python [float] values (thresholds, similarity scores) are rationals [Q];
      every finite double is one.  The slash-command option of
      [config_threshold] and the scores of normalised embeddings are finite.
    - Python [str] is [string]; [int] is [Z]; [None] is [None].
    - [dict]s used as maps (the config cache, JSON metadata, the [config]
      table keyed by its primary key) are [gmap string _].
    - An [async] method is a computation in the monad [M]: it threads the
      world (tables, cache, everything sent so far) and may raise.
    - Calls to the database, the embedding provider and the language
      model may fail; the world carries, per service, the outcomes of its
      next calls.  Messages to the chat platform are recorded as events.
    - Every row of [pinya_docs] has an embedding and a metadata object:
      the program's [INSERT] and [UPDATE] always give both.
    - What lives outside the repository (the embedding and language models,
      pgvector's distance operator, the [re] module, a few builtins, the
      gateway's object lookups) is a field of the class [External].
    - Code that holds the bot object ([main.py], the vote buttons, the
      commands of [cogs/admin.py] that change presence or re-index) runs
      in the monad [B] over [Bot]: the world, the attribute
      [current_avatar_state], the outcomes of the next avatar uploads, the
      tasks left by [create_task] and the actions taken through the bot.
      Calls to the chat platform other than the avatar upload are taken
      to succeed, as the events of the handlers are.
    - A [SELECT] fixes the order of its rows only as far as its
      [ORDER BY] does.  The server's choice among rows of equal
      similarity, and among the rows of [aliases] (read with no
      [ORDER BY]), is a rank given by [External]: [tie_rank], which may
      depend on the query, and [alias_rank].
    - [re.sub] raises [re.error] on a replacement that is not a valid
      template: [re_sub_alias] returns [None] then, and the caller raises
      [RegexError].
    - The author of a direct message is a [discord.User], which has no
      [roles]: [user_has_roles] is [false] for it, and reading its roles
      raises [AttributeError].
    - A keyword argument that the callee does not take raises
      [TypeError] ([delete_after] on a webhook's [send]). *)

From Stdlib Require Import ZArith QArith Qround Bool Ascii String List Sorted Lia.
From Stdlib Require Import DecimalString DecimalZ DecimalPos.
From stdpp Require Import base option list gmap strings.

Local Open Scope Z_scope.
Local Open Scope string_scope.

(** * Part I: the program *)

(** ** Builtins that are exact on this representation *)

Module Py.

(** [a > b] and [a <= b] on floats. *)
Definition gtb (a b : Q) : bool := negb (Qle_bool a b).
Definition leb (a b : Q) : bool := Qle_bool a b.

(** [str(n)] for an [int]. *)
Definition str_int (n : Z) : string := NilZero.string_of_int (Z.to_int n).

Definition nl : string := String (ascii_of_nat 10) EmptyString.

(** Truthiness: [if s:] on a string, [if n:] on an int. *)
Definition truthy_str (s : string) : bool :=
  match s with EmptyString => false | _ => true end.
Definition truthy_int (n : Z) : bool := negb (Z.eqb n 0).
(** [if x:] on a value that is a string or [None]. *)
Definition truthy_opt (o : option string) : bool :=
  match o with Some s => truthy_str s | None => false end.

(** [int(x)] on a float: towards zero. *)
Definition int_of_float (x : Q) : Z :=
  if Qle_bool 0 x then Qfloor x else Qceiling x.

Definition lower_char (c : ascii) : ascii :=
  let n := nat_of_ascii c in
  if (andb (Nat.leb 65 n) (Nat.leb n 90)) then ascii_of_nat (n + 32)%nat else c.

(** [s.lower()], on the letters A-Z. *)
Fixpoint lower (s : string) : string :=
  match s with
  | EmptyString => EmptyString
  | String c s' => String (lower_char c) (lower s')
  end.

(** [x in xs] for a list of strings. *)
Definition str_in (x : string) (xs : list string) : bool :=
  existsb (String.eqb x) xs.

(** [s.replace(old, new)]: leftmost matches, not overlapping.  [skip]
    counts the characters of a match still to drop.  An empty [old]
    matches before every character and at the end. *)
Fixpoint replace_from (old new : string) (skip : nat) (s : string) : string :=
  match s with
  | EmptyString => EmptyString
  | String c s' =>
      match skip with
      | S k => replace_from old new k s'
      | O =>
          if String.prefix old s
          then new ++ replace_from old new (String.length old - 1)%nat s'
          else String c (replace_from old new O s')
      end
  end.

Fixpoint replace_empty (new : string) (s : string) : string :=
  match s with
  | EmptyString => new
  | String c s' => new ++ String c (replace_empty new s')
  end.

Definition replace (s old new : string) : string :=
  match old with
  | EmptyString => replace_empty new s
  | _ => replace_from old new O s
  end.

(** [s.split(",")]. *)
Fixpoint split_comma_acc (cur : string) (s : string) : list string :=
  match s with
  | EmptyString => [cur]
  | String c s' =>
      if Ascii.eqb c ","%char
      then cur :: split_comma_acc EmptyString s'
      else split_comma_acc (cur ++ String c EmptyString) s'
  end.

Definition split_comma (s : string) : list string :=
  split_comma_acc EmptyString s.

(** [sep.join(parts)]. *)
Fixpoint join (sep : string) (parts : list string) : string :=
  match parts with
  | [] => EmptyString
  | [p] => p
  | p :: rest => p ++ sep ++ join sep rest
  end.

End Py.

(** ** Data model *)

(** Values found in the [metadata] JSON objects. *)
Inductive Json :=
| JNull
| JBool (b : bool)
| JNum (n : Z)
| JStr (s : string).

(** [embedding vector(1536)]: a sequence of floats. *)
Definition Vector := list Q.

(** A row of [pinya_docs].  [created_at] is read by the autocomplete
    only and is left out. *)
Record Doc := mkDoc {
  doc_id : Z;
  doc_topic : string;
  doc_content : string;
  doc_embedding : Vector;
  doc_metadata : gmap string Json
}.

(** A result row of the similarity query:
    [id, topic, content, metadata, similarity]. *)
Record Row := mkRow {
  row_id : Z;
  row_topic : string;
  row_content : string;
  row_metadata : gmap string Json;
  row_similarity : Q
}.

(** [discord.User] / [discord.Member], as far as the handlers read it.
    Only a [discord.Member] has [roles]; the author of a direct message
    and the user of a command run there are plain [discord.User]s, for
    which [user_has_roles] is [false] and [user_roles] is not read. *)
Record User := mkUser {
  user_id : Z;
  user_bot : bool;
  user_display_name : string;
  user_avatar_url : string;
  user_mention : string;
  user_roles : list Z;
  user_has_roles : bool
}.

(** [discord.Message]. *)
Record Message := mkMessage {
  msg_author : User;
  msg_mentions_bot : bool;
  msg_content : string
}.

Record Interaction := mkInteraction {
  inter_user : User
}.

Record Embed := mkEmbed {
  embed_title : option string;
  embed_description : string;
  embed_color : Z;
  embed_author : option (string * string);
  embed_footer : option (string * option string)
}.

(** The views of [utils/ui.py] that the handlers attach. *)
Inductive View :=
| VoteView (doc : Z)
| TeachGapView (missing_query : string)
| EditGapView (doc : Z).

(** What a [TeachModal] will call back once submitted. *)
Inductive ModalCallback :=
| CbSave                       (* [Knowledge.save_knowledge] *)
| CbEdit (doc : Z)             (* the [edit_callback] closure over [doc['id']] *)
| CbGap (origin : option Embed). (* the closure of [TeachGapView.teach] over the
                                    first embed of [interaction.message] *)

Record Modal := mkModal {
  modal_callback : ModalCallback;
  modal_default_topic : option string;
  modal_default_content : option string;
  modal_default_spoiler : string
}.

Inductive Exn :=
| DatabaseError
| EmbeddingError
| LanguageModelError
| ValueError
| RegexError        (* [re.error] *)
| TypeError
| AttributeError.

(** Everything the program does to the outside, in order. *)
Inductive Event :=
| Deferred                                              (* interaction.response.defer *)
| ResponseMessage (text : string) (ephemeral : bool)    (* interaction.response.send_message *)
| ResponseModal (m : Modal)                             (* interaction.response.send_modal *)
| Followup (text : string) (ephemeral : bool)           (* interaction.followup.send(text) *)
| FollowupEmbed (e : Embed) (ephemeral : bool)          (* interaction.followup.send(embed=...) *)
| ChannelSend (channel : Z) (e : Embed) (v : option View) (* channel.send *)
| Reply (e : Embed) (v : option View)                   (* message.reply *)
| OriginEdit (e : Embed) (v : View)                     (* origin_message.edit *)
| Typing                                                (* message.channel.typing() *)
| EmbeddingCall (text : string)                         (* aembed_query *)
| TranslateCall (text : string)                         (* the translation chain *)
| GenerateCall (instruction_mode context question : string) (* the answer chain *)
| LogInfo (text : string)
| LogException (text : string) (e : Exn).

(** The world a handler runs in: the three tables, the class attribute
    [ConfigManager._cache], the outcomes the three remote services will
    give to their next calls ([true]: the call raises; an exhausted script
    means the service answers), and the events so far (oldest first). *)
Record World := mkWorld {
  config : gmap string string;
  pinya_docs : list Doc;
  pinya_docs_seq : Z;
  aliases : list (string * string);
  _cache : gmap string string;
  db_faults : list bool;
  embed_faults : list bool;
  llm_faults : list bool;
  events : list Event
}.

Definition with_config (f : gmap string string -> gmap string string) (w : World) : World :=
  mkWorld (f (config w)) (pinya_docs w) (pinya_docs_seq w) (aliases w) (_cache w)
          (db_faults w) (embed_faults w) (llm_faults w) (events w).

Definition with_docs (f : list Doc -> list Doc) (w : World) : World :=
  mkWorld (config w) (f (pinya_docs w)) (pinya_docs_seq w) (aliases w) (_cache w)
          (db_faults w) (embed_faults w) (llm_faults w) (events w).

Definition with_seq (n : Z) (w : World) : World :=
  mkWorld (config w) (pinya_docs w) n (aliases w) (_cache w)
          (db_faults w) (embed_faults w) (llm_faults w) (events w).

Definition with_aliases (f : list (string * string) -> list (string * string)) (w : World) : World :=
  mkWorld (config w) (pinya_docs w) (pinya_docs_seq w) (f (aliases w)) (_cache w)
          (db_faults w) (embed_faults w) (llm_faults w) (events w).

Definition with_cache (f : gmap string string -> gmap string string) (w : World) : World :=
  mkWorld (config w) (pinya_docs w) (pinya_docs_seq w) (aliases w) (f (_cache w))
          (db_faults w) (embed_faults w) (llm_faults w) (events w).

Definition with_db_faults (l : list bool) (w : World) : World :=
  mkWorld (config w) (pinya_docs w) (pinya_docs_seq w) (aliases w) (_cache w)
          l (embed_faults w) (llm_faults w) (events w).

Definition with_embed_faults (l : list bool) (w : World) : World :=
  mkWorld (config w) (pinya_docs w) (pinya_docs_seq w) (aliases w) (_cache w)
          (db_faults w) l (llm_faults w) (events w).

Definition with_llm_faults (l : list bool) (w : World) : World :=
  mkWorld (config w) (pinya_docs w) (pinya_docs_seq w) (aliases w) (_cache w)
          (db_faults w) (embed_faults w) l (events w).

Definition with_event (e : Event) (w : World) : World :=
  mkWorld (config w) (pinya_docs w) (pinya_docs_seq w) (aliases w) (_cache w)
          (db_faults w) (embed_faults w) (llm_faults w) (events w ++ [e]).

(** ** The monad of handlers: state and exceptions *)

Inductive Result (A : Type) :=
| Ok (a : A)
| Raise (e : Exn).
Arguments Ok {A} a.
Arguments Raise {A} e.

Definition M (A : Type) : Type := World -> Result A * World.

Definition ret {A} (a : A) : M A := fun w => (Ok a, w).

Definition bind {A B} (m : M A) (k : A -> M B) : M B :=
  fun w =>
    match m w with
    | (Ok a, w') => k a w'
    | (Raise e, w') => (Raise e, w')
    end.

Definition raise {A} (e : Exn) : M A := fun w => (Raise e, w).

(** [try: body except Exception as e: handler(e)]. *)
Definition try_except {A} (body : M A) (handler : Exn -> M A) : M A :=
  fun w =>
    match body w with
    | (Ok a, w') => (Ok a, w')
    | (Raise e, w') => handler e w'
    end.

Definition emit (e : Event) : M unit := fun w => (Ok tt, with_event e w).

Definition gets {A} (f : World -> A) : M A := fun w => (Ok (f w), w).

Definition modify (f : World -> World) : M unit := fun w => (Ok tt, f w).

Declare Scope handler_scope.
Delimit Scope handler_scope with handler.
Notation "x <- c1 ;; c2" := (bind c1 (fun x => c2))
  (at level 100, c1 at next level, right associativity) : handler_scope.
Notation "c1 ;; c2" := (bind c1 (fun _ => c2))
  (at level 100, right associativity) : handler_scope.
Local Open Scope handler_scope.

(** The head of a fault script and what remains of it. *)
Definition next_fault (script : list bool) : bool * list bool :=
  match script with
  | [] => (false, [])
  | b :: rest => (b, rest)
  end.

(** One round trip to a remote service. *)
Definition remote (script : World -> list bool) (rest : list bool -> World -> World)
    (e : Exn) : M unit :=
  fun w =>
    let (failed, remaining) := next_fault (script w) in
    if failed then (Raise e, rest remaining w) else (Ok tt, rest remaining w).

(** [user.roles], as ids: a [discord.User] has no such attribute. *)
Definition roles_of (user : User) : M (list Z) :=
  if user_has_roles user then ret (user_roles user) else raise AttributeError.

(** [interaction.followup.send(text, delete_after=...)]: the followup
    is a [discord.Webhook], whose [send] has no parameter [delete_after],
    so the call raises before anything is sent. *)
Definition followup_send_delete_after (text : string) (delete_after : Z) : M unit :=
  raise TypeError.

(** ** What the repository calls but does not define *)

Class External := {
  (** [OpenAIEmbeddings.aembed_query], when it answers. *)
  embed_text : string -> Vector;
  (** pgvector's [<=>]: cosine distance of the stored vector and the query. *)
  cosine_distance : Vector -> Vector -> Q;
  (** The translation chain, when it answers. *)
  llm_translate : string -> string;
  (** The answer chain on [instruction_mode], [context] and [question]. *)
  llm_answer : string -> string -> string -> string;
  (** [re.sub(r'\b' + re.escape(trigger) + r'\b', replacement, text,
      flags=re.IGNORECASE)], by trigger, replacement, text.  The
      replacement is parsed as a template: [None] stands for the
      [re.error] of one with a bad escape or group reference. *)
  re_sub_alias : string -> string -> string -> option string;
  (** The order in which the server returns the rows that
      [ORDER BY similarity DESC] leaves tied: by a rank it is free to
      choose for each query vector and threshold, lowest first. *)
  tie_rank : Vector -> Q -> Row -> Z;
  (** The order in which the server returns the rows of [aliases], which
      are selected with no [ORDER BY]: by a rank of its choice. *)
  alias_rank : string * string -> Z;
  (** [re.sub(r'(\d{4,5}x\d{4,5})', r'**\1**', answer)]. *)
  re_bold_coords : string -> string;
  (** [float(s)] and [int(s)]; [None] stands for [ValueError]. *)
  py_float : string -> option Q;
  py_int : string -> option Z;
  (** [str(x)] for a float. *)
  str_float : Q -> string;
  (** [s.strip()]. *)
  str_strip : string -> string;
  (** [bot.get_channel(id)] finds the channel. *)
  channel_known : Z -> bool;
  (** [bot.get_cog('Knowledge')] finds the cog. *)
  knowledge_cog_loaded : bool;
  (** [bot.get_user(id)], else [bot.fetch_user(id)] with its failure
      swallowed: display name and avatar url. *)
  find_user : Z -> option (string * string);
  (** [bot.user.id]. *)
  bot_user_id : Z;
  (** [str(e)] of a caught exception. *)
  exn_message : Exn -> string
}.

(** ** core/database.py: the statements the program sends *)

Module Database.

(** Every statement goes through [get_pool] and the pool: one round
    trip, which may raise. *)
Definition round_trip : M unit := remote db_faults with_db_faults DatabaseError.

(** [SELECT key, value FROM config] *)
Definition fetch_config : M (list (string * string)) :=
  round_trip ;; gets (fun w => map_to_list (config w)).

(** [INSERT INTO config (key, value) VALUES ($1, $2)
     ON CONFLICT (key) DO UPDATE SET value = $2] *)
Definition execute_config_upsert (key value : string) : M unit :=
  round_trip ;; modify (with_config (fun c => <[key := value]> c)).

(** [DELETE FROM config WHERE key = $1] *)
Definition execute_config_delete (key : string) : M unit :=
  round_trip ;; modify (with_config (fun c => delete key c)).

(** Rows by a rank, lowest first; rows of equal rank keep their order. *)
Fixpoint insert_ranked {A} (rank : A -> Z) (x : A) (rows : list A) : list A :=
  match rows with
  | [] => [x]
  | y :: rest =>
      if Z.leb (rank x) (rank y) then x :: y :: rest
      else y :: insert_ranked rank x rest
  end.

Definition ranked {A} (rank : A -> Z) (rows : list A) : list A :=
  foldr (insert_ranked rank) [] rows.

Fixpoint upsert_alias (trigger replacement : string) (rows : list (string * string))
    : list (string * string) :=
  match rows with
  | [] => [(trigger, replacement)]
  | (t, r) :: rest =>
      if String.eqb t trigger then (t, replacement) :: rest
      else (t, r) :: upsert_alias trigger replacement rest
  end.

(** [INSERT INTO aliases (trigger, replacement) VALUES ($1, $2)
     ON CONFLICT (trigger) DO UPDATE SET replacement = $2] *)
Definition execute_alias_upsert (trigger replacement : string) : M unit :=
  round_trip ;; modify (with_aliases (upsert_alias trigger replacement)).

(** [SELECT id FROM pinya_docs WHERE topic = $1] through [fetchval]:
    the id of the first such row, or [None]. *)
Definition fetchval_id_by_topic (topic : string) : M (option Z) :=
  round_trip ;;
  gets (fun w => doc_id <$> List.find (fun d => String.eqb (doc_topic d) topic) (pinya_docs w)).

(** [SELECT id, topic, content, metadata FROM pinya_docs WHERE id = $1]
    through [fetchrow]. *)
Definition fetchrow_by_id (id : Z) : M (option Doc) :=
  round_trip ;;
  gets (fun w => List.find (fun d => Z.eqb (doc_id d) id) (pinya_docs w)).

(** [DELETE FROM pinya_docs WHERE topic = $1] *)
Definition execute_delete_by_topic (topic : string) : M unit :=
  round_trip ;;
  modify (with_docs (List.filter (fun d => negb (String.eqb (doc_topic d) topic)))).

(** [INSERT INTO pinya_docs (topic, content, embedding, metadata)
     VALUES ($1, $2, $3, $4) RETURNING id]: the id comes from the
    sequence of the [SERIAL] column. *)
Definition fetchval_insert_doc (topic content : string) (vec : Vector)
    (metadata : gmap string Json) : M Z :=
  round_trip ;;
  id <- gets (fun w => pinya_docs_seq w + 1) ;;
  modify (fun w => with_seq id (with_docs (fun ds => (ds ++ [mkDoc id topic content vec metadata])%list) w)) ;;
  ret id.

(** The [SET] clause on one row; [metadata || $4::jsonb] keeps the
    keys of the row that the right operand does not have. *)
Definition update_row (topic content : string) (vec : Vector)
    (patch : gmap string Json) (d : Doc) : Doc :=
  mkDoc (doc_id d) topic content vec (patch ∪ doc_metadata d).

(** [UPDATE pinya_docs SET topic = $1, content = $2, embedding = $3,
     metadata = metadata || $4::jsonb WHERE id = $5] *)
Definition execute_update_doc (topic content : string) (vec : Vector)
    (patch : gmap string Json) (id : Z) : M unit :=
  round_trip ;;
  modify (with_docs (List.map (fun d =>
    if Z.eqb (doc_id d) id then update_row topic content vec patch d else d))).

Section Similarity.
Context `{External}.

(** [SELECT trigger, replacement FROM aliases]: in the order the server
    gives. *)
Definition fetch_aliases : M (list (string * string)) :=
  round_trip ;; gets (fun w => ranked alias_rank (aliases w)).

(** [1 - (embedding <=> $1)] *)
Definition similarity (query_vec : Vector) (d : Doc) : Q :=
  (1 - cosine_distance (doc_embedding d) query_vec)%Q.

(** The [SELECT] list of the similarity query on one row. *)
Definition to_row (query_vec : Vector) (d : Doc) : Row :=
  mkRow (doc_id d) (doc_topic d) (doc_content d) (doc_metadata d)
        (similarity query_vec d).

(** [ORDER BY similarity DESC] on rows the server has at hand in some
    order: rows of equal score keep that order. *)
Fixpoint insert_desc (r : Row) (rows : list Row) : list Row :=
  match rows with
  | [] => [r]
  | x :: rest =>
      if Py.leb (row_similarity x) (row_similarity r)
      then r :: x :: rest
      else x :: insert_desc r rest
  end.

Definition order_by_similarity_desc (rows : list Row) : list Row :=
  foldr insert_desc [] rows.

(** [SELECT id, topic, content, metadata, 1 - (embedding <=> $1) as similarity
     FROM pinya_docs WHERE 1 - (embedding <=> $1) > $2
     ORDER BY similarity DESC LIMIT 3] *)
Definition select_similar (query_vec : Vector) (threshold : Q) (docs : list Doc)
    : list Row :=
  firstn 3
    (order_by_similarity_desc
       (ranked (tie_rank query_vec threshold)
          (List.filter (fun r => Py.gtb (row_similarity r) threshold)
             (List.map (to_row query_vec) docs)))).

Definition fetch_similar (query_vec : Vector) (threshold : Q) : M (list Row) :=
  round_trip ;; gets (fun w => select_similar query_vec threshold (pinya_docs w)).

End Similarity.

End Database.

(** ** core/config_manager.py *)

Module ConfigManager.

(** [load_cache] *)
Definition load_cache : M unit :=
  rows <- Database.fetch_config ;;
  modify (with_cache (fun _ => list_to_map rows)) ;;
  n <- gets (fun w => size (_cache w)) ;;
  emit (LogInfo ("Config loaded: " ++ Py.str_int (Z.of_nat n) ++ " keys.")).

(** [get(key, default=None)]: [cls._cache.get(key, default)] *)
Definition get (key : string) (fallback : option string) : M (option string) :=
  gets (fun w =>
    match _cache w !! key with
    | Some v => Some v
    | None => fallback
    end).

(** [get(key, default)] where [default] is a string: the result is one. *)
Definition get_or (key fallback : string) : M string :=
  v <- get key (Some fallback) ;;
  ret (default fallback v).

(** [set(key, value)]; the callers pass strings, on which [str] is the
    identity. *)
Definition set (key value : string) : M unit :=
  Database.execute_config_upsert key value ;;
  modify (with_cache (fun c => <[key := value]> c)) ;;
  emit (LogInfo ("Config updated: " ++ key ++ " = " ++ value)).

(** [delete(key)] *)
Definition delete (key : string) : M unit :=
  Database.execute_config_delete key ;;
  present <- gets (fun w => bool_decide (is_Some (_cache w !! key))) ;;
  if (present : bool) then modify (with_cache (fun c => base.delete key c)) else ret tt.

Section Roles.
Context `{External}.

(** The predicate inside [is_configured_role(role_type)]. *)
Definition is_configured_role (role_type : string) (user : User) : M bool :=
  role_id_str <- get ("role_" ++ role_type) None ;;
  if negb (Py.truthy_opt role_id_str) then
    emit (ResponseMessage ("❌ The `" ++ role_type ++
      "` role has not been configured yet. Ask an admin to run `/admin config role`.") true) ;;
    ret false
  else
    match py_int (default "" role_id_str) with
    | None =>
        emit (ResponseMessage ("❌ Configuration error: `" ++ role_type ++
          "` role ID is invalid.") true) ;;
        ret false
    | Some role_id =>
        user_roles <- roles_of user ;;
        if existsb (Z.eqb role_id) user_roles then ret true
        else
          emit (ResponseMessage ("⛔ You need the <@&" ++ Py.str_int role_id ++
            "> role to use this command.") true) ;;
          ret false
    end.

End Roles.

End ConfigManager.

(** ** utils/ai.py *)

Module AI.
Section WithExternal.
Context `{External}.

(** [get_embedding(text)] *)
Definition get_embedding (text : string) : M Vector :=
  emit (EmbeddingCall text) ;;
  remote embed_faults with_embed_faults EmbeddingError ;;
  ret (embed_text text).

(** [translate_to_english(text)] *)
Definition translate_to_english (text : string) : M string :=
  emit (TranslateCall text) ;;
  remote llm_faults with_llm_faults LanguageModelError ;;
  ret (llm_translate text).

(** [search_knowledge_base(text, threshold)] *)
Definition search_knowledge_base (text : string) (threshold : Q) : M (list Row) :=
  query_vec <- get_embedding text ;;
  rows <- Database.fetch_similar query_vec threshold ;;
  ret rows.

(** The f-string of one context chunk. *)
Definition chunk_text (c : Row) : string :=
  "Topic: " ++ row_topic c ++ Py.nl ++ "Content: " ++ row_content c.

(** The [if context_chunks: ... else: ...] of [generate_answer]:
    [context_text] and [instruction_mode]. *)
Definition prompt_inputs (context_chunks : list Row) : string * string :=
  match context_chunks with
  | _ :: _ =>
      (Py.join (Py.nl ++ Py.nl) (List.map chunk_text context_chunks),
       "Use the provided context to answer.")
  | [] =>
      ("No database context available.",
       "Use your general knowledge about Project Zomboid to answer.")
  end.

(** [generate_answer(question, context_chunks)] *)
Definition generate_answer (question : string) (context_chunks : list Row) : M string :=
  let '(context_text, instruction_mode) := prompt_inputs context_chunks in
  emit (GenerateCall instruction_mode context_text question) ;;
  remote llm_faults with_llm_faults LanguageModelError ;;
  ret (llm_answer instruction_mode context_text question).

(** The default of [check_duplicate]'s [threshold]: the double that the
    literal [0.9] denotes, which is a little above nine tenths. *)
Definition duplicate_threshold : Q := 8106479329266893 # 9007199254740992.

(** [check_duplicate(text, threshold=0.9)] *)
Definition check_duplicate (text : string) (threshold : Q) : M bool :=
  results <- search_knowledge_base text threshold ;;
  ret (Nat.ltb 0 (List.length results)).

End WithExternal.
End AI.

(** ** utils/ui.py: colours *)

Module Colors.
Definition SUCCESS : Z := 0x57F287.
Definition ERROR : Z := 0xED4245.
Definition WARNING : Z := 0xFEE75C.
Definition AI_ANSWER : Z := 0x5865F2.
(** [discord.Color.blue()] *)
Definition blue : Z := 0x3498db.
End Colors.

(** ** cogs/knowledge.py *)

Module Knowledge.
Section WithExternal.
Context `{External}.

(** [log_audit(title, description, user)] *)
Definition log_audit (title description : string) (user : User) : M unit :=
  channel_id <- ConfigManager.get "channel_audit_log" None ;;
  if negb (Py.truthy_opt channel_id) then ret tt
  else
    match py_int (default "" channel_id) with
    | None => raise ValueError
    | Some cid =>
        if negb (channel_known cid) then ret tt
        else
          emit (ChannelSend cid
                  (mkEmbed (Some title) description Colors.blue
                     (Some (user_display_name user, user_avatar_url user))
                     (Some ("User ID: " ++ Py.str_int (user_id user), None)))
                  None)
    end.

(** [spoiler.lower() in ['yes', 'y', 'true']] *)
Definition is_spoiler (spoiler : string) : bool :=
  Py.str_in (Py.lower spoiler) ["yes"; "y"; "true"].

(** The [metadata] dict of a new entry. *)
Definition new_metadata (spoiler : string) (user : User) : gmap string Json :=
  <["votes" := JNum 0]> (<["flags" := JNum 0]> (<["is_spoiler" := JBool (is_spoiler spoiler)]>
    (<["author_id" := JNum (user_id user)]> ∅))).

(** The [update_meta] dict of an edit. *)
Definition update_meta (spoiler : string) (user : User) : gmap string Json :=
  <["is_spoiler" := JBool (is_spoiler spoiler)]>
    (<["last_editor_id" := JNum (user_id user)]> ∅).

(** [if doc_id:] *)
Definition doc_id_given (doc_id : option Z) : bool :=
  match doc_id with
  | Some id => Py.truthy_int id
  | None => false
  end.

Definition duplicate_warning : string :=
  "⚠️ This content seems very similar to existing knowledge. Consider using `/edit` instead.".

(** [upsert_knowledge(topic, content, spoiler, user, doc_id=None,
    check_dup=True)]: returns [(doc_id, error_message)]. *)
Definition upsert_knowledge (topic content spoiler : string) (user : User)
    (doc_id : option Z) (check_dup : bool) : M (option Z * option string) :=
  try_except
    (is_dup <-
       (if andb (bool_decide (doc_id = None)) check_dup
        then AI.check_duplicate (topic ++ " " ++ content) AI.duplicate_threshold
        else ret false) ;;
     if (is_dup : bool) then ret (None, Some duplicate_warning)
     else
       embedding <- AI.get_embedding ("Topic: " ++ topic ++ Py.nl ++ "Content: " ++ content) ;;
       saved <-
         (if doc_id_given doc_id then
            Database.execute_update_doc topic content embedding
              (update_meta spoiler user) (default 0 doc_id) ;;
            ret ("Updated", default 0 doc_id)
          else
            final_id <- Database.fetchval_insert_doc topic content embedding
                          (new_metadata spoiler user) ;;
            ret ("Added", final_id)) ;;
       log_audit ("Knowledge " ++ fst saved)
         ("**Topic:** " ++ topic ++ Py.nl ++ "**Content Length:** " ++
          Py.str_int (Z.of_nat (String.length content)) ++ " chars") user ;;
       ret (Some (snd saved), None))
    (fun e =>
       emit (LogException "Error in upsert_knowledge" e) ;;
       ret (None, Some ("An error occurred while saving: " ++ exn_message e))).

(** [save_knowledge(inter, topic, content, spoiler, doc_id=None)] *)
Definition save_knowledge (inter : Interaction) (topic content spoiler : string)
    (doc_id : option Z) : M unit :=
  r <- upsert_knowledge topic content spoiler (inter_user inter) doc_id true ;;
  if Py.truthy_opt (snd r) then
    emit (Followup (default "" (snd r)) true)
  else
    let action := if doc_id_given doc_id then "Updated" else "Added" in
    emit (FollowupEmbed
            (mkEmbed (Some ("Knowledge " ++ action)) ("**Topic:** " ++ topic)
               Colors.SUCCESS None None) true).

(** [if m.get('is_spoiler'):] *)
Definition json_truthy (j : option Json) : bool :=
  match j with
  | Some (JBool b) => b
  | Some (JNum n) => Py.truthy_int n
  | Some (JStr s) => Py.truthy_str s
  | Some JNull | None => false
  end.

(** [TeachModal(callback_func, default_topic, default_content,
    default_spoiler)]: a falsy topic or content sets no default. *)
Definition TeachModal (cb : ModalCallback) (default_topic default_content : option string)
    (default_spoiler : string) : Modal :=
  mkModal cb
    (if Py.truthy_opt default_topic then default_topic else None)
    (if Py.truthy_opt default_content then default_content else None)
    default_spoiler.

(** [open_edit_modal(interaction, doc_id)] *)
Definition open_edit_modal (inter : Interaction) (id : Z) : M unit :=
  doc <- Database.fetchrow_by_id id ;;
  match doc with
  | None =>
      emit (ResponseMessage ("❌ Document ID `" ++ Py.str_int id ++ "` not found.") true)
  | Some d =>
      let is_spoiler := if json_truthy (doc_metadata d !! "is_spoiler") then "yes" else "no" in
      emit (ResponseModal
              (TeachModal (CbEdit (doc_id d)) (Some (doc_topic d)) (Some (doc_content d))
                 is_spoiler))
  end.

(** [teach(interaction)] *)
Definition teach (inter : Interaction) : M unit :=
  emit (ResponseModal (TeachModal CbSave None None "no")).

(** [alias(interaction, trigger, replacement)] *)
Definition alias (inter : Interaction) (trigger replacement : string) : M unit :=
  emit Deferred ;;
  try_except
    (Database.execute_alias_upsert trigger replacement ;;
     emit (Followup ("✅ Alias set: `" ++ trigger ++ "` -> `" ++ replacement ++ "`") false) ;;
     log_audit "Alias Updated"
       ("**Trigger:** " ++ trigger ++ Py.nl ++ "**Replacement:** " ++ replacement)
       (inter_user inter))
    (fun e =>
       emit (LogException "Error setting alias" e) ;;
       emit (Followup ("❌ Error setting alias: " ++ exn_message e) false)).

(** [forget(interaction, topic)] *)
Definition forget (inter : Interaction) (topic : string) : M unit :=
  emit Deferred ;;
  exists_ <- Database.fetchval_id_by_topic topic ;;
  if negb (doc_id_given exists_) then
    emit (Followup ("❌ Topic `" ++ topic ++ "` not found.") true)
  else
    Database.execute_delete_by_topic topic ;;
    followup_send_delete_after ("🗑️ Forgot everything about `" ++ topic ++ "`.") 10 ;;
    log_audit "Knowledge Deleted" ("**Topic:** " ++ topic) (inter_user inter).

(** [edit(interaction, topic)] *)
Definition edit (inter : Interaction) (topic : string) : M unit :=
  doc_id <- Database.fetchval_id_by_topic topic ;;
  if negb (doc_id_given doc_id) then
    emit (ResponseMessage ("❌ Topic `" ++ topic ++ "` not found.") true)
  else
    open_edit_modal inter (default 0 doc_id).

End WithExternal.
End Knowledge.

(** ** utils/ui.py: the modal and the gap view *)

Module UI.
Section WithExternal.
Context `{External}.

(** [TeachGapView.teach(interaction, button)]; [origin] is the first
    embed of [interaction.message], if there is one. *)
Definition teach_gap (inter : Interaction) (missing_query : string)
    (origin : option Embed) : M unit :=
  emit (ResponseModal (Knowledge.TeachModal (CbGap origin) (Some missing_query) None "no")).

(** The [callback] closure of [TeachGapView.teach]. *)
Definition gap_callback (origin : option Embed) (inter : Interaction)
    (topic content spoiler : string) : M unit :=
  r <- Knowledge.upsert_knowledge topic content spoiler (inter_user inter) None true ;;
  if Py.truthy_opt (snd r) then
    emit (Followup (default "" (snd r)) true)
  else
    match origin with
    | Some e =>
        emit (OriginEdit
                (mkEmbed (Some "Knowledge Gap Resolved") (embed_description e)
                   Colors.SUCCESS (embed_author e)
                   (Some ("Taught by " ++ user_display_name (inter_user inter), None)))
                (EditGapView (default 0 (fst r))))
    | None => ret tt
    end ;;
    emit (Followup "✅ Saved." true).

(** [TeachModal.on_submit(interaction)] with the values of its three
    inputs. *)
Definition on_submit (m : Modal) (inter : Interaction) (topic content spoiler : string)
    : M unit :=
  emit Deferred ;;
  match modal_callback m with
  | CbSave => Knowledge.save_knowledge inter topic content spoiler None
  | CbEdit id => Knowledge.save_knowledge inter topic content spoiler (Some id)
  | CbGap origin => gap_callback origin inter topic content spoiler
  end.

End WithExternal.
End UI.

(** ** cogs/admin.py *)

Module Admin.

(** [app_commands.Choice]: the label shown and the value sent. *)
Record Choice := mkChoice {
  choice_name : string;
  choice_value : string
}.

(** [discord.Role] and [discord.TextChannel], as far as the commands
    read them. *)
Record Role := mkRole {
  role_id : Z;
  role_mention : string
}.

Record TextChannel := mkTextChannel {
  channel_id : Z;
  channel_mention : string
}.

(** [config_role(interaction, role_type, role)] *)
Definition config_role (inter : Interaction) (role_type : Choice) (role : Role) : M unit :=
  emit Deferred ;;
  ConfigManager.set ("role_" ++ choice_value role_type) (Py.str_int (role_id role)) ;;
  emit (Followup ("✅ Configured `" ++ choice_name role_type ++ "` role to " ++
                  role_mention role) false).

(** [config_channel(interaction, channel_type, channel)] *)
Definition config_channel (inter : Interaction) (channel_type : Choice)
    (channel : TextChannel) : M unit :=
  emit Deferred ;;
  ConfigManager.set ("channel_" ++ choice_value channel_type)
    (Py.str_int (channel_id channel)) ;;
  emit (Followup ("✅ Configured `" ++ choice_name channel_type ++ "` channel to " ++
                  channel_mention channel) false).

Section WithExternal.
Context `{External}.

(** [config_threshold(interaction, value)] *)
Definition config_threshold (inter : Interaction) (value : Q) : M unit :=
  emit Deferred ;;
  if negb (andb (Py.leb (1 # 10) value) (Py.leb value 1)) then
    emit (Followup "❌ Value must be between 0.1 and 1.0" true)
  else
    ConfigManager.set "ai_threshold" (str_float value) ;;
    emit (Followup ("✅ AI Confidence Threshold set to `" ++ str_float value ++ "`") false).

End WithExternal.
End Admin.

(** ** cogs/query.py *)

Module Query.
Section WithExternal.
Context `{External}.

(** The loop of [replace_aliases]: one [re.sub] for each row. *)
Fixpoint apply_aliases (rows : list (string * string)) (text : string) : M string :=
  match rows with
  | [] => ret text
  | (trigger, replacement) :: rest =>
      match re_sub_alias trigger replacement text with
      | None => raise RegexError
      | Some text => apply_aliases rest text
      end
  end.

(** [replace_aliases(text)] *)
Definition replace_aliases (text : string) : M string :=
  rows <- Database.fetch_aliases ;;
  apply_aliases rows text.

(** The message text without the two spellings of the bot's mention. *)
Definition strip_mention (content : string) : string :=
  let content := str_strip (Py.replace content ("<@" ++ Py.str_int bot_user_id ++ ">") "") in
  str_strip (Py.replace content ("<@!" ++ Py.str_int bot_user_id ++ ">") "").

(** The role whitelist: [any(rid in allowed_ids for rid in user_role_ids)],
    on the roles of an author who has some. *)
Definition has_allowed_role (allowed_roles_raw : string) (author : User) : bool :=
  let allowed_ids := Py.split_comma allowed_roles_raw in
  let user_role_ids := List.map Py.str_int (user_roles author) in
  existsb (fun rid => Py.str_in rid allowed_ids) user_role_ids.

(** The gap report of step 4. *)
Definition report_gap (query_text : string) (author : User) : M unit :=
  gaps_channel_id <- ConfigManager.get "channel_knowledge_gaps" None ;;
  if Py.truthy_opt gaps_channel_id then
    match py_int (default "" gaps_channel_id) with
    | None => raise ValueError
    | Some cid =>
        if channel_known cid then
          emit (ChannelSend cid
                  (mkEmbed (Some "Knowledge Gap Detected")
                     ("**Query:** " ++ query_text ++ Py.nl ++ "**User:** " ++
                      user_mention author ++ Py.nl ++ "*Attempting fallback answer...*")
                     Colors.WARNING None None)
                  (if knowledge_cog_loaded then Some (TeachGapView query_text) else None))
        else ret tt
    end
  else ret tt.

(** The confidence tier of the top result: colour mark and text. *)
Definition confidence (results : list Row) : string * string :=
  match results with
  | [] => ("âšª", "General Knowledge")
  | top_result :: _ =>
      let score := Py.int_of_float (row_similarity top_result * 100)%Q in
      if Z.leb 45 score then ("ðŸŸ¢", "High Confidence")
      else if Z.leb 30 score then ("ðŸŸ¡", "Medium Confidence")
      else ("ðŸ”´", "Low Confidence")
  end.

(** Name and avatar of the top result's author, when they resolve. *)
Definition contributor (results : list Row) : option (string * string) :=
  match results with
  | [] => None
  | top_result :: _ =>
      match row_metadata top_result !! "author_id" with
      | Some (JNum author_id) =>
          if Py.truthy_int author_id then find_user author_id else None
      | _ => None
      end
  end.

(** Steps 6 and 7: the reply that carries the answer. *)
Definition present (answer : string) (results : list Row) : Event :=
  let answer := re_bold_coords answer in
  let view := match results with [] => None | top_result :: _ => Some (VoteView (row_id top_result)) end in
  let '(confidence_color, confidence_text) := confidence results in
  let contributor_name := fst <$> contributor results in
  let contributor_icon := snd <$> contributor results in
  let footer_text :=
    (confidence_color ++ " " ++ confidence_text) ++
    (if Py.truthy_opt contributor_name
     then " â€¢ Contributed by " ++ default "" contributor_name else "") in
  Reply (mkEmbed None answer Colors.AI_ANSWER None
           (Some (footer_text,
                  if Py.truthy_opt contributor_icon then contributor_icon else None)))
        view.

(** [on_message], up to the permission checks: the text to answer, or
    [None] where the listener returns without answering. *)
Definition permission_gate (message : Message) : M (option string) :=
  if user_bot (msg_author message) then ret None
  else if negb (msg_mentions_bot message) then ret None
  else
    let content := strip_mention (msg_content message) in
    if negb (Py.truthy_str content) then ret None
    else
      global_enabled <- ConfigManager.get_or "global_reply_enabled" "true" ;;
      if String.eqb global_enabled "false" then ret None
      else
        allowed_roles_raw <- ConfigManager.get_or "allowed_roles" "" ;;
        if Py.truthy_str allowed_roles_raw then
          roles_of (msg_author message) ;;
          if negb (has_allowed_role allowed_roles_raw (msg_author message))
          then ret None
          else ret (Some content)
        else ret (Some content).

(** [on_message], the block under [async with message.channel.typing()]. *)
Definition respond (message : Message) (content : string) : M unit :=
  emit Typing ;;
  query_text <- replace_aliases content ;;
  threshold_str <- ConfigManager.get_or "ai_threshold" "0.5" ;;
  match py_float threshold_str with
  | None => raise ValueError
  | Some threshold =>
      english_query <- AI.translate_to_english query_text ;;
      results <- AI.search_knowledge_base english_query threshold ;;
      match results with
      | [] => report_gap query_text (msg_author message)
      | _ :: _ => ret tt
      end ;;
      answer <- AI.generate_answer query_text results ;;
      emit (present answer results)
  end.

(** [on_message(message)] *)
Definition on_message (message : Message) : M unit :=
  content <- permission_gate message ;;
  match content with
  | None => ret tt
  | Some content => respond message content
  end.

End WithExternal.
End Query.

(** ** How the gateway reaches the Knowledge cog *)

Module Gateway.
Section WithExternal.
Context `{External}.

(** What a user can ask of the cog: its four slash commands, the
    button of a gap report, and the submission of a modal it opened. *)
Inductive Request :=
| Teach
| Alias (trigger replacement : string)
| Forget (topic : string)
| Edit (topic : string)
| TeachGap (missing_query : string) (origin : option Embed)
| Submit (m : Modal) (topic content spoiler : string).

(** A command runs only when its check, [is_configured_role], returns
    [True]. *)
Definition checked (role_type : string) (inter : Interaction) (body : M unit) : M unit :=
  allowed <- ConfigManager.is_configured_role role_type (inter_user inter) ;;
  if (allowed : bool) then body else ret tt.

Definition handle (inter : Interaction) (r : Request) : M unit :=
  match r with
  | Teach => checked "librarian" inter (Knowledge.teach inter)
  | Alias trigger replacement =>
      checked "librarian" inter (Knowledge.alias inter trigger replacement)
  | Forget topic => checked "librarian" inter (Knowledge.forget inter topic)
  | Edit topic => checked "librarian" inter (Knowledge.edit inter topic)
  | TeachGap missing_query origin => UI.teach_gap inter missing_query origin
  | Submit m topic content spoiler => UI.on_submit m inter topic content spoiler
  end.

End WithExternal.
End Gateway.

(** ** The bot object: presence, avatar, scheduled tasks *)

(** The two buttons of a [VoteView]: [children[0]] and [children[1]]. *)
Record Button := mkButton {
  button_label : string;
  button_disabled : bool
}.

Record VoteButtons := mkVoteButtons {
  helpful_button : Button;
  wrong_button : Button
}.

(** [discord.Status], the two values the program uses. *)
Inductive Status :=
| StatusOnline
| StatusDnd.

(** How one upload of an avatar ends. *)
Inductive Upload :=
| Uploaded
| RateLimited                    (* HTTPException, code 50035 or status 429 *)
| HttpError (message : string)   (* any other HTTPException *)
| ReadError (message : string)   (* [open] or [read] raised *)
| OtherError (message : string). (* [edit] raised anything else *)

(** What the program does through the bot object or to a message it
    sent, beyond the events of the handlers. *)
Inductive Action :=
| ChangePresence (status : Status) (activity : string) (* change_presence *)
| UserEdit (state : string)                  (* self.user.edit(avatar=<assets/state.png>) *)
| Sleep (seconds : Z)                        (* asyncio.sleep *)
| EditOriginalResponse (content : string)    (* interaction.edit_original_response *)
| EditMessage (view : VoteButtons)           (* interaction.response.edit_message(view=self) *)
| LogWarning (text : string)
| LogError (text : string).

(** The bot: the world of the handlers, the attribute
    [current_avatar_state], the outcomes the next uploads will have (an
    exhausted script: success), the tasks created and not yet run (oldest
    first), and the actions so far (oldest first), each with the number
    of events that came before it. *)
Record Bot := mkBot {
  world : World;
  current_avatar_state : option string;
  uploads : list Upload;
  tasks : list (string * Z);
  actions : list (nat * Action)
}.

Definition with_world (w : World) (b : Bot) : Bot :=
  mkBot w (current_avatar_state b) (uploads b) (tasks b) (actions b).

Definition with_avatar_state (s : option string) (b : Bot) : Bot :=
  mkBot (world b) s (uploads b) (tasks b) (actions b).

Definition with_uploads (l : list Upload) (b : Bot) : Bot :=
  mkBot (world b) (current_avatar_state b) l (tasks b) (actions b).

Definition with_tasks (l : list (string * Z)) (b : Bot) : Bot :=
  mkBot (world b) (current_avatar_state b) (uploads b) l (actions b).

Definition with_action (a : Action) (b : Bot) : Bot :=
  mkBot (world b) (current_avatar_state b) (uploads b) (tasks b)
        (actions b ++ [(List.length (events (world b)), a)]).

(** What is on disk. *)
Class Host := {
  (** [os.path.exists(path)]. *)
  asset_exists : string -> bool
}.

(** The monad of the code that holds the bot. *)
Definition B (A : Type) : Type := Bot -> Result A * Bot.

Definition retB {A} (a : A) : B A := fun b => (Ok a, b).

Definition bindB {A C} (m : B A) (k : A -> B C) : B C :=
  fun b =>
    match m b with
    | (Ok a, b') => k a b'
    | (Raise e, b') => (Raise e, b')
    end.

Definition try_exceptB {A} (body : B A) (handler : Exn -> B A) : B A :=
  fun b =>
    match body b with
    | (Ok a, b') => (Ok a, b')
    | (Raise e, b') => handler e b'
    end.

(** A handler of the cogs, run on the bot's world. *)
Definition lift {A} (m : M A) : B A :=
  fun b => let (r, w') := m (world b) in (r, with_world w' b).

Definition act (a : Action) : B unit := fun b => (Ok tt, with_action a b).

Definition getsB {A} (f : Bot -> A) : B A := fun b => (Ok (f b), b).

Definition modifyB (f : Bot -> Bot) : B unit := fun b => (Ok tt, f b).

Declare Scope bot_scope.
Delimit Scope bot_scope with bot.
Notation "x <- c1 ;; c2" := (bindB c1 (fun x => c2))
  (at level 100, c1 at next level, right associativity) : bot_scope.
Notation "c1 ;; c2" := (bindB c1 (fun _ => c2))
  (at level 100, right associativity) : bot_scope.

(** ** main.py *)

Module PinyaBot.
Section WithHost.
Context `{Host}.
Local Open Scope bot_scope.

(** The outcome of the next upload and what remains of the script. *)
Definition next_upload (script : list Upload) : Upload * list Upload :=
  match script with
  | [] => (Uploaded, [])
  | u :: rest => (u, rest)
  end.

(** [max(300, retry_delay * 2) if retry_delay else 300] *)
Definition new_delay (retry_delay : Z) : Z :=
  if Py.truthy_int retry_delay then Z.max 300 (retry_delay * 2) else 300.

(** [self.loop.create_task(self.update_avatar(state, delay))] *)
Definition create_task (state : string) (delay : Z) : B unit :=
  modifyB (fun b => with_tasks (tasks b ++ [(state, delay)])%list b).

(** [update_avatar(state, retry_delay=0)] *)
Definition update_avatar (state : string) (retry_delay : Z) : B unit :=
  current <- getsB current_avatar_state ;;
  if bool_decide (current = Some state) then retB tt
  else if Z.gtb retry_delay 600 then
    act (LogError ("❌ Gave up updating avatar to " ++ state ++ " after repeated failures."))
  else
    (if Z.gtb retry_delay 0 then act (Sleep retry_delay) else retB tt) ;;
    let file_path := "assets/" ++ state ++ ".png" in
    if negb (asset_exists file_path) then retB tt
    else
      script <- getsB uploads ;;
      let (outcome, rest) := next_upload script in
      modifyB (with_uploads rest) ;;
      match outcome with
      | ReadError message => act (LogError ("❌ Error updating avatar: " ++ message))
      | Uploaded =>
          act (UserEdit state) ;;
          modifyB (with_avatar_state (Some state)) ;;
          lift (emit (LogInfo ("✅ Avatar updated to state: " ++ state)))
      | RateLimited =>
          act (UserEdit state) ;;
          let new_delay := new_delay retry_delay in
          act (LogWarning ("⚠️ Rate limited on avatar change. Retrying in " ++
                           Py.str_int new_delay ++ "s...")) ;;
          create_task state new_delay
      | HttpError message =>
          act (UserEdit state) ;;
          act (LogError ("❌ Failed to update avatar: " ++ message))
      | OtherError message =>
          act (UserEdit state) ;;
          act (LogError ("❌ Error updating avatar: " ++ message))
      end.

(** The event loop runs the oldest task that [create_task] left. *)
Definition run_task : B unit :=
  pending <- getsB tasks ;;
  match pending with
  | [] => retB tt
  | (state, delay) :: rest => modifyB (with_tasks rest) ;; update_avatar state delay
  end.

Fixpoint run_tasks (n : nat) : B unit :=
  match n with
  | O => retB tt
  | S n' => run_task ;; run_tasks n'
  end.

(** [update_status()] *)
Definition update_status : B unit :=
  global_enabled <- lift (ConfigManager.get_or "global_reply_enabled" "true") ;;
  allowed_roles <- lift (ConfigManager.get_or "allowed_roles" "") ;;
  if String.eqb global_enabled "false" then
    act (ChangePresence StatusDnd "Sleeping 💤 (Replies Off)") ;;
    update_avatar "sleeping" 0
  else if Py.truthy_str allowed_roles then
    act (ChangePresence StatusOnline "Helping specific roles 🔒") ;;
    update_avatar "locked" 0
  else
    act (ChangePresence StatusOnline "Ask me via @Encyclopinya") ;;
    update_avatar "online" 0.

End WithHost.
End PinyaBot.

(** ** utils/ui.py: the vote buttons *)

Module VoteView.
Local Open Scope bot_scope.

(** The view as [__init__] and the two decorators build it. *)
Definition new : VoteButtons :=
  mkVoteButtons (mkButton "Helpful" false) (mkButton "Wrong" false).

(** [helpful(interaction, button)]: the view after the click. *)
Definition helpful (view : VoteButtons) : B VoteButtons :=
  let button := mkButton "Voted" true in
  let other := mkButton (button_label (wrong_button view)) true in
  let view := mkVoteButtons button other in
  act (EditMessage view) ;;
  retB view.

(** [wrong(interaction, button)] *)
Definition wrong (view : VoteButtons) : B VoteButtons :=
  let button := mkButton "Flagged" true in
  let other := mkButton (button_label (helpful_button view)) true in
  let view := mkVoteButtons other button in
  act (EditMessage view) ;;
  retB view.

End VoteView.

(** ** cogs/admin.py: the commands that reach the bot *)

Module Maintenance.

(** [SELECT id, topic, content FROM pinya_docs] *)
Definition fetch_docs : M (list (Z * string * string)) :=
  Database.round_trip ;;
  gets (fun w => List.map (fun d => (doc_id d, doc_topic d, doc_content d)) (pinya_docs w)).

(** The [SET] clause of the re-index on one row. *)
Definition with_embedding (vec : Vector) (d : Doc) : Doc :=
  mkDoc (doc_id d) (doc_topic d) (doc_content d) vec (doc_metadata d).

(** [UPDATE pinya_docs SET embedding = $1 WHERE id = $2] *)
Definition execute_update_embedding (vec : Vector) (id : Z) : M unit :=
  Database.round_trip ;;
  modify (with_docs (List.map (fun d =>
    if Z.eqb (doc_id d) id then with_embedding vec d else d))).

End Maintenance.

Module AdminBot.
Section WithExternal.
Context `{External} `{Host}.
Local Open Scope bot_scope.

(** [str(enabled).lower()] *)
Definition str_bool_lower (b : bool) : string := if b then "true" else "false".

(** [xs.remove(x)]: the first occurrence goes. *)
Fixpoint list_remove (x : string) (xs : list string) : list string :=
  match xs with
  | [] => []
  | y :: rest => if String.eqb y x then rest else y :: list_remove x rest
  end.

(** [config_reply_global(interaction, enabled)] *)
Definition config_reply_global (inter : Interaction) (enabled : bool) : B unit :=
  lift (emit Deferred) ;;
  lift (ConfigManager.set "global_reply_enabled" (str_bool_lower enabled)) ;;
  let status := if enabled then "enabled" else "disabled" in
  PinyaBot.update_status ;;
  lift (emit (Followup ("✅ Bot replies have been **" ++ status ++ "**.") false)).

(** The whitelist as the command reads it: split, empty strings dropped. *)
Definition current_list (current_raw : string) : list string :=
  let current_list := if Py.truthy_str current_raw then Py.split_comma current_raw else [] in
  List.filter Py.truthy_str current_list.

(** [config_reply_role(interaction, action, role=None)].  Past the first
    check an action [add] or [remove] has its role. *)
Definition config_reply_role (inter : Interaction) (action : Admin.Choice)
    (role : option Admin.Role) : B unit :=
  lift (emit Deferred) ;;
  if andb (Py.str_in (Admin.choice_value action) ["add"; "remove"])
          (negb (bool_decide (is_Some role)))
  then lift (emit (Followup "❌ You must specify a role for Add/Remove." true))
  else
    current_raw <- lift (ConfigManager.get_or "allowed_roles" "") ;;
    let current_list := current_list current_raw in
    if String.eqb (Admin.choice_value action) "add" then
      match role with
      | None => retB tt
      | Some role =>
          if negb (Py.str_in (Py.str_int (Admin.role_id role)) current_list) then
            let current_list := (current_list ++ [Py.str_int (Admin.role_id role)])%list in
            lift (ConfigManager.set "allowed_roles" (Py.join "," current_list)) ;;
            PinyaBot.update_status ;;
            lift (emit (Followup ("✅ Added " ++ Admin.role_mention role ++
                                  " to allowed roles.") false))
          else
            lift (emit (Followup ("⚠️ " ++ Admin.role_mention role ++
                                  " is already in the list.") true))
      end
    else if String.eqb (Admin.choice_value action) "remove" then
      match role with
      | None => retB tt
      | Some role =>
          if Py.str_in (Py.str_int (Admin.role_id role)) current_list then
            let current_list := list_remove (Py.str_int (Admin.role_id role)) current_list in
            lift (ConfigManager.set "allowed_roles" (Py.join "," current_list)) ;;
            PinyaBot.update_status ;;
            lift (emit (Followup ("✅ Removed " ++ Admin.role_mention role ++
                                  " from allowed roles.") false))
          else
            lift (emit (Followup ("⚠️ " ++ Admin.role_mention role ++
                                  " was not in the list.") true))
      end
    else if String.eqb (Admin.choice_value action) "clear" then
      lift (ConfigManager.set "allowed_roles" "") ;;
      PinyaBot.update_status ;;
      lift (emit (Followup "✅ Cleared all allowed roles. Bot is now open to everyone (unless global toggled off)." false))
    else retB tt.

(** One turn of the loop of [reindex]: the count after it. *)
Definition reindex_doc (total : nat) (updated : nat) (doc : Z * string * string) : B nat :=
  let '(id, topic, content) := doc in
  let text_to_embed := "Topic: " ++ topic ++ Py.nl ++ "Content: " ++ content in
  new_embedding <- lift (AI.get_embedding text_to_embed) ;;
  lift (Maintenance.execute_update_embedding new_embedding id) ;;
  let updated := S updated in
  (if Nat.eqb (updated mod 10) 0 then
     act (EditOriginalResponse ("🔄 Re-indexing... (" ++ Py.str_int (Z.of_nat updated) ++
                                "/" ++ Py.str_int (Z.of_nat total) ++ ")"))
   else retB tt) ;;
  retB updated.

Fixpoint reindex_loop (total : nat) (updated : nat) (docs : list (Z * string * string))
    : B nat :=
  match docs with
  | [] => retB updated
  | doc :: rest =>
      updated <- reindex_doc total updated doc ;;
      reindex_loop total updated rest
  end.

(** [reindex(interaction)] *)
Definition reindex (inter : Interaction) : B unit :=
  lift (emit Deferred) ;;
  lift (emit (Followup "🔄 Starting Re-indexing... This may take a while." true)) ;;
  try_exceptB
    (docs <- lift Maintenance.fetch_docs ;;
     let total := List.length docs in
     if Nat.eqb total 0 then
       lift (emit (Followup "⚠️ Database is empty. Nothing to re-index." true))
     else
       updated <- reindex_loop total 0 docs ;;
       lift (emit (Followup ("✅ Re-indexing complete! Updated " ++
                             Py.str_int (Z.of_nat updated) ++ "/" ++
                             Py.str_int (Z.of_nat total) ++ " documents.") true)))
    (fun e => lift (emit (Followup ("❌ Re-indexing failed: " ++ exn_message e) true))).

End WithExternal.
End AdminBot.

(** ** A small deployment, for the examples *)

Module Sample.

Definition dot (a b : Vector) : Q :=
  fold_right Qplus 0%Q (zip_with Qmult a b).

(** The provider returns vectors of length one, on which the cosine
    distance is one minus the inner product. *)
Definition unit_cosine_distance (a b : Vector) : Q := (1 - dot a b)%Q.

Definition fishing_topic : string := "Fishing".
Definition fishing_content : string := "Use a fishing rod near water".
Definition fishing_stored_text : string :=
  "Topic: " ++ fishing_topic ++ Py.nl ++ "Content: " ++ fishing_content.

Definition embed (text : string) : Vector :=
  if String.eqb text fishing_stored_text then [0; 1]%Q
  else if String.eqb text "how to fish" then [3 # 5; 4 # 5]%Q
  else if String.eqb text "where to build a base" then [24 # 25; 7 # 25]%Q
  else [1; 0]%Q.

Definition translate (text : string) : string :=
  if String.eqb text "paano mangisda" then "how to fish"
  else if String.eqb text "paano mangisda sa Project Zomboid" then "how to fish"
  else text.

Definition parse_float (s : string) : option Q :=
  if String.eqb s "0.2" then Some (1 # 5)%Q
  else if String.eqb s "0.3" then Some (3 # 10)%Q
  else if String.eqb s "0.5" then Some (1 # 2)%Q
  else if String.eqb s "0.9" then Some (9 # 10)%Q
  else None.

Definition print_float (x : Q) : string :=
  if Qeq_bool x (1 # 5) then "0.2"
  else if Qeq_bool x (3 # 10) then "0.3"
  else if Qeq_bool x (1 # 2) then "0.5"
  else if Qeq_bool x (9 # 10) then "0.9"
  else "2.5".

Definition parse_int (s : string) : option Z :=
  Z.of_int <$> NilZero.int_of_string s.

#[local] Instance external : External := {|
  embed_text := embed;
  cosine_distance := unit_cosine_distance;
  llm_translate := translate;
  llm_answer := fun instruction_mode context question => "Re: " ++ question;
  re_sub_alias := fun trigger replacement text => Some (Py.replace text trigger replacement);
  tie_rank := fun _ _ _ => 0;
  alias_rank := fun _ => 0;
  re_bold_coords := fun answer => answer;
  py_float := parse_float;
  py_int := parse_int;
  str_float := print_float;
  str_strip := fun s => s;
  channel_known := fun _ => true;
  knowledge_cog_loaded := true;
  find_user := fun _ => None;
  bot_user_id := 1;
  exn_message := fun _ => "failed"
|}.

Definition librarian : User :=
  mkUser 7 false "Ana" "https://cdn.example/ana.png" "<@7>" [10] true.

Definition member : User :=
  mkUser 8 false "Ben" "https://cdn.example/ben.png" "<@8>" [] true.

(** Ana, writing to the bot in a direct message. *)
Definition visitor : User :=
  mkUser 7 false "Ana" "https://cdn.example/ana.png" "<@7>" [] false.

Definition fishing_doc : Doc :=
  mkDoc 1 fishing_topic fishing_content [0; 1]%Q
    (<["votes" := JNum 3]> (<["flags" := JNum 1]> (<["is_spoiler" := JBool false]>
       (<["author_id" := JNum 7]> ∅)))).

Definition base_doc : Doc :=
  mkDoc 2 "Base" "Board the windows first" [1; 0]%Q
    (<["votes" := JNum 0]> (<["flags" := JNum 0]> (<["is_spoiler" := JBool false]>
       (<["author_id" := JNum 7]> ∅)))).

(** Nothing stored, nothing configured, every service answering. *)
Definition empty_world : World :=
  mkWorld ∅ [] 0 [] ∅ [] [] [] [].

(** Two entries, one alias, the librarian role, no channel set. *)
Definition stocked_world : World :=
  mkWorld (<["role_librarian" := "10"]> ∅) [fishing_doc; base_doc] 2
          [("pz", "Project Zomboid")] (<["role_librarian" := "10"]> ∅) [] [] [] [].

(** As [stocked_world], with the gaps channel set. *)
Definition reporting_world : World :=
  with_cache (fun c => <["channel_knowledge_gaps" := "55"]> c)
    (with_config (fun c => <["channel_knowledge_gaps" := "55"]> c) stocked_world).

(** As [reporting_world], with nothing stored. *)
Definition bare_reporting_world : World :=
  with_docs (fun _ => []) reporting_world.

(** A message that mentions the bot (whose id is 1) and then says [text]. *)
Definition mention (author : User) (text : string) : Message :=
  mkMessage author true ("<@1>" ++ text).

End Sample.

(** ** A deployment with the awkward cases *)

(** A server that orders tied rows by the threshold, and a [re.sub]
    that rejects the one replacement with a bad escape. *)
Module Awkward.

(** ["C:\path"] has the escape [\p], which [re.sub] does not know. *)
Definition sub (trigger replacement text : string) : option string :=
  if String.eqb replacement "C:\path" then None
  else Some (Py.replace text trigger replacement).

(** Among rows of equal similarity: low ids first from a threshold of
    one half up, high ids first below. *)
Definition rank (query_vec : Vector) (threshold : Q) (r : Row) : Z :=
  if Qle_bool (1 # 2) threshold then row_id r else - row_id r.

#[local] Instance external : External := {|
  embed_text := Sample.embed;
  cosine_distance := Sample.unit_cosine_distance;
  llm_translate := Sample.translate;
  llm_answer := fun instruction_mode context question => "Re: " ++ question;
  re_sub_alias := sub;
  tie_rank := rank;
  alias_rank := fun _ => 0;
  re_bold_coords := fun answer => answer;
  py_float := Sample.parse_float;
  py_int := Sample.parse_int;
  str_float := Sample.print_float;
  str_strip := fun s => s;
  channel_known := fun _ => true;
  knowledge_cog_loaded := true;
  find_user := fun _ => None;
  bot_user_id := 1;
  exn_message := fun _ => "failed"
|}.


End Awkward.

(** ** Vocabulary of the statements *)

(** A service that answers all the calls its script speaks of. *)
Definition calm (script : list bool) : Prop := Forall (fun b => b = false) script.

(** The outcome the service gives to the next call. *)
Definition next_fails (script : list bool) : bool := hd false script.

(** Non-increasing similarity, first to last. *)
Definition descending (rows : list Row) : Prop :=
  StronglySorted (fun a b => (row_similarity b <= row_similarity a)%Q) rows.

(** The events a computation adds to the world it runs in. *)
Definition emitted {A} (m : M A) (w : World) : list Event :=
  drop (List.length (events w)) (events (snd (m w))).

(** The part [f] of the world is the same before and after. *)
Definition unchanged {X} (f : World -> X) (w w' : World) : Prop := f w' = f w.

(** No alias trigger of the world before is missing after. *)
Definition triggers_kept (w w' : World) : Prop :=
  forall t, In t (List.map fst (aliases w)) -> In t (List.map fst (aliases w')).

Section QueryVocabulary.
Context `{External}.

(** The text of a query after the aliases have been applied to it, in
    the order the server returns them; [None] where a replacement is no
    valid template for [re.sub]. *)
Definition substituted (content : string) (w : World) : option string :=
  fold_left (fun text row => text ≫= re_sub_alias (fst row) (snd row))
            (Database.ranked alias_rank (aliases w)) (Some content).

(** The records whose similarity to the query vector is above the
    threshold: those the [WHERE] of the similarity query keeps. *)
Definition qualifying (query_vec : Vector) (threshold : Q) (docs : list Doc) : list Doc :=
  List.filter (fun d => Py.gtb (Database.similarity query_vec d) threshold) docs.

(** The threshold setting a live query reads. *)
Definition threshold_setting (w : World) : string :=
  default "0.5" (_cache w !! "ai_threshold").

(** What retrieval finds for a query text in a world, at a threshold. *)
Definition retrieved (query_text : string) (threshold : Q) (w : World) : list Row :=
  Database.select_similar (embed_text (llm_translate query_text)) threshold (pinya_docs w).

(** The answer call made for a question and its context rows. *)
Definition answer_call (question : string) (results : list Row) : Event :=
  GenerateCall (snd (AI.prompt_inputs results)) (fst (AI.prompt_inputs results)) question.

(** The reply that carries the model's answer. *)
Definition answer_reply (question : string) (results : list Row) : Event :=
  Query.present
    (llm_answer (snd (AI.prompt_inputs results)) (fst (AI.prompt_inputs results)) question)
    results.

(** The notification of a knowledge gap. *)
Definition gap_notice (channel : Z) (query_text : string) (author : User) : Event :=
  ChannelSend channel
    (mkEmbed (Some "Knowledge Gap Detected")
       ("**Query:** " ++ query_text ++ Py.nl ++ "**User:** " ++
        user_mention author ++ Py.nl ++ "*Attempting fallback answer...*")
       Colors.WARNING None None)
    (if knowledge_cog_loaded then Some (TeachGapView query_text) else None).

(** The world in which a live query, whose text after the aliases is
    [query_text], looks at what retrieval returned. *)
Definition after_retrieval (query_text : string) (w : World) : World :=
  with_db_faults (tl (tl (db_faults w)))
    (with_embed_faults (tl (embed_faults w))
       (with_event (EmbeddingCall (llm_translate query_text))
          (with_llm_faults (tl (llm_faults w))
             (with_event (TranslateCall query_text)
                (with_db_faults (tl (db_faults w)) (with_event Typing w)))))).

End QueryVocabulary.

(** The description of the audit entry of a saved record. *)
Definition audit_text (topic content : string) : string :=
  "**Topic:** " ++ topic ++ Py.nl ++ "**Content Length:** " ++
  Py.str_int (Z.of_nat (String.length content)) ++ " chars".

(** [m] takes every world to one related to it by [R], whether it
    returns or raises. *)
Definition preserves {A} (R : World -> World -> Prop) (m : M A) : Prop :=
  forall w, R w (snd (m w)).

(** A relation between the world before and after that events and the
    consumption of fault scripts do not disturb. *)
Class Frame (R : World -> World -> Prop) : Prop := {
  frame_refl : forall w, R w w;
  frame_trans : forall w1 w2 w3, R w1 w2 -> R w2 w3 -> R w1 w3;
  frame_event : forall e w, R w (with_event e w);
  frame_db : forall l w, R w (with_db_faults l w);
  frame_embed : forall l w, R w (with_embed_faults l w);
  frame_llm : forall l w, R w (with_llm_faults l w)
}.

(** An event that the requester or a channel gets to see. *)
Definition visible (e : Event) : bool :=
  match e with
  | ResponseMessage _ _ | ResponseModal _ | Followup _ _ | FollowupEmbed _ _
  | ChannelSend _ _ _ | Reply _ _ | OriginEdit _ _ => true
  | Deferred | Typing | EmbeddingCall _ | TranslateCall _ | GenerateCall _ _ _
  | LogInfo _ | LogException _ _ => false
  end.

(** ** Vocabulary of the further properties *)

(** The cache holds what the [config] table holds. *)
Definition coherent (w : World) : Prop := _cache w = config w.

(** Ids are those the [SERIAL] column has issued: positive, no more than
    the sequence, and no two rows share one. *)
Definition store_ok (w : World) : Prop :=
  0 <= pinya_docs_seq w /\
  NoDup (List.map doc_id (pinya_docs w)) /\
  Forall (fun d => 0 < doc_id d <= pinya_docs_seq w) (pinya_docs w).

(** The text whose embedding a record is stored with. *)
Definition stored_text (topic content : string) : string :=
  "Topic: " ++ topic ++ Py.nl ++ "Content: " ++ content.

(** The replacement the alias table gives for a trigger. *)
Definition alias_of (rows : list (string * string)) (trigger : string) : option string :=
  snd <$> List.find (fun row => String.eqb (fst row) trigger) rows.

(** The four slash commands of the Knowledge cog, which carry the
    librarian check. *)
Definition slash_command (r : Gateway.Request) : bool :=
  match r with
  | Gateway.Teach | Gateway.Alias _ _ | Gateway.Forget _ | Gateway.Edit _ => true
  | Gateway.TeachGap _ _ | Gateway.Submit _ _ _ _ => false
  end.

(** A message to the requester that ends a modal submission. *)
Definition closing_followup (e : Event) : Prop :=
  match e with
  | Followup text true => text <> ""
  | FollowupEmbed _ true => True
  | _ => False
  end.

Section FurtherVocabulary.
Context `{External}.

(** Every stored vector is the embedding of its row's text. *)
Definition indexed (w : World) : Prop :=
  Forall (fun d => doc_embedding d = embed_text (stored_text (doc_topic d) (doc_content d)))
         (pinya_docs w).

(** An indexed store stays indexed. *)
Definition stays_indexed (w w' : World) : Prop := indexed w -> indexed w'.

End FurtherVocabulary.

(** A frame that writes to the knowledge tables do not disturb either. *)
Class KnowledgeFrame (R : World -> World -> Prop) : Prop := {
  knowledge_frame :: Frame R;
  frame_docs : forall f w, R w (with_docs f w);
  frame_seq : forall n w, R w (with_seq n w);
  frame_aliases : forall f w, R w (with_aliases f w)
}.

(** A frame that writes to the config table and the cache do not
    disturb either. *)
Class ConfigFrame (R : World -> World -> Prop) : Prop := {
  config_frame :: Frame R;
  frame_config : forall f w, R w (with_config f w);
  frame_cache : forall f w, R w (with_cache f w)
}.

(** Coherence, once there, stays. *)
Definition stays_coherent (w w' : World) : Prop := coherent w -> coherent w'.

(** The refusal of a command whose role is not configured. *)
Definition not_configured_text (role_type : string) : string :=
  "❌ The `" ++ role_type ++
  "` role has not been configured yet. Ask an admin to run `/admin config role`.".

(** The event log only grows. *)
Definition events_grow (w w' : World) : Prop :=
  exists more, events w' = (events w ++ more)%list.

(** A sound store stays sound. *)
Definition stays_ok (w w' : World) : Prop := store_ok w -> store_ok w'.

(** ** Vocabulary of the properties of the bot *)

(** The actions of the bot, oldest first. *)
Definition performed (b : Bot) : list Action := List.map snd (actions b).

(** The actions a computation adds. *)
Definition performed_by {A} (m : B A) (b : Bot) : list Action :=
  drop (List.length (actions b)) (performed (snd (m b))).

Definition is_upload (a : Action) : bool :=
  match a with UserEdit _ => true | _ => false end.

(** How many times the avatar has been sent. *)
Definition upload_count (b : Bot) : nat :=
  List.length (List.filter is_upload (performed b)).

(** The whitelist setting as the listener and the commands read it. *)
Definition whitelist (w : World) : string := default "" (_cache w !! "allowed_roles").

(** The role is one of the entries of the whitelist. *)
Definition whitelisted (w : World) (rid : Z) : Prop :=
  In (Py.str_int rid) (AdminBot.current_list (whitelist w)).

(** No comma in the text. *)
Fixpoint comma_free (s : string) : bool :=
  match s with
  | EmptyString => true
  | String c s' => andb (negb (Ascii.eqb c ","%char)) (comma_free s')
  end.

(** The presence the bot shows: that of its last [change_presence]. *)
Definition presence (b : Bot) : option (Status * string) :=
  last (omap (fun a => match a with
                       | ChangePresence status activity => Some (status, activity)
                       | _ => None
                       end) (performed b)).

Section BotVocabulary.
Context `{External}.

(** The record with the vector of its own text. *)
Definition reembedded (d : Doc) : Doc :=
  Maintenance.with_embedding (embed_text (stored_text (doc_topic d) (doc_content d))) d.

End BotVocabulary.

(** The columns of a record that a re-index does not write. *)
Definition columns_kept (d : Doc) : Z * string * string * gmap string Json :=
  (doc_id d, doc_topic d, doc_content d, doc_metadata d).

(** Nothing but the stored vectors differs. *)
Definition vectors_apart (w w' : World) : Prop :=
  config w' = config w /\ _cache w' = _cache w /\ aliases w' = aliases w /\
  pinya_docs_seq w' = pinya_docs_seq w /\
  List.map columns_kept (pinya_docs w') = List.map columns_kept (pinya_docs w).

(** The votes and the flags of a record. *)
Definition tally (d : Doc) : option Json * option Json :=
  (doc_metadata d !! "votes", doc_metadata d !! "flags").

(** Every record afterwards is a record from before with the tally it
    had, or a record with a new id and a tally of zero. *)
Definition tallies_kept (w w' : World) : Prop :=
  pinya_docs_seq w <= pinya_docs_seq w' /\
  forall d', In d' (pinya_docs w') ->
    (exists d, In d (pinya_docs w) /\ doc_id d = doc_id d' /\ tally d = tally d') \/
    (pinya_docs_seq w < doc_id d' /\ tally d' = (Some (JNum 0), Some (JNum 0))).

(** [m] takes the world of every bot to one related to it by [R]. *)
Definition preservesB {A} (R : World -> World -> Prop) (m : B A) : Prop :=
  forall b, R (world b) (world (snd (m b))).

(** What the re-index reads of a record. *)
Definition snapshot (d : Doc) : Z * string * string :=
  (doc_id d, doc_topic d, doc_content d).

(** The message that ends a re-index. *)
Definition reindex_report (e : Event) : Prop :=
  match e with
  | Followup text true => True
  | _ => False
  end.

Module SampleBot.

(** The three pictures are on disk. *)
#[local] Instance host : Host := {|
  asset_exists := fun path =>
    Py.str_in path ["assets/online.png"; "assets/sleeping.png"; "assets/locked.png"]
|}.

(** A bot that has just started on a world. *)
Definition started (w : World) : Bot := mkBot w None [] [] [].

End SampleBot.

(** * Part II: what the program guarantees *)

(** ** The sample deployment, run *)

Example search_sample_half :
  List.map row_id
    (Database.select_similar (H := Sample.external) [24 # 25; 7 # 25]%Q (1 # 2)
       [Sample.fishing_doc; Sample.base_doc]) = [2].
Proof. reflexivity. Qed.

Example search_sample_fifth :
  List.map (fun r => (row_id r, row_similarity r))
    (Database.select_similar (H := Sample.external) [24 # 25; 7 # 25]%Q (1 # 5)
       [Sample.fishing_doc; Sample.base_doc]) = [(2, (600 # 625)%Q); (1, (175 # 625)%Q)].
Proof. reflexivity. Qed.

(** With a server that leaves equal scores in table order, they come back
    in that order; at most three rows come back. *)
Example search_sample_ties :
  List.map row_id
    (Database.select_similar (H := Sample.external) [1; 0]%Q (1 # 2)
       [mkDoc 1 "a" "" [1; 0]%Q ∅; mkDoc 2 "b" "" [0; 1]%Q ∅; mkDoc 3 "c" "" [1; 0]%Q ∅;
        mkDoc 4 "d" "" [1; 0]%Q ∅; mkDoc 5 "e" "" [1; 0]%Q ∅]) = [1; 3; 4].
Proof. reflexivity. Qed.

Example strip_mention_sample :
  Query.strip_mention (H := Sample.external) "<@1>hello <@!1>there" = "hello there".
Proof. reflexivity. Qed.

Example python_builtins :
  Py.replace "a-b-c" "-" "+" = "a+b+c" /\
  Py.replace "ab" "" "-" = "-a-b-" /\
  Py.split_comma "10,,20" = ["10"; ""; "20"] /\
  Py.join "," ["10"; "20"] = "10,20" /\
  Py.lower "YeS" = "yes" /\
  Py.int_of_float (-7 # 2) = (-3) /\
  Py.int_of_float (299 # 10) = 29 /\
  Py.str_int (-42) = "-42".
Proof. repeat split; reflexivity. Qed.

(** ** Floats *)

Section FloatFacts.

Lemma gtb_lt a b : Py.gtb a b = true <-> (b < a)%Q.
Proof.
  unfold Py.gtb. rewrite negb_true_iff. split; intros Hab.
  - apply Qnot_le_lt. intros Hle. apply Qle_bool_iff in Hle. congruence.
  - destruct (Qle_bool a b) eqn:E; [|reflexivity].
    apply Qle_bool_iff in E. exfalso. eapply Qlt_not_le; eassumption.
Qed.

Lemma gtb_le a b : Py.gtb a b = false <-> (a <= b)%Q.
Proof. unfold Py.gtb. rewrite negb_false_iff. apply Qle_bool_iff. Qed.

Lemma leb_le a b : Py.leb a b = true <-> (a <= b)%Q.
Proof. apply Qle_bool_iff. Qed.

Lemma leb_gt a b : Py.leb a b = false <-> (b < a)%Q.
Proof.
  unfold Py.leb. split; intros Hab.
  - apply Qnot_le_lt. intros Hle. apply Qle_bool_iff in Hle. congruence.
  - destruct (Qle_bool a b) eqn:E; [|reflexivity].
    apply Qle_bool_iff in E. exfalso. eapply Qlt_not_le; eassumption.
Qed.

End FloatFacts.

(** ** The order the server returns rows in *)

Section ServerOrder.
Context {A : Type} (rank : A -> Z).

Lemma insert_ranked_In x y rows :
  In y (Database.insert_ranked rank x rows) <-> y = x \/ In y rows.
Proof.
  induction rows as [|z rest IH]; simpl; [intuition congruence|].
  destruct (Z.leb (rank x) (rank z)); simpl; [intuition congruence|].
  rewrite IH. intuition congruence.
Qed.

(** The server returns the rows it has, each once. *)
Lemma ranked_In y rows : In y (Database.ranked rank rows) <-> In y rows.
Proof.
  unfold Database.ranked. induction rows as [|x rest IH]; simpl; [tauto|].
  rewrite insert_ranked_In, IH. intuition congruence.
Qed.

Lemma insert_ranked_length x rows :
  List.length (Database.insert_ranked rank x rows) = S (List.length rows).
Proof.
  induction rows as [|z rest IH]; simpl; [reflexivity|].
  destruct (Z.leb (rank x) (rank z)); simpl; [reflexivity|].
  rewrite IH. reflexivity.
Qed.

Lemma ranked_length rows : List.length (Database.ranked rank rows) = List.length rows.
Proof.
  unfold Database.ranked. induction rows as [|x rest IH]; simpl; [reflexivity|].
  rewrite insert_ranked_length, IH. reflexivity.
Qed.

Lemma ranked_nil_iff rows : Database.ranked rank rows = [] <-> rows = [].
Proof.
  split; intros Hnil; [|subst; reflexivity].
  apply (f_equal (@List.length A)) in Hnil. rewrite ranked_length in Hnil.
  destruct rows; [reflexivity | discriminate].
Qed.

End ServerOrder.

(** With no preference among them, the rows stay as they are. *)
Lemma ranked_constant {A} (c : Z) (rows : list A) :
  Database.ranked (fun _ => c) rows = rows.
Proof.
  unfold Database.ranked. induction rows as [|x rest IH]; simpl; [reflexivity|].
  rewrite IH. destruct rest; simpl; [reflexivity|]. rewrite Z.leb_refl. reflexivity.
Qed.

(** ** The similarity query *)

Section SimilarityQuery.
Context `{External}.

Lemma insert_desc_Forall (P : Row -> Prop) r rows :
  P r -> Forall P rows -> Forall P (Database.insert_desc r rows).
Proof.
  intros Hr Hrows. induction Hrows as [|x rest Hx Hrest IH]; simpl.
  - constructor; [assumption | constructor].
  - destruct (Py.leb (row_similarity x) (row_similarity r)).
    + constructor; [assumption | constructor; assumption].
    + constructor; assumption.
Qed.

Lemma order_by_Forall (P : Row -> Prop) rows :
  Forall P rows -> Forall P (Database.order_by_similarity_desc rows).
Proof.
  unfold Database.order_by_similarity_desc.
  induction 1 as [|x rest Hx Hrest IH]; simpl.
  - constructor.
  - apply insert_desc_Forall; assumption.
Qed.

Lemma insert_desc_descending r rows :
  descending rows -> descending (Database.insert_desc r rows).
Proof.
  unfold descending. induction 1 as [|x rest Hsorted IH Hx]; simpl.
  - constructor; constructor.
  - destruct (Py.leb (row_similarity x) (row_similarity r)) eqn:E.
    + apply leb_le in E. constructor.
      * constructor; assumption.
      * constructor; [assumption|].
        eapply List.Forall_impl; [|exact Hx]. simpl. intros y Hy.
        eapply Qle_trans; eassumption.
    + apply leb_gt in E. constructor; [assumption|].
      apply insert_desc_Forall; [|assumption].
      apply Qlt_le_weak. assumption.
Qed.

Lemma order_by_descending rows :
  descending (Database.order_by_similarity_desc rows).
Proof.
  unfold Database.order_by_similarity_desc.
  induction rows as [|x rest IH]; simpl.
  - constructor.
  - apply insert_desc_descending. assumption.
Qed.

Lemma descending_firstn n rows :
  descending rows -> descending (firstn n rows).
Proof.
  unfold descending. intros Hsorted. revert n.
  induction Hsorted as [|x rest Hsorted IH Hx]; intros [|n]; simpl; try constructor.
  - apply IH.
  - apply Forall_take. assumption.
Qed.

(** Every row of the result is the projection of a stored record, its
    score is above the threshold, scores do not increase, and there are
    at most three rows. *)
Lemma select_similar_sound query_vec threshold docs :
  let rows := Database.select_similar query_vec threshold docs in
  (List.length rows <= 3)%nat /\
  Forall (fun r => (threshold < row_similarity r)%Q /\
                   exists d, In d docs /\ r = Database.to_row query_vec d) rows /\
  descending rows.
Proof.
  unfold Database.select_similar. cbv zeta. split; [|split].
  - apply firstn_le_length.
  - apply Forall_take. apply order_by_Forall.
    apply List.Forall_forall. intros r Hr.
    apply ranked_In in Hr.
    apply List.filter_In in Hr as [Hin Hgt].
    apply gtb_lt in Hgt. split; [assumption|].
    apply List.in_map_iff in Hin as (d & Hd & Hin). eauto.
  - apply descending_firstn. apply order_by_descending.
Qed.

End SimilarityQuery.

Section ThresholdOrder.
Context `{External}.



(** The rows the [WHERE] keeps are those of the qualifying records. *)
Lemma above_rows query_vec threshold docs :
  List.filter (fun r => Py.gtb (row_similarity r) threshold)
    (List.map (Database.to_row query_vec) docs) =
  List.map (Database.to_row query_vec) (qualifying query_vec threshold docs).
Proof.
  unfold qualifying. induction docs as [|d rest IH]; [reflexivity|]. simpl.
  destruct (Py.gtb (Database.similarity query_vec d) threshold); simpl; rewrite IH; reflexivity.
Qed.



Lemma insert_desc_length r rows :
  List.length (Database.insert_desc r rows) = S (List.length rows).
Proof.
  induction rows as [|x rest IH]; simpl; [reflexivity|].
  destruct (Py.leb (row_similarity x) (row_similarity r)); simpl; [reflexivity|].
  rewrite IH. reflexivity.
Qed.

Lemma order_by_length rows :
  List.length (Database.order_by_similarity_desc rows) = List.length rows.
Proof.
  induction rows as [|x rest IH]; [reflexivity|].
  change (Database.order_by_similarity_desc (x :: rest))
    with (Database.insert_desc x (Database.order_by_similarity_desc rest)).
  rewrite insert_desc_length, IH. reflexivity.
Qed.

(** The number of rows returned does not depend on how ties are ordered:
    it is the number of records above the threshold, capped at three. *)
Lemma select_similar_count query_vec threshold docs :
  List.length (Database.select_similar query_vec threshold docs) =
  Nat.min 3 (List.length (qualifying query_vec threshold docs)).
Proof.
  unfold Database.select_similar.
  rewrite length_firstn, order_by_length, ranked_length, above_rows, List.length_map.
  reflexivity.
Qed.




End ThresholdOrder.

(** ** Running handlers *)

Section Running.

Lemma next_fault_eq script : next_fault script = (next_fails script, tl script).
Proof. destruct script; reflexivity. Qed.

Lemma remote_run script rest e w :
  remote script rest e w =
  (if next_fails (script w) then Raise e else Ok tt, rest (tl (script w)) w).
Proof.
  unfold remote. rewrite next_fault_eq.
  destruct (next_fails (script w)); reflexivity.
Qed.

Lemma calm_next script : calm script -> next_fails script = false.
Proof. destruct 1; [reflexivity | assumption]. Qed.

Lemma calm_tl script : calm script -> calm (tl script).
Proof. destruct 1; [constructor | assumption]. Qed.

Lemma calm_nil : calm [].
Proof. constructor. Qed.

Lemma bind_ok {A B} (m : M A) (k : A -> M B) w a w' :
  m w = (Ok a, w') -> bind m k w = k a w'.
Proof. unfold bind. intros ->. reflexivity. Qed.

Lemma bind_raise {A B} (m : M A) (k : A -> M B) w e w' :
  m w = (Raise e, w') -> bind m k w = (Raise e, w').
Proof. unfold bind. intros ->. reflexivity. Qed.

Lemma round_trip_run w :
  Database.round_trip w =
  (if next_fails (db_faults w) then Raise DatabaseError else Ok tt,
   with_db_faults (tl (db_faults w)) w).
Proof. apply remote_run. Qed.

End Running.

Section AIRuns.
Context `{External}.

Lemma get_embedding_run text w :
  AI.get_embedding text w =
  let w1 := with_embed_faults (tl (embed_faults w)) (with_event (EmbeddingCall text) w) in
  if next_fails (embed_faults w) then (Raise EmbeddingError, w1)
  else (Ok (embed_text text), w1).
Proof.
  unfold AI.get_embedding, bind, emit, ret. rewrite remote_run. simpl.
  destruct (next_fails (embed_faults w)); reflexivity.
Qed.

Lemma translate_run text w :
  AI.translate_to_english text w =
  let w1 := with_llm_faults (tl (llm_faults w)) (with_event (TranslateCall text) w) in
  if next_fails (llm_faults w) then (Raise LanguageModelError, w1)
  else (Ok (llm_translate text), w1).
Proof.
  unfold AI.translate_to_english, bind, emit, ret. rewrite remote_run. simpl.
  destruct (next_fails (llm_faults w)); reflexivity.
Qed.

Lemma fetch_similar_run query_vec threshold w :
  Database.fetch_similar query_vec threshold w =
  let w1 := with_db_faults (tl (db_faults w)) w in
  if next_fails (db_faults w) then (Raise DatabaseError, w1)
  else (Ok (Database.select_similar query_vec threshold (pinya_docs w)), w1).
Proof.
  unfold Database.fetch_similar, bind, gets. rewrite round_trip_run.
  destruct (next_fails (db_faults w)); reflexivity.
Qed.

Lemma search_run text threshold w :
  AI.search_knowledge_base text threshold w =
  let w1 := with_embed_faults (tl (embed_faults w)) (with_event (EmbeddingCall text) w) in
  if next_fails (embed_faults w) then (Raise EmbeddingError, w1)
  else
    let w2 := with_db_faults (tl (db_faults w)) w1 in
    if next_fails (db_faults w) then (Raise DatabaseError, w2)
    else (Ok (Database.select_similar (embed_text text) threshold (pinya_docs w)), w2).
Proof.
  unfold AI.search_knowledge_base, bind. rewrite get_embedding_run. cbv zeta.
  destruct (next_fails (embed_faults w)); [reflexivity|].
  rewrite fetch_similar_run. simpl.
  destruct (next_fails (db_faults w)); reflexivity.
Qed.

Lemma check_duplicate_run text threshold w :
  AI.check_duplicate text threshold w =
  match AI.search_knowledge_base text threshold w with
  | (Ok results, w') => (Ok (Nat.ltb 0 (List.length results)), w')
  | (Raise e, w') => (Raise e, w')
  end.
Proof. reflexivity. Qed.

End AIRuns.

(** ** C1: what a search returns *)

Section SearchResults.
Context `{External}.

(** C1.  For every query text [q], threshold [t] and world, a search
    that returns gives at most three rows; each is the projection of a
    stored record whose similarity to the embedding of [q], one minus
    the cosine distance, is strictly above [t]; and the similarities do
    not increase along the list.  The search returns unless the
    embedding call or the database call was due to fail. *)
Theorem search_returns_top_matches (q : string) (t : Q) (w : World) :
  match AI.search_knowledge_base q t w with
  | (Ok rows, _) =>
      (List.length rows <= 3)%nat /\
      Forall (fun r =>
                exists d, In d (pinya_docs w) /\
                  r = Database.to_row (embed_text q) d /\
                  row_similarity r == 1 - cosine_distance (doc_embedding d) (embed_text q) /\
                  t < row_similarity r)%Q rows /\
      descending rows
  | (Raise _, _) =>
      next_fails (embed_faults w) = true \/ next_fails (db_faults w) = true
  end.
Proof.
  rewrite search_run. cbv zeta.
  destruct (next_fails (embed_faults w)); [left; reflexivity|].
  destruct (next_fails (db_faults w)); [right; reflexivity|].
  destruct (select_similar_sound (embed_text q) t (pinya_docs w)) as (Hlen & Hall & Hsorted).
  split; [exact Hlen|]. split; [|exact Hsorted].
  eapply List.Forall_impl; [|exact Hall]. simpl.
  intros r (Hgt & d & Hd & ->).
  exists d. split; [exact Hd|]. split; [reflexivity|].
  split; [reflexivity | exact Hgt].
Qed.

End SearchResults.

(** ** C3: the threshold is monotone *)

Section ThresholdMonotone.
Context `{External}.


End ThresholdMonotone.



(** ** C2: the config cache *)

Section ConfigCache.

Lemma get_run key fallback w :
  ConfigManager.get key fallback w =
  (Ok (match _cache w !! key with Some v => Some v | None => fallback end), w).
Proof. reflexivity. Qed.

Lemma set_run key value w :
  ConfigManager.set key value w =
  if next_fails (db_faults w)
  then (Raise DatabaseError, with_db_faults (tl (db_faults w)) w)
  else (Ok tt,
        with_event (LogInfo ("Config updated: " ++ key ++ " = " ++ value))
          (with_cache (fun c => <[key := value]> c)
             (with_config (fun c => <[key := value]> c)
                (with_db_faults (tl (db_faults w)) w)))).
Proof.
  unfold ConfigManager.set, Database.execute_config_upsert, bind, modify, emit.
  rewrite round_trip_run.
  destruct (next_fails (db_faults w)); reflexivity.
Qed.

(** C2.  [get] answers from the cache and leaves the world as it was.
    If the database write of [set] fails, [set] raises that error and
    neither the table nor the cache has changed.  If it succeeds, table
    and cache both hold the value, and a [get] of the key right after
    returns it. *)
Theorem config_set_writes_through (key value : string) (fallback : option string) (w : World) :
  ConfigManager.get key fallback w =
    (Ok (match _cache w !! key with Some v => Some v | None => fallback end), w) /\
  (next_fails (db_faults w) = true ->
     exists w', ConfigManager.set key value w = (Raise DatabaseError, w') /\
       _cache w' = _cache w /\ config w' = config w /\ events w' = events w) /\
  (next_fails (db_faults w) = false ->
     exists w', ConfigManager.set key value w = (Ok tt, w') /\
       config w' = <[key := value]> (config w) /\
       _cache w' = <[key := value]> (_cache w) /\
       ConfigManager.get key fallback w' = (Ok (Some value), w')).
Proof.
  split; [apply get_run|]. split; intros Hnext; rewrite set_run, Hnext.
  - eexists. split; [reflexivity|]. simpl. auto.
  - eexists. split; [reflexivity|]. simpl. split; [reflexivity|]. split; [reflexivity|].
    rewrite get_run. simpl. rewrite lookup_insert_eq. reflexivity.
Qed.

End ConfigCache.

(** In the sample deployment: a failing write, then a successful one. *)
Lemma config_set_writes_through_sample :
  (exists w', ConfigManager.set "ai_threshold" "0.2"
                (with_db_faults [true] Sample.stocked_world) = (Raise DatabaseError, w') /\
     _cache w' = _cache Sample.stocked_world) /\
  (exists w', ConfigManager.set "ai_threshold" "0.2" Sample.stocked_world = (Ok tt, w') /\
     ConfigManager.get "ai_threshold" None w' = (Ok (Some "0.2"), w')).
Proof.
  split.
  - destruct (config_set_writes_through "ai_threshold" "0.2" None
                (with_db_faults [true] Sample.stocked_world)) as (_ & Hfail & _).
    destruct (Hfail eq_refl) as (w' & Hrun & Hcache & _).
    exists w'. split; [exact Hrun | exact Hcache].
  - destruct (config_set_writes_through "ai_threshold" "0.2" None Sample.stocked_world)
      as (_ & _ & Hok).
    destruct (Hok eq_refl) as (w' & Hrun & _ & _ & Hget).
    exists w'. split; [exact Hrun | exact Hget].
Defined.

(** ** Frames: what a handler leaves alone *)

Section Frames.
Context (R : World -> World -> Prop) `{!Frame R}.

Lemma preserves_ret {A} (a : A) : preserves R (ret a).
Proof. intros w. apply frame_refl. Qed.

Lemma preserves_raise {A} e : preserves R (@raise A e).
Proof. intros w. apply frame_refl. Qed.

Lemma preserves_gets {A} (f : World -> A) : preserves R (gets f).
Proof. intros w. apply frame_refl. Qed.

Lemma preserves_emit e : preserves R (emit e).
Proof. intros w. apply frame_event. Qed.

Lemma preserves_modify f : (forall w, R w (f w)) -> preserves R (modify f).
Proof. intros Hf w. apply Hf. Qed.

Lemma preserves_bind {A B} (m : M A) (k : A -> M B) :
  preserves R m -> (forall a, preserves R (k a)) -> preserves R (bind m k).
Proof.
  intros Hm Hk w. unfold bind. specialize (Hm w).
  destruct (m w) as [[a|e] w1]; simpl in *.
  - eapply frame_trans; [exact Hm | apply Hk].
  - exact Hm.
Qed.

Lemma preserves_try_except {A} (body : M A) (handler : Exn -> M A) :
  preserves R body -> (forall e, preserves R (handler e)) ->
  preserves R (try_except body handler).
Proof.
  intros Hm Hk w. unfold try_except. specialize (Hm w).
  destruct (body w) as [[a|e] w1]; simpl in *.
  - exact Hm.
  - eapply frame_trans; [exact Hm | apply Hk].
Qed.

Lemma preserves_round_trip : preserves R Database.round_trip.
Proof.
  intros w. rewrite round_trip_run. simpl. apply frame_db.
Qed.

Lemma preserves_get key fallback : preserves R (ConfigManager.get key fallback).
Proof. apply preserves_gets. Qed.

Lemma preserves_get_or key fallback : preserves R (ConfigManager.get_or key fallback).
Proof.
  apply preserves_bind; [apply preserves_get | intros; apply preserves_ret].
Qed.

End Frames.

(** Takes apart goals [preserves R m] for handlers built from the
    primitives above; what it leaves are the steps that write to a table. *)
Ltac frame_step :=
  lazymatch goal with
  | |- Frame _ => first [assumption | typeclasses eauto]
  | |- preserves _ (ret _) => apply preserves_ret
  | |- preserves _ (raise _) => apply preserves_raise
  | |- preserves _ (roles_of _) => unfold roles_of
  | |- preserves _ (followup_send_delete_after _ _) => apply preserves_raise
  | |- preserves _ (emit _) => apply preserves_emit
  | |- preserves _ (gets _) => apply preserves_gets
  | |- preserves _ (ConfigManager.get _ _) => apply preserves_get
  | |- preserves _ (ConfigManager.get_or _ _) => apply preserves_get_or
  | |- preserves _ Database.round_trip => apply preserves_round_trip
  | |- preserves _ (bind _ _) => apply preserves_bind
  | |- preserves _ (try_except _ _) => apply preserves_try_except
  | |- preserves _ (if ?b then _ else _) => destruct b
  | |- preserves _ (match ?x with _ => _ end) => destruct x
  | |- forall _, _ => intros ?
  end.

Ltac frame := repeat frame_step.

Section HandlerFrames.
Context `{External} (R : World -> World -> Prop) `{!Frame R}.

Lemma preserves_get_embedding text : preserves R (AI.get_embedding text).
Proof.
  intros w. rewrite get_embedding_run. cbv zeta.
  assert (Hw : R w (with_embed_faults (tl (embed_faults w)) (with_event (EmbeddingCall text) w))).
  { eapply frame_trans; [apply frame_event | apply frame_embed]. }
  destruct (next_fails (embed_faults w)); exact Hw.
Qed.

Lemma preserves_translate text : preserves R (AI.translate_to_english text).
Proof.
  intros w. rewrite translate_run. cbv zeta.
  assert (Hw : R w (with_llm_faults (tl (llm_faults w)) (with_event (TranslateCall text) w))).
  { eapply frame_trans; [apply frame_event | apply frame_llm]. }
  destruct (next_fails (llm_faults w)); exact Hw.
Qed.

Lemma preserves_fetch_similar v t : preserves R (Database.fetch_similar v t).
Proof. unfold Database.fetch_similar. frame. Qed.

Lemma preserves_search text t : preserves R (AI.search_knowledge_base text t).
Proof.
  unfold AI.search_knowledge_base.
  apply preserves_bind; [assumption | apply preserves_get_embedding | intros v].
  apply preserves_bind; [assumption | apply preserves_fetch_similar | frame].
Qed.

Lemma preserves_check_duplicate text t : preserves R (AI.check_duplicate text t).
Proof.
  unfold AI.check_duplicate.
  apply preserves_bind; [assumption | apply preserves_search | frame].
Qed.

Lemma preserves_remote_llm :
  preserves R (remote llm_faults with_llm_faults LanguageModelError).
Proof. intros w. rewrite remote_run. simpl. apply frame_llm. Qed.

Lemma preserves_generate question chunks : preserves R (AI.generate_answer question chunks).
Proof.
  unfold AI.generate_answer. destruct (AI.prompt_inputs chunks) as [context_text mode].
  apply preserves_bind; [assumption | frame | intros _].
  apply preserves_bind; [assumption | apply preserves_remote_llm | frame].
Qed.

Lemma preserves_log_audit title description user :
  preserves R (Knowledge.log_audit title description user).
Proof. unfold Knowledge.log_audit. frame. Qed.

Lemma preserves_is_configured_role role_type user :
  preserves R (ConfigManager.is_configured_role role_type user).
Proof. unfold ConfigManager.is_configured_role. frame. Qed.

Lemma preserves_fetchval_id_by_topic topic :
  preserves R (Database.fetchval_id_by_topic topic).
Proof. unfold Database.fetchval_id_by_topic. frame. Qed.

Lemma preserves_fetchrow_by_id id : preserves R (Database.fetchrow_by_id id).
Proof. unfold Database.fetchrow_by_id. frame. Qed.

Lemma preserves_fetch_aliases : preserves R Database.fetch_aliases.
Proof. unfold Database.fetch_aliases. frame. Qed.

Lemma preserves_apply_aliases rows text : preserves R (Query.apply_aliases rows text).
Proof.
  revert text. induction rows as [|[trigger replacement] rest IH]; intros text; simpl.
  - apply preserves_ret. assumption.
  - destruct (re_sub_alias trigger replacement text) as [text'|];
      [apply IH | apply preserves_raise; assumption].
Qed.

End HandlerFrames.

#[global] Instance unchanged_docs : Frame (unchanged pinya_docs).
Proof. split; unfold unchanged; intros; simpl; congruence. Qed.

#[global] Instance unchanged_aliases : Frame (unchanged aliases).
Proof. split; unfold unchanged; intros; simpl; congruence. Qed.

#[global] Instance unchanged_config : Frame (unchanged config).
Proof. split; unfold unchanged; intros; simpl; congruence. Qed.

#[global] Instance unchanged_cache : Frame (unchanged _cache).
Proof. split; unfold unchanged; intros; simpl; congruence. Qed.

#[global] Instance triggers_kept_frame : Frame triggers_kept.
Proof. split; unfold triggers_kept; intros; simpl; auto. Qed.


(** ** C8: the threshold command validates before it writes *)

Section ThresholdCommand.
Context `{External}.

Lemma in_range_iff (v : Q) :
  andb (Py.leb (1 # 10) v) (Py.leb v 1) = true <-> (1 # 10 <= v /\ v <= 1)%Q.
Proof. rewrite andb_true_iff, !leb_le. reflexivity. Qed.

Lemma out_of_range (v : Q) :
  (v < 1 # 10 \/ 1 < v)%Q -> andb (Py.leb (1 # 10) v) (Py.leb v 1) = false.
Proof.
  intros Hout. apply andb_false_iff.
  destruct Hout as [Hlow | Hhigh]; [left | right]; apply leb_gt; assumption.
Qed.

(** C8.  For every value below 0.1 or above 1.0 the command answers
    with the validation message and does nothing else: table, cache and
    the database's script are as before (no statement was sent).  For a
    value inside the range, when the database answers, the table and the
    cache hold [str(value)] under [ai_threshold]. *)
Theorem threshold_validated_before_write (inter : Interaction) (v : Q) (w : World) :
  ((v < 1 # 10 \/ 1 < v)%Q ->
     exists w', Admin.config_threshold inter v w = (Ok tt, w') /\
       events w' = (events w ++
                     [Deferred; Followup "❌ Value must be between 0.1 and 1.0" true])%list /\
       config w' = config w /\ _cache w' = _cache w /\ db_faults w' = db_faults w) /\
  ((1 # 10 <= v /\ v <= 1)%Q -> next_fails (db_faults w) = false ->
     exists w', Admin.config_threshold inter v w = (Ok tt, w') /\
       config w' !! "ai_threshold" = Some (str_float v) /\
       _cache w' !! "ai_threshold" = Some (str_float v)).
Proof.
  split.
  - intros Hout. apply out_of_range in Hout.
    unfold Admin.config_threshold, bind, emit. rewrite Hout. simpl.
    eexists. split; [reflexivity|]. simpl.
    rewrite <- app_assoc. auto.
  - intros Hin Hdb. apply in_range_iff in Hin.
    unfold Admin.config_threshold, bind, emit. rewrite Hin. simpl.
    rewrite set_run. simpl. rewrite Hdb.
    eexists. split; [reflexivity|]. simpl.
    rewrite !lookup_insert_eq. auto.
Qed.

End ThresholdCommand.

(** In the sample deployment: 2.5 is refused, 0.2 is stored. *)
Lemma threshold_validated_before_write_sample :
  (exists w', @Admin.config_threshold Sample.external (mkInteraction Sample.librarian)
                (5 # 2) Sample.stocked_world = (Ok tt, w') /\
     config w' = config Sample.stocked_world /\ _cache w' = _cache Sample.stocked_world) /\
  (exists w', @Admin.config_threshold Sample.external (mkInteraction Sample.librarian)
                (1 # 5) Sample.stocked_world = (Ok tt, w') /\
     _cache w' !! "ai_threshold" = Some "0.2").
Proof.
  split.
  - destruct (@threshold_validated_before_write Sample.external
                (mkInteraction Sample.librarian) (5 # 2) Sample.stocked_world) as [Hout _].
    destruct Hout as (w' & Hrun & _ & Hconfig & Hcache & _).
    { right. unfold Qlt; simpl; lia. }
    exists w'. auto.
  - destruct (@threshold_validated_before_write Sample.external
                (mkInteraction Sample.librarian) (1 # 5) Sample.stocked_world) as [_ Hin].
    destruct Hin as (w' & Hrun & _ & Hcache).
    { split; unfold Qle; simpl; lia. }
    { reflexivity. }
    exists w'. auto.
Defined.

(** ** C9: forgetting a topic that is not there *)

Section Forget.
Context `{External}.

Lemma find_absent {A} (f : A -> bool) (l : list A) :
  (forall x, In x l -> f x = false) -> List.find f l = None.
Proof.
  induction l as [|x rest IH]; intros Hall; [reflexivity|]. simpl.
  rewrite (Hall x) by (left; reflexivity).
  apply IH. intros y Hy. apply Hall. right. exact Hy.
Qed.

Lemma fetchval_id_absent topic w :
  (forall d, In d (pinya_docs w) -> doc_topic d <> topic) ->
  Database.fetchval_id_by_topic topic w =
  (if next_fails (db_faults w) then Raise DatabaseError else Ok None,
   with_db_faults (tl (db_faults w)) w).
Proof.
  intros Habsent. unfold Database.fetchval_id_by_topic, bind, gets.
  rewrite round_trip_run. destruct (next_fails (db_faults w)); [reflexivity|].
  simpl. rewrite find_absent; [reflexivity|].
  intros d Hd. apply String.eqb_neq. apply Habsent. exact Hd.
Qed.

(** The amended C9.  For every topic that no stored record has,
    [forget] deletes nothing, whatever the database does; and when the
    database answers the lookup, [forget] returns after telling the
    requester that the topic was not found, with the three tables and
    the cache as they were and no second statement sent. *)
Theorem forget_absent_topic (inter : Interaction) (topic : string) (w : World) :
  (forall d, In d (pinya_docs w) -> doc_topic d <> topic) ->
  pinya_docs (snd (Knowledge.forget inter topic w)) = pinya_docs w /\
  (next_fails (db_faults w) = false ->
     exists w', Knowledge.forget inter topic w = (Ok tt, w') /\
       events w' = (events w ++
                     [Deferred; Followup ("❌ Topic `" ++ topic ++ "` not found.") true])%list /\
       pinya_docs w' = pinya_docs w /\ aliases w' = aliases w /\
       config w' = config w /\ _cache w' = _cache w /\
       db_faults w' = tl (db_faults w)).
Proof.
  intros Habsent.
  assert (Hrun : Knowledge.forget inter topic w =
            if next_fails (db_faults w)
            then (Raise DatabaseError, with_db_faults (tl (db_faults w)) (with_event Deferred w))
            else (Ok tt, with_event (Followup ("❌ Topic `" ++ topic ++ "` not found.") true)
                           (with_db_faults (tl (db_faults w)) (with_event Deferred w)))).
  { unfold Knowledge.forget, bind at 1, emit. unfold bind at 1.
    rewrite fetchval_id_absent by exact Habsent. simpl.
    destruct (next_fails (db_faults w)); reflexivity. }
  rewrite Hrun. split.
  - destruct (next_fails (db_faults w)); reflexivity.
  - intros ->. eexists. split; [reflexivity|]. simpl.
    rewrite <- app_assoc. auto 10.
Qed.

End Forget.

(** In the sample deployment nobody has taught "Gardening". *)
Lemma forget_absent_topic_sample :
  exists w', @Knowledge.forget Sample.external (mkInteraction Sample.librarian)
               "Gardening" Sample.stocked_world = (Ok tt, w') /\
    events w' = [Deferred; Followup "❌ Topic `Gardening` not found." true] /\
    pinya_docs w' = pinya_docs Sample.stocked_world.
Proof.
  destruct (@forget_absent_topic Sample.external (mkInteraction Sample.librarian)
              "Gardening" Sample.stocked_world) as [_ Hfound].
  { intros d [<- | [<- | []]]; discriminate. }
  destruct (Hfound eq_refl) as (w' & Hrun & Hevents & Hdocs & _).
  exists w'. split; [exact Hrun|]. split; [exact Hevents | exact Hdocs].
Defined.

(** ** C5: an edit keeps votes and flags *)

Section Edit.
Context `{External}.

(** The run of an edit whose embedding call and database call answer:
    no duplicate check, one embedding, one [UPDATE], the audit entry. *)
Lemma edit_run topic content spoiler user id check_dup w :
  id <> 0 ->
  next_fails (embed_faults w) = false ->
  next_fails (db_faults w) = false ->
  let text := "Topic: " ++ topic ++ Py.nl ++ "Content: " ++ content in
  let w1 := with_embed_faults (tl (embed_faults w)) (with_event (EmbeddingCall text) w) in
  let w2 :=
    with_docs (List.map (fun d =>
                 if Z.eqb (doc_id d) id
                 then Database.update_row topic content (embed_text text)
                        (Knowledge.update_meta spoiler user) d
                 else d))
      (with_db_faults (tl (db_faults w)) w1) in
  Knowledge.upsert_knowledge topic content spoiler user (Some id) check_dup w =
  match Knowledge.log_audit "Knowledge Updated" (audit_text topic content) user w2 with
  | (Ok _, w3) => (Ok (Some id, None), w3)
  | (Raise e, w3) =>
      (Ok (None, Some ("An error occurred while saving: " ++ exn_message e)),
       with_event (LogException "Error in upsert_knowledge" e) w3)
  end.
Proof.
  intros Hid Hembed Hdb. cbv zeta.
  unfold Knowledge.upsert_knowledge, try_except.
  assert (Hgiven : Knowledge.doc_id_given (Some id) = true).
  { unfold Knowledge.doc_id_given, Py.truthy_int.
    apply negb_true_iff. apply Z.eqb_neq. exact Hid. }
  rewrite Hgiven.
  replace (andb (bool_decide (Some id = @None Z)) check_dup) with false
    by (rewrite bool_decide_eq_false_2 by discriminate; reflexivity).
  unfold bind at 1. unfold ret at 1.
  unfold bind at 1. rewrite get_embedding_run, Hembed. cbv zeta.
  unfold bind at 1. unfold bind at 1.
  unfold Database.execute_update_doc, bind at 1. rewrite round_trip_run. simpl.
  rewrite Hdb. unfold modify, ret at 1. simpl.
  unfold bind at 1. unfold audit_text.
  change ("Knowledge " ++ "Updated") with "Knowledge Updated".
  match goal with |- context [Knowledge.log_audit ?a ?b ?c ?d] =>
    destruct (Knowledge.log_audit a b c d) as [[[]|e] w3] end; reflexivity.
Qed.

Lemma update_meta_votes spoiler user (m : gmap string Json) :
  (Knowledge.update_meta spoiler user ∪ m) !! "votes" = m !! "votes".
Proof.
  apply lookup_union_r. unfold Knowledge.update_meta.
  rewrite !lookup_insert_ne by discriminate. apply lookup_empty.
Qed.

Lemma update_meta_flags spoiler user (m : gmap string Json) :
  (Knowledge.update_meta spoiler user ∪ m) !! "flags" = m !! "flags".
Proof.
  apply lookup_union_r. unfold Knowledge.update_meta.
  rewrite !lookup_insert_ne by discriminate. apply lookup_empty.
Qed.

(** The merge is shallow: a key the patch does not have keeps its value. *)
Lemma update_meta_other spoiler user (m : gmap string Json) (k : string) :
  k <> "is_spoiler" -> k <> "last_editor_id" ->
  (Knowledge.update_meta spoiler user ∪ m) !! k = m !! k.
Proof.
  intros Hk1 Hk2. apply lookup_union_r. unfold Knowledge.update_meta.
  rewrite !lookup_insert_ne by congruence. apply lookup_empty.
Qed.

Lemma update_meta_editor spoiler user (m : gmap string Json) :
  (Knowledge.update_meta spoiler user ∪ m) !! "last_editor_id" = Some (JNum (user_id user)).
Proof.
  apply lookup_union_Some_l. unfold Knowledge.update_meta.
  rewrite lookup_insert_ne by discriminate. apply lookup_insert_eq.
Qed.

(** C5.  Editing with a record id (ids of the [SERIAL] column are not
    zero), when the embedding call and the [UPDATE] answer: every record
    with that id has the new topic, the new content, the embedding of
    the new text and [last_editor_id] set to the editor; its [votes] and
    [flags] are what they were, as is every metadata key other than
    [is_spoiler] and [last_editor_id]; every other record is untouched. *)
Theorem edit_keeps_votes_and_flags (topic content spoiler : string) (user : User)
    (id : Z) (check_dup : bool) (w : World) :
  id <> 0 ->
  next_fails (embed_faults w) = false ->
  next_fails (db_faults w) = false ->
  exists r w',
    Knowledge.upsert_knowledge topic content spoiler user (Some id) check_dup w = (Ok r, w') /\
    Forall2 (fun d d' =>
               if Z.eqb (doc_id d) id then
                 doc_id d' = id /\
                 doc_topic d' = topic /\
                 doc_content d' = content /\
                 doc_embedding d' =
                   embed_text ("Topic: " ++ topic ++ Py.nl ++ "Content: " ++ content) /\
                 doc_metadata d' !! "last_editor_id" = Some (JNum (user_id user)) /\
                 doc_metadata d' !! "votes" = doc_metadata d !! "votes" /\
                 doc_metadata d' !! "flags" = doc_metadata d !! "flags" /\
                 (forall k, k <> "is_spoiler" -> k <> "last_editor_id" ->
                    doc_metadata d' !! k = doc_metadata d !! k)
               else d' = d)
            (pinya_docs w) (pinya_docs w').
Proof.
  intros Hid Hembed Hdb.
  rewrite (edit_run topic content spoiler user id check_dup w Hid Hembed Hdb). cbv zeta.
  match goal with |- context [Knowledge.log_audit ?a ?b ?c ?d] =>
    pose proof (preserves_log_audit (unchanged pinya_docs) a b c d) as Hframe;
    destruct (Knowledge.log_audit a b c d) as [[[]|e] w3] end;
    unfold unchanged in Hframe; simpl in Hframe;
    (eexists; eexists; split; [reflexivity|]); simpl; rewrite Hframe;
    clear Hframe.
  all: induction (pinya_docs w) as [|d rest IH]; simpl; constructor; try exact IH.
  all: destruct (Z.eqb (doc_id d) id) eqn:E; [|reflexivity].
  all: apply Z.eqb_eq in E; simpl.
  all: rewrite update_meta_editor, update_meta_votes, update_meta_flags.
  all: repeat (split; [reflexivity || assumption|]).
  all: intros k Hk1 Hk2; apply update_meta_other; assumption.
Qed.

End Edit.

(** In the sample deployment Ben edits the fishing entry, which had three
    votes and one flag. *)
Lemma edit_keeps_votes_and_flags_sample :
  exists r w',
    @Knowledge.upsert_knowledge Sample.external "Fishing" "Use bait" "no" Sample.member
      (Some 1) true Sample.stocked_world = (Ok r, w') /\
    exists d' rest, pinya_docs w' = d' :: rest /\
      doc_content d' = "Use bait" /\
      doc_metadata d' !! "last_editor_id" = Some (JNum 8) /\
      doc_metadata d' !! "votes" = Some (JNum 3) /\
      doc_metadata d' !! "flags" = Some (JNum 1).
Proof.
  destruct (@edit_keeps_votes_and_flags Sample.external "Fishing" "Use bait" "no"
              Sample.member 1 true Sample.stocked_world)
    as (r & w' & Hrun & Hdocs); [discriminate | reflexivity | reflexivity |].
  exists r, w'. split; [exact Hrun|].
  change (pinya_docs Sample.stocked_world) with [Sample.fishing_doc; Sample.base_doc] in Hdocs.
  destruct (pinya_docs w') as [|d' rest]; [inversion Hdocs|].
  exists d', rest. split; [reflexivity|].
  apply Forall2_cons_1 in Hdocs as [Hd' _].
  change (Z.eqb (doc_id Sample.fishing_doc) 1) with true in Hd'. cbv iota in Hd'.
  destruct Hd' as (_ & _ & Hcontent & _ & Heditor & Hvotes & Hflags & _).
  split; [exact Hcontent|]. split; [exact Heditor|].
  split; [rewrite Hvotes | rewrite Hflags]; reflexivity.
Defined.

(** ** C4: the duplicate check *)

Section Duplicates.
Context `{External}.

(** The query returns a row exactly when some record scores above the
    threshold. *)
Lemma select_similar_nonempty query_vec threshold docs :
  Nat.ltb 0 (List.length (Database.select_similar query_vec threshold docs)) = true <->
  exists d, In d docs /\ (threshold < Database.similarity query_vec d)%Q.
Proof.
  split.
  - intros Hlen.
    destruct (select_similar_sound query_vec threshold docs) as (_ & Hall & _).
    destruct (Database.select_similar query_vec threshold docs) as [|r rest];
      [discriminate|].
    inversion Hall as [|? ? (Hgt & d & Hd & ->) _]; subst.
    exists d. split; assumption.
  - intros (d & Hd & Hgt). rewrite select_similar_count.
    assert (Hin : In d (qualifying query_vec threshold docs)).
    { apply List.filter_In. split; [exact Hd | apply gtb_lt; exact Hgt]. }
    destruct (qualifying query_vec threshold docs); [destruct Hin | reflexivity].
Qed.

Lemma check_duplicate_answer text threshold w :
  next_fails (embed_faults w) = false ->
  next_fails (db_faults w) = false ->
  AI.check_duplicate text threshold w =
  (Ok (Nat.ltb 0 (List.length
         (Database.select_similar (embed_text text) threshold (pinya_docs w)))),
   with_db_faults (tl (db_faults w))
     (with_embed_faults (tl (embed_faults w)) (with_event (EmbeddingCall text) w))).
Proof.
  intros Hembed Hdb. rewrite check_duplicate_run, search_run, Hembed, Hdb. reflexivity.
Qed.

(** An edit never asks for the duplicate check. *)
Lemma edit_skips_duplicate_check topic content spoiler user id check_dup w :
  Knowledge.upsert_knowledge topic content spoiler user (Some id) check_dup w =
  Knowledge.upsert_knowledge topic content spoiler user (Some id) false w.
Proof.
  unfold Knowledge.upsert_knowledge.
  rewrite bool_decide_eq_false_2 by discriminate. reflexivity.
Qed.

(** A first insertion asks for it before anything else, and stops on a
    positive answer. *)
Lemma insertion_checks_duplicate topic content spoiler user w w1 :
  AI.check_duplicate (topic ++ " " ++ content) AI.duplicate_threshold w = (Ok true, w1) ->
  Knowledge.upsert_knowledge topic content spoiler user None true w =
  (Ok (None, Some Knowledge.duplicate_warning), w1).
Proof.
  intros Hdup. unfold Knowledge.upsert_knowledge, try_except.
  rewrite bool_decide_eq_true_2 by reflexivity. simpl.
  unfold bind at 1. rewrite Hdup. reflexivity.
Qed.

(** The amended C4.  When the embedding call and the query answer,
    [check_duplicate] at its default threshold returns [True] if and only
    if some stored record's embedding has similarity above 0.9 (the
    double of that literal) to the embedding of the candidate text; so
    it returns [False] on an empty store.  A first insertion runs the check on [topic + " " + content]
    and stops on [True]; a call with a record id never runs it. *)
Theorem check_duplicate_meaning (text : string) (w : World) :
  next_fails (embed_faults w) = false ->
  next_fails (db_faults w) = false ->
  (exists b w',
     AI.check_duplicate text AI.duplicate_threshold w = (Ok b, w') /\
     (b = true <->
      exists d, In d (pinya_docs w) /\
        (AI.duplicate_threshold <
         1 - cosine_distance (doc_embedding d) (embed_text text))%Q) /\
     (pinya_docs w = [] -> b = false)) /\
  (forall topic content spoiler user w1,
     AI.check_duplicate (topic ++ " " ++ content) AI.duplicate_threshold w = (Ok true, w1) ->
     Knowledge.upsert_knowledge topic content spoiler user None true w =
     (Ok (None, Some Knowledge.duplicate_warning), w1)) /\
  (forall topic content spoiler user id check_dup,
     Knowledge.upsert_knowledge topic content spoiler user (Some id) check_dup w =
     Knowledge.upsert_knowledge topic content spoiler user (Some id) false w).
Proof.
  intros Hembed Hdb. split; [|split].
  - rewrite check_duplicate_answer by assumption.
    eexists. eexists. split; [reflexivity|]. split.
    + apply select_similar_nonempty.
    + intros ->. reflexivity.
  - intros. apply insertion_checks_duplicate. assumption.
  - intros. apply edit_skips_duplicate_check.
Qed.

End Duplicates.

(** In the sample deployment the probe "Base Board the windows first"
    embeds onto the stored vector of the Base entry. *)
Lemma check_duplicate_meaning_sample :
  exists w',
    @AI.check_duplicate Sample.external "Base Board the windows first"
      (@AI.duplicate_threshold) Sample.stocked_world = (Ok true, w') /\
    @Knowledge.upsert_knowledge Sample.external "Base" "Board the windows first" "no"
      Sample.librarian None true Sample.stocked_world =
    (Ok (None, Some Knowledge.duplicate_warning), w').
Proof.
  destruct (@check_duplicate_meaning Sample.external "Base Board the windows first"
              Sample.stocked_world eq_refl eq_refl)
    as ((b & w' & Hrun & Hiff & _) & Hinsert & _).
  assert (Hb : b = true).
  { apply Hiff. exists Sample.base_doc. split; [right; left; reflexivity|].
    vm_compute. reflexivity. }
  subst b. exists w'. split; [exact Hrun|].
  apply (Hinsert "Base" "Board the windows first"). exact Hrun.
Defined.

(** C4 as stated fails on identical text.  Teach the fishing entry to an
    empty store; the store then holds a record with exactly that topic
    and content, yet the check on the same topic and content answers
    [False], and teaching it again adds a second record.  The check
    embeds [topic + " " + content]; the stored vector is the embedding of
    ["Topic: " + topic + "\nContent: " + content]. *)
Lemma check_duplicate_misses_identical_text :
  let taught :=
    snd (@Knowledge.upsert_knowledge Sample.external Sample.fishing_topic
           Sample.fishing_content "no" Sample.librarian None true Sample.empty_world) in
  (exists d, In d (pinya_docs taught) /\
     doc_topic d = Sample.fishing_topic /\ doc_content d = Sample.fishing_content) /\
  fst (@AI.check_duplicate Sample.external
         (Sample.fishing_topic ++ " " ++ Sample.fishing_content)
         (@AI.duplicate_threshold) taught) = Ok false /\
  List.map doc_topic
    (pinya_docs (snd (@Knowledge.upsert_knowledge Sample.external Sample.fishing_topic
                        Sample.fishing_content "no" Sample.librarian None true taught))) =
  [Sample.fishing_topic; Sample.fishing_topic].
Proof.
  cbv zeta. split; [|split].
  - eexists. split; [left; reflexivity|]. split; reflexivity.
  - vm_compute. reflexivity.
  - vm_compute. reflexivity.
Qed.

(** ** The live query *)

Section LiveQuery.
Context `{External}.

Lemma get_or_run key fallback w :
  ConfigManager.get_or key fallback w = (Ok (default fallback (_cache w !! key)), w).
Proof.
  unfold ConfigManager.get_or, bind. rewrite get_run.
  destruct (_cache w !! key); reflexivity.
Qed.

Lemma fold_sub_none (rows : list (string * string)) :
  fold_left (fun text row => text ≫= re_sub_alias (fst row) (snd row)) rows None = None.
Proof. induction rows as [|row rest IH]; [reflexivity | exact IH]. Qed.

Lemma apply_aliases_run rows text w :
  Query.apply_aliases rows text w =
  (match fold_left (fun text row => text ≫= re_sub_alias (fst row) (snd row))
           rows (Some text) with
   | Some text' => Ok text'
   | None => Raise RegexError
   end, w).
Proof.
  revert text. induction rows as [|[trigger replacement] rest IH]; intros text; simpl.
  - reflexivity.
  - destruct (re_sub_alias trigger replacement text) as [text'|]; simpl.
    + apply IH.
    + rewrite fold_sub_none. reflexivity.
Qed.

(** The substitution raises when the [SELECT] fails, and [re.error]
    when a stored replacement is no valid template. *)
Lemma replace_aliases_run content w :
  Query.replace_aliases content w =
  (if next_fails (db_faults w) then Raise DatabaseError
   else match substituted content w with
        | Some query_text => Ok query_text
        | None => Raise RegexError
        end,
   with_db_faults (tl (db_faults w)) w).
Proof.
  unfold Query.replace_aliases, Database.fetch_aliases, bind, gets.
  rewrite round_trip_run. destruct (next_fails (db_faults w)); [reflexivity|].
  rewrite apply_aliases_run. reflexivity.
Qed.

Lemma generate_run question results w :
  AI.generate_answer question results w =
  let w1 := with_llm_faults (tl (llm_faults w)) (with_event (answer_call question results) w) in
  if next_fails (llm_faults w) then (Raise LanguageModelError, w1)
  else (Ok (llm_answer (snd (AI.prompt_inputs results)) (fst (AI.prompt_inputs results))
              question), w1).
Proof.
  unfold AI.generate_answer, answer_call.
  destruct (AI.prompt_inputs results) as [context_text mode].
  unfold bind, emit, ret. rewrite remote_run. simpl.
  destruct (next_fails (llm_faults w)); reflexivity.
Qed.

(** The checks of the listener, as one expression. *)
Lemma permission_gate_run message w :
  Query.permission_gate message w =
  (if user_bot (msg_author message) then Ok None
   else if negb (msg_mentions_bot message) then Ok None
   else if negb (Py.truthy_str (Query.strip_mention (msg_content message))) then Ok None
   else if String.eqb (default "true" (_cache w !! "global_reply_enabled")) "false"
   then Ok None
   else if Py.truthy_str (whitelist w) then
     if user_has_roles (msg_author message) then
       if negb (Query.has_allowed_role (whitelist w) (msg_author message)) then Ok None
       else Ok (Some (Query.strip_mention (msg_content message)))
     else Raise AttributeError
   else Ok (Some (Query.strip_mention (msg_content message))), w).
Proof.
  unfold Query.permission_gate, whitelist.
  destruct (user_bot (msg_author message)); [reflexivity|].
  destruct (negb (msg_mentions_bot message)); [reflexivity|].
  destruct (negb (Py.truthy_str (Query.strip_mention (msg_content message))));
    [reflexivity|].
  unfold bind at 1. rewrite get_or_run.
  destruct (String.eqb (default "true" (_cache w !! "global_reply_enabled")) "false");
    [reflexivity|].
  unfold bind at 1. rewrite get_or_run.
  destruct (Py.truthy_str _); [|reflexivity].
  unfold bind, roles_of.
  destruct (user_has_roles (msg_author message)); [|reflexivity].
  destruct (negb _); reflexivity.
Qed.

(** The permission checks only read. *)
Lemma permission_gate_reads message w :
  snd (Query.permission_gate message w) = w.
Proof. rewrite permission_gate_run. reflexivity. Qed.

Lemma on_message_passed message content w :
  Query.permission_gate message w = (Ok (Some content), w) ->
  Query.on_message message w = Query.respond message content w.
Proof.
  intros Hgate. unfold Query.on_message, bind. rewrite Hgate. reflexivity.
Qed.

(** Up to retrieval, when the services answer and the setting parses. *)
Lemma respond_run message content query_text threshold w :
  calm (db_faults w) -> calm (embed_faults w) -> next_fails (llm_faults w) = false ->
  substituted content w = Some query_text ->
  py_float (threshold_setting w) = Some threshold ->
  Query.respond message content w =
  let results := retrieved query_text threshold w in
  bind (match results with
        | [] => Query.report_gap query_text (msg_author message)
        | _ :: _ => ret tt
        end)
       (fun _ => bind (AI.generate_answer query_text results)
                      (fun answer => emit (Query.present answer results)))
       (after_retrieval query_text w).
Proof.
  intros Hdb Hembed Hllm Hsub Hfloat. cbv zeta.
  pose proof (calm_next _ Hdb) as Hdb1.
  pose proof (calm_next _ (calm_tl _ Hdb)) as Hdb2.
  pose proof (calm_next _ Hembed) as Hembed1.
  unfold Query.respond.
  unfold bind at 1, emit. unfold bind at 1.
  rewrite replace_aliases_run.
  change (substituted content (with_event Typing w)) with (substituted content w).
  rewrite Hsub. simpl. rewrite Hdb1.
  unfold bind at 1. rewrite get_or_run. simpl.
  change (default "0.5" (_cache w !! "ai_threshold")) with (threshold_setting w).
  rewrite Hfloat.
  unfold bind at 1. rewrite translate_run. simpl. rewrite Hllm.
  unfold bind at 1. rewrite search_run. simpl. rewrite Hembed1, Hdb2.
  reflexivity.
Qed.

(** A replacement that is no valid template ends the listener before
    any call to a model. *)
Lemma respond_regex_fails message content w :
  next_fails (db_faults w) = false ->
  substituted content w = None ->
  Query.respond message content w =
  (Raise RegexError, with_db_faults (tl (db_faults w)) (with_event Typing w)).
Proof.
  intros Hdb Hsub. unfold Query.respond.
  unfold bind at 1, emit. unfold bind at 1.
  rewrite replace_aliases_run.
  change (substituted content (with_event Typing w)) with (substituted content w).
  rewrite Hsub. simpl. rewrite Hdb. reflexivity.
Qed.


Lemma after_retrieval_cache content w : _cache (after_retrieval content w) = _cache w.
Proof. reflexivity. Qed.

Lemma after_retrieval_llm content w :
  llm_faults (after_retrieval content w) = tl (llm_faults w).
Proof. reflexivity. Qed.

(** From retrieval on, once the gap step has returned in world [w1]. *)
Lemma answer_run question results w1 :
  next_fails (llm_faults w1) = false ->
  bind (AI.generate_answer question results)
       (fun answer => emit (Query.present answer results)) w1 =
  (Ok tt,
   with_event (answer_reply question results)
     (with_llm_faults (tl (llm_faults w1)) (with_event (answer_call question results) w1))).
Proof.
  intros Hllm. unfold bind. rewrite generate_run. cbv zeta. rewrite Hllm. reflexivity.
Qed.

(** The gap step either returns, having sent nothing or one notice, or
    raises on a channel setting that is not a number. *)
Lemma report_gap_run query_text author w1 :
  Query.report_gap query_text author w1 =
  match _cache w1 !! "channel_knowledge_gaps" with
  | Some s =>
      if Py.truthy_str s then
        match py_int s with
        | None => (Raise ValueError, w1)
        | Some cid =>
            if channel_known cid
            then (Ok tt, with_event (gap_notice cid query_text author) w1)
            else (Ok tt, w1)
        end
      else (Ok tt, w1)
  | None => (Ok tt, w1)
  end.
Proof.
  unfold Query.report_gap, bind. rewrite get_run.
  destruct (_cache w1 !! "channel_knowledge_gaps") as [s|]; simpl; [|reflexivity].
  destruct (Py.truthy_str s); [|reflexivity].
  destruct (py_int s) as [cid|]; [|reflexivity].
  destruct (channel_known cid); reflexivity.
Qed.

End LiveQuery.

(** ** C6: when a gap is reported *)

Section GapReport.
Context `{External}.

(** The run of a live query whose services answer, given how the gap
    step ended. *)
Lemma on_message_run message content query_text threshold w :
  calm (db_faults w) -> calm (embed_faults w) -> calm (llm_faults w) ->
  Query.permission_gate message w = (Ok (Some content), w) ->
  substituted content w = Some query_text ->
  py_float (threshold_setting w) = Some threshold ->
  let results := retrieved query_text threshold w in
  let gap_step :=
    match results with
    | [] => Query.report_gap query_text (msg_author message)
    | _ :: _ => ret tt
    end in
  Query.on_message message w =
  match gap_step (after_retrieval query_text w) with
  | (Ok _, w1) =>
      (Ok tt,
       with_event (answer_reply query_text results)
         (with_llm_faults (tl (llm_faults w1))
            (with_event (answer_call query_text results) w1)))
  | (Raise e, w1) => (Raise e, w1)
  end.
Proof.
  intros Hdb Hembed Hllm Hgate Hsub Hfloat. cbv zeta.
  rewrite (on_message_passed _ _ _ Hgate).
  rewrite (respond_run message content query_text threshold w Hdb Hembed
             (calm_next _ Hllm) Hsub Hfloat).
  cbv zeta. unfold bind at 1.
  assert (Hstep : forall w1, llm_faults w1 = tl (llm_faults w) ->
            next_fails (llm_faults w1) = false).
  { intros w1 ->. apply calm_next, calm_tl, Hllm. }
  destruct (retrieved query_text threshold w) as [|top rest].
  - rewrite report_gap_run, after_retrieval_cache.
    destruct (_cache w !! "channel_knowledge_gaps") as [s|];
      [destruct (Py.truthy_str s); [destruct (py_int s) as [cid|];
         [destruct (channel_known cid)|]|]|];
      try reflexivity; apply answer_run; apply Hstep; reflexivity.
  - unfold ret at 1. apply answer_run. apply Hstep. reflexivity.
Qed.

(** The amended C6.  For a live query whose services answer and whose
    aliases apply (no stored replacement is rejected by [re.sub]): when
    retrieval returns a record, no gap notice is sent; when retrieval
    returns none, a notice is sent if a gaps channel is configured and
    known to the bot, and none is sent if no channel is configured or the
    bot does not know it.  In each case the answer call follows, on the
    empty context when retrieval returned none. *)
Theorem gap_reported_when_channel_configured (message : Message)
    (content query_text : string) (threshold : Q) (w : World) :
  calm (db_faults w) -> calm (embed_faults w) -> calm (llm_faults w) ->
  Query.permission_gate message w = (Ok (Some content), w) ->
  substituted content w = Some query_text ->
  py_float (threshold_setting w) = Some threshold ->
  let results := retrieved query_text threshold w in
  let opening := [Typing; TranslateCall query_text; EmbeddingCall (llm_translate query_text)] in
  let closing := [answer_call query_text results; answer_reply query_text results] in
  (results <> [] ->
     exists w', Query.on_message message w = (Ok tt, w') /\
       events w' = (events w ++ opening ++ closing)%list) /\
  (results = [] ->
     answer_call query_text results =
       GenerateCall "Use your general knowledge about Project Zomboid to answer."
         "No database context available." query_text /\
     (forall s cid,
        _cache w !! "channel_knowledge_gaps" = Some s -> Py.truthy_str s = true ->
        py_int s = Some cid -> channel_known cid = true ->
        exists w', Query.on_message message w = (Ok tt, w') /\
          events w' = (events w ++ opening ++
                       [gap_notice cid query_text (msg_author message)] ++ closing)%list) /\
     (Py.truthy_opt (_cache w !! "channel_knowledge_gaps") = false ->
        exists w', Query.on_message message w = (Ok tt, w') /\
          events w' = (events w ++ opening ++ closing)%list) /\
     (forall s cid,
        _cache w !! "channel_knowledge_gaps" = Some s ->
        py_int s = Some cid -> channel_known cid = false ->
        exists w', Query.on_message message w = (Ok tt, w') /\
          events w' = (events w ++ opening ++ closing)%list)).
Proof.
  intros Hdb Hembed Hllm Hgate Hsub Hfloat. cbv zeta.
  rewrite (on_message_run message content query_text threshold w
             Hdb Hembed Hllm Hgate Hsub Hfloat).
  cbv zeta. split.
  - intros Hresults.
    destruct (retrieved query_text threshold w) as [|top rest]; [congruence|].
    unfold ret. eexists. split; [reflexivity|]. unfold after_retrieval. simpl.
    rewrite <- !app_assoc. reflexivity.
  - intros ->. split; [reflexivity|].
    rewrite report_gap_run, after_retrieval_cache. split; [|split].
    + intros s cid -> -> -> ->.
      eexists. split; [reflexivity|]. unfold after_retrieval. simpl.
      rewrite <- !app_assoc. reflexivity.
    + intros Hunset.
      destruct (_cache w !! "channel_knowledge_gaps") as [s|]; simpl in Hunset;
        [rewrite Hunset|];
        (eexists; split; [reflexivity|]; unfold after_retrieval; simpl;
         rewrite <- !app_assoc; reflexivity).
    + intros s cid -> Hint Hknown. rewrite Hint, Hknown.
      destruct (Py.truthy_str s);
        (eexists; split; [reflexivity|]; unfold after_retrieval; simpl;
         rewrite <- !app_assoc; reflexivity).
Qed.

End GapReport.

(** In the sample deployment with a gaps channel and an empty store, the
    notice goes to channel 55 before the answer call. *)
Lemma gap_reported_when_channel_configured_sample :
  exists w',
    @Query.on_message Sample.external (Sample.mention Sample.member "paano mangisda")
      Sample.bare_reporting_world = (Ok tt, w') /\
    events w' =
      [Typing; TranslateCall "paano mangisda"; EmbeddingCall "how to fish";
       @gap_notice Sample.external 55 "paano mangisda" Sample.member;
       GenerateCall "Use your general knowledge about Project Zomboid to answer."
         "No database context available." "paano mangisda";
       @answer_reply Sample.external "paano mangisda" []].
Proof.
  destruct (@gap_reported_when_channel_configured Sample.external
              (Sample.mention Sample.member "paano mangisda") "paano mangisda"
              "paano mangisda" (1 # 2)
              Sample.bare_reporting_world calm_nil calm_nil calm_nil
              ltac:(vm_compute; reflexivity) ltac:(vm_compute; reflexivity)
              ltac:(vm_compute; reflexivity))
    as [_ Hempty].
  destruct (Hempty ltac:(vm_compute; reflexivity)) as (_ & Hsent & _).
  destruct (Hsent "55" 55 ltac:(vm_compute; reflexivity) eq_refl
              ltac:(vm_compute; reflexivity) eq_refl) as (w' & Hrun & Hevents).
  exists w'. split; [exact Hrun | exact Hevents].
Defined.

(** C6 as stated fails where no gaps channel is configured: in the
    sample deployment with nothing stored and nothing configured,
    retrieval returns no record, the query is answered, and no event of
    the run is a message to a channel. *)
Lemma gap_not_reported_without_channel :
  @retrieved Sample.external "paano mangisda" (1 # 2) Sample.empty_world = [] /\
  exists w',
    @Query.on_message Sample.external (Sample.mention Sample.member "paano mangisda")
      Sample.empty_world = (Ok tt, w') /\
    events w' =
      [Typing; TranslateCall "paano mangisda"; EmbeddingCall "how to fish";
       GenerateCall "Use your general knowledge about Project Zomboid to answer."
         "No database context available." "paano mangisda";
       @answer_reply Sample.external "paano mangisda" []] /\
    forall channel e v, ~ In (ChannelSend channel e v) (events w').
Proof.
  split; [reflexivity|].
  eexists. split; [vm_compute; reflexivity|].
  split; [vm_compute; reflexivity|].
  intros channel e v Hin. simpl in Hin.
  repeat (destruct Hin as [Hin | Hin]; [discriminate Hin|]). exact Hin.
Qed.

(** ** C10: which text goes where *)

Section QuestionText.
Context `{External}.


End QuestionText.


(** ** C7: a failing translation call *)

Section Failures.
Context `{External}.

(** C7 fails on the code.  For a live query that passes the permission
    checks, with the alias lookup answering and the translation call
    failing: the listener raises.  If the aliases apply, it raises the
    model's error, and what it has done by then is the typing indicator
    and the translation call; if a stored replacement is rejected by
    [re.sub], it raises that error right after the typing indicator.
    Either way there is neither a message to anybody nor a log entry, and
    no answer call is made with the untranslated text. *)
Theorem translation_failure_unanswered (message : Message) (content : string)
    (threshold : Q) (w : World) :
  next_fails (db_faults w) = false ->
  next_fails (llm_faults w) = true ->
  Query.permission_gate message w = (Ok (Some content), w) ->
  py_float (threshold_setting w) = Some threshold ->
  exists e w' done,
    Query.on_message message w = (Raise e, w') /\
    events w' = (events w ++ done)%list /\
    Forall (fun e => visible e = false) done /\
    match substituted content w with
    | Some query_text =>
        e = LanguageModelError /\ done = [Typing; TranslateCall query_text]
    | None => e = RegexError /\ done = [Typing]
    end.
Proof.
  intros Hdb Hllm Hgate Hfloat.
  rewrite (on_message_passed _ _ _ Hgate).
  destruct (substituted content w) as [query_text|] eqn:Hsub.
  2:{ rewrite (respond_regex_fails message content w Hdb Hsub).
      eexists _, _, _. split; [reflexivity|]. split; [reflexivity|].
      split; [repeat constructor | split; reflexivity]. }
  unfold Query.respond.
  unfold bind at 1, emit. unfold bind at 1.
  rewrite replace_aliases_run.
  change (substituted content (with_event Typing w)) with (substituted content w).
  rewrite Hsub. simpl. rewrite Hdb.
  unfold bind at 1. rewrite get_or_run. simpl.
  change (default "0.5" (_cache w !! "ai_threshold")) with (threshold_setting w).
  rewrite Hfloat.
  unfold bind at 1. rewrite translate_run. simpl. rewrite Hllm.
  eexists _, _, _. split; [reflexivity|]. simpl. split.
  - rewrite <- app_assoc. reflexivity.
  - split; [repeat constructor | split; reflexivity].
Qed.

(** The [alias] command, by contrast, catches a failing statement and
    tells the requester. *)
Lemma alias_failure_acknowledged inter trigger replacement w :
  next_fails (db_faults w) = true ->
  exists w',
    Knowledge.alias inter trigger replacement w = (Ok tt, w') /\
    events w' =
      (events w ++
       [Deferred; LogException "Error setting alias" DatabaseError;
        Followup ("❌ Error setting alias: " ++ exn_message DatabaseError) false])%list.
Proof.
  intros Hdb.
  unfold Knowledge.alias, bind at 1, emit. unfold try_except.
  unfold bind at 1. unfold Database.execute_alias_upsert, bind at 1.
  rewrite round_trip_run. simpl. rewrite Hdb.
  unfold bind. simpl.
  eexists. split; [reflexivity|]. simpl. rewrite <- !app_assoc. reflexivity.
Qed.

(** So does [upsert_knowledge]: it returns, whatever fails inside. *)
Lemma upsert_knowledge_returns topic content spoiler user doc_id check_dup w :
  exists r w',
    Knowledge.upsert_knowledge topic content spoiler user doc_id check_dup w = (Ok r, w').
Proof.
  unfold Knowledge.upsert_knowledge, try_except.
  match goal with |- context [let (_, _) := ?body w in _] => destruct (body w) as [[r|e] w1] end.
  - eauto.
  - unfold bind, emit, ret. eauto.
Qed.

End Failures.

(** In the sample deployment, with the language model down. *)
Lemma translation_failure_unanswered_sample :
  exists w',
    @Query.on_message Sample.external (Sample.mention Sample.member "paano mangisda")
      (with_llm_faults [true] Sample.stocked_world) = (Raise LanguageModelError, w') /\
    events w' = [Typing; TranslateCall "paano mangisda"].
Proof.
  destruct (@translation_failure_unanswered Sample.external
              (Sample.mention Sample.member "paano mangisda") "paano mangisda" (1 # 2)
              (with_llm_faults [true] Sample.stocked_world)
              eq_refl eq_refl ltac:(vm_compute; reflexivity) ltac:(vm_compute; reflexivity))
    as (e & w' & done & Hrun & Hevents & _ & Hcase).
  assert (Hsub : @substituted Sample.external "paano mangisda"
                   (with_llm_faults [true] Sample.stocked_world) =
                 Some "paano mangisda") by reflexivity.
  rewrite Hsub in Hcase. destruct Hcase as [-> ->].
  exists w'. split; [exact Hrun | exact Hevents].
Defined.

(** ** C9, second half: nothing deletes an alias *)

Ltac handler_frame_step :=
  lazymatch goal with
  | |- preserves _ (AI.get_embedding _) => apply preserves_get_embedding
  | |- preserves _ (AI.translate_to_english _) => apply preserves_translate
  | |- preserves _ (AI.search_knowledge_base _ _) => apply preserves_search
  | |- preserves _ (AI.check_duplicate _ _) => apply preserves_check_duplicate
  | |- preserves _ (AI.generate_answer _ _) => apply preserves_generate
  | |- preserves _ (Knowledge.log_audit _ _ _) => apply preserves_log_audit
  | |- preserves _ (ConfigManager.is_configured_role _ _) =>
      apply preserves_is_configured_role
  | |- preserves _ (Database.fetchval_id_by_topic _) => apply preserves_fetchval_id_by_topic
  | |- preserves _ (Database.fetchrow_by_id _) => apply preserves_fetchrow_by_id
  | |- preserves _ Database.fetch_aliases => apply preserves_fetch_aliases
  | |- preserves _ (Query.apply_aliases _ _) => apply preserves_apply_aliases
  | |- preserves _ (modify _) => apply preserves_modify
  | _ => frame_step
  end.

Ltac handler_frame := repeat handler_frame_step.

Section AliasesStay.
Context `{External}.

Lemma upsert_alias_keeps trigger replacement rows t :
  In t (List.map fst rows) ->
  In t (List.map fst (Database.upsert_alias trigger replacement rows)).
Proof.
  induction rows as [|[t0 r0] rest IH]; simpl; [tauto|].
  destruct (String.eqb t0 trigger); simpl; intros [Heq | Hin]; auto.
Qed.

Lemma alias_upsert_keeps_triggers trigger replacement :
  preserves triggers_kept (Database.execute_alias_upsert trigger replacement).
Proof.
  unfold Database.execute_alias_upsert. handler_frame.
  intros t. simpl. apply upsert_alias_keeps.
Qed.

(** Writes to the other tables leave the alias table as it is. *)
Ltac other_table := unfold triggers_kept; simpl; tauto.

Lemma upsert_knowledge_keeps_triggers topic content spoiler user doc_id check_dup :
  preserves triggers_kept
    (Knowledge.upsert_knowledge topic content spoiler user doc_id check_dup).
Proof.
  unfold Knowledge.upsert_knowledge, Database.execute_update_doc,
    Database.fetchval_insert_doc.
  handler_frame; other_table.
Qed.

Lemma save_knowledge_keeps_triggers inter topic content spoiler doc_id :
  preserves triggers_kept (Knowledge.save_knowledge inter topic content spoiler doc_id).
Proof.
  unfold Knowledge.save_knowledge.
  apply preserves_bind; [typeclasses eauto | apply upsert_knowledge_keeps_triggers |].
  handler_frame.
Qed.

Lemma handle_keeps_triggers inter request :
  preserves triggers_kept (Gateway.handle inter request).
Proof.
  destruct request as [|trigger replacement|topic|topic|missing_query origin|m topic content spoiler];
    simpl; unfold Gateway.checked.
  - unfold Knowledge.teach. handler_frame.
  - unfold Knowledge.alias. handler_frame. apply alias_upsert_keeps_triggers.
  - unfold Knowledge.forget, Database.execute_delete_by_topic. handler_frame.
    other_table.
  - unfold Knowledge.edit, Knowledge.open_edit_modal. handler_frame.
  - unfold UI.teach_gap. handler_frame.
  - unfold UI.on_submit, UI.gap_callback.
    apply preserves_bind; [typeclasses eauto | handler_frame | intros _].
    destruct (modal_callback m); try apply save_knowledge_keeps_triggers.
    apply preserves_bind; [typeclasses eauto | apply upsert_knowledge_keeps_triggers |].
    handler_frame.
Qed.

Lemma on_message_keeps_triggers message :
  preserves triggers_kept (Query.on_message message).
Proof.
  unfold Query.on_message, Query.permission_gate, Query.respond, Query.replace_aliases,
    Query.report_gap.
  handler_frame.
Qed.

Lemma config_threshold_keeps_triggers inter value :
  preserves triggers_kept (Admin.config_threshold inter value).
Proof.
  unfold Admin.config_threshold, ConfigManager.set, Database.execute_config_upsert.
  handler_frame; other_table.
Qed.

End AliasesStay.

(** C9 as stated speaks of deleting an alias.  The program cannot: no
    request to the Knowledge cog, no live query and no threshold command,
    in any deployment and any world, ends with a trigger missing that was
    in the alias table before.  The one command on aliases inserts or
    overwrites: in the sample deployment, given the absent trigger "hq"
    it answers with a success message and the table has a new row; and
    [forget] given the trigger "pz" looks for a topic of that name. *)
Lemma no_request_deletes_an_alias :
  (~ exists (deployment : External) (w : World) (t : string),
       In t (List.map fst (aliases w)) /\
       ((exists inter request,
           ~ In t (List.map fst (aliases (snd (Gateway.handle inter request w))))) \/
        (exists message,
           ~ In t (List.map fst (aliases (snd (Query.on_message message w))))) \/
        (exists inter value,
           ~ In t (List.map fst (aliases (snd (Admin.config_threshold inter value w))))))) /\
  (let after := snd (@Gateway.handle Sample.external (mkInteraction Sample.librarian)
                       (@Gateway.Alias "hq" "headquarters") Sample.stocked_world) in
   aliases Sample.stocked_world = [("pz", "Project Zomboid")] /\
   aliases after = [("pz", "Project Zomboid"); ("hq", "headquarters")] /\
   events after = [Deferred; Followup "✅ Alias set: `hq` -> `headquarters`" false]) /\
  (let after := snd (@Gateway.handle Sample.external (mkInteraction Sample.librarian)
                       (@Gateway.Forget "pz") Sample.stocked_world) in
   aliases after = [("pz", "Project Zomboid")] /\
   events after = [Deferred; Followup "❌ Topic `pz` not found." true]).
Proof.
  split; [|split].
  - intros (deployment & w & t & Hin &
            [(inter & request & Hgone) | [(message & Hgone) | (inter & value & Hgone)]]);
      apply Hgone.
    + apply (handle_keeps_triggers inter request w). exact Hin.
    + apply (on_message_keeps_triggers message w). exact Hin.
    + apply (config_threshold_keeps_triggers inter value w). exact Hin.
  - vm_compute. auto.
  - vm_compute. auto.
Qed.

(** * Part III: further properties of the code *)

(** ** The config store: delete, load, coherence *)

Section ConfigStore.

Lemma delete_run key w :
  ConfigManager.delete key w =
  if next_fails (db_faults w)
  then (Raise DatabaseError, with_db_faults (tl (db_faults w)) w)
  else (Ok tt,
        (if bool_decide (is_Some (_cache w !! key))
         then with_cache (fun c => delete key c)
         else fun w1 => w1)
          (with_config (fun c => delete key c) (with_db_faults (tl (db_faults w)) w))).
Proof.
  unfold ConfigManager.delete, Database.execute_config_delete, bind, modify, gets, ret.
  rewrite round_trip_run.
  destruct (next_fails (db_faults w)); [reflexivity|]. simpl.
  destruct (bool_decide (is_Some (_cache w !! key))); reflexivity.
Qed.

(** X1.  [delete] writes through like [set]: a failing statement raises
    and leaves table and cache as they were; a successful one removes
    the key from both, after which [get] of the key gives the fallback
    and [get] of any other key gives what it gave before. *)
Theorem config_delete_writes_through (key : string) (w : World) :
  (next_fails (db_faults w) = true ->
     exists w', ConfigManager.delete key w = (Raise DatabaseError, w') /\
       _cache w' = _cache w /\ config w' = config w) /\
  (next_fails (db_faults w) = false ->
     exists w', ConfigManager.delete key w = (Ok tt, w') /\
       config w' = delete key (config w) /\
       _cache w' = delete key (_cache w) /\
       (forall fallback, ConfigManager.get key fallback w' = (Ok fallback, w')) /\
       (forall other fallback, other <> key ->
          fst (ConfigManager.get other fallback w') = fst (ConfigManager.get other fallback w))).
Proof.
  split; intros Hnext; rewrite delete_run, Hnext.
  - eexists. split; [reflexivity|]. simpl. auto.
  - assert (Hcache : forall w1, _cache w1 = _cache w ->
              _cache ((if bool_decide (is_Some (_cache w !! key))
                       then with_cache (fun c => delete key c)
                       else fun w2 => w2) w1) = delete key (_cache w)).
    { intros w1 Hw1. case_bool_decide as Hsome; simpl.
      - rewrite Hw1. reflexivity.
      - rewrite Hw1. symmetry. apply delete_id.
        destruct (_cache w !! key) eqn:E; [|reflexivity].
        exfalso. apply Hsome. eauto. }
    eexists. split; [reflexivity|].
    split; [case_bool_decide; reflexivity|].
    split; [apply Hcache; reflexivity|].
    split.
    + intros fallback. rewrite get_run, Hcache by reflexivity.
      rewrite lookup_delete_eq. reflexivity.
    + intros other fallback Hother. rewrite !get_run, Hcache by reflexivity.
      simpl. rewrite lookup_delete_ne by congruence. reflexivity.
Qed.

Lemma load_cache_run w :
  ConfigManager.load_cache w =
  if next_fails (db_faults w)
  then (Raise DatabaseError, with_db_faults (tl (db_faults w)) w)
  else (Ok tt,
        with_event (LogInfo ("Config loaded: " ++
                             Py.str_int (Z.of_nat (size (config w))) ++ " keys."))
          (with_cache (fun _ => config w) (with_db_faults (tl (db_faults w)) w))).
Proof.
  unfold ConfigManager.load_cache, Database.fetch_config, bind, modify, gets, emit.
  rewrite round_trip_run.
  destruct (next_fails (db_faults w)); [reflexivity|]. simpl.
  unfold with_cache at 2. simpl. unfold with_cache. simpl.
  rewrite !list_to_map_to_list. reflexivity.
Qed.

(** X2.  [load_cache] makes the cache a copy of the table, whatever the
    cache held: afterwards [get] answers every key from the table's
    value.  If the statement fails, it raises and the cache is as it
    was. *)
Theorem load_cache_mirrors_table (w : World) :
  (next_fails (db_faults w) = false ->
     exists w', ConfigManager.load_cache w = (Ok tt, w') /\
       _cache w' = config w /\ config w' = config w /\
       forall key fallback,
         ConfigManager.get key fallback w' =
         (Ok (match config w !! key with Some v => Some v | None => fallback end), w')) /\
  (next_fails (db_faults w) = true ->
     exists w', ConfigManager.load_cache w = (Raise DatabaseError, w') /\
       _cache w' = _cache w).
Proof.
  split; intros Hnext; rewrite load_cache_run, Hnext.
  - eexists. split; [reflexivity|]. simpl.
    split; [reflexivity|]. split; [reflexivity|].
    intros key fallback. rewrite get_run. reflexivity.
  - eexists. split; [reflexivity|]. reflexivity.
Qed.

End ConfigStore.

(** In the sample deployment: drop the librarian role; reload a cache
    that had been emptied. *)
Lemma config_delete_writes_through_sample :
  exists w', ConfigManager.delete "role_librarian" Sample.stocked_world = (Ok tt, w') /\
    ConfigManager.get "role_librarian" None w' = (Ok None, w').
Proof.
  destruct (config_delete_writes_through "role_librarian" Sample.stocked_world) as [_ Hok].
  destruct (Hok eq_refl) as (w' & Hrun & _ & _ & Hget & _).
  exists w'. split; [exact Hrun | apply Hget].
Defined.

Lemma load_cache_mirrors_table_sample :
  exists w', ConfigManager.load_cache (with_cache (fun _ => ∅) Sample.stocked_world) = (Ok tt, w') /\
    ConfigManager.get "role_librarian" None w' = (Ok (Some "10"), w').
Proof.
  destruct (load_cache_mirrors_table (with_cache (fun _ => ∅) Sample.stocked_world)) as [Hok _].
  destruct (Hok eq_refl) as (w' & Hrun & _ & _ & Hget).
  exists w'. split; [exact Hrun | apply Hget].
Defined.

(** ** Footprints: which handler writes where *)

#[global] Instance unchanged_seq : Frame (unchanged pinya_docs_seq).
Proof. split; unfold unchanged; intros; simpl; congruence. Qed.

#[global] Instance unchanged_config_knowledge : KnowledgeFrame (unchanged config).
Proof. split; [typeclasses eauto | reflexivity..]. Qed.

#[global] Instance unchanged_cache_knowledge : KnowledgeFrame (unchanged _cache).
Proof. split; [typeclasses eauto | reflexivity..]. Qed.

#[global] Instance unchanged_docs_config : ConfigFrame (unchanged pinya_docs).
Proof. split; [typeclasses eauto | reflexivity..]. Qed.

#[global] Instance unchanged_seq_config : ConfigFrame (unchanged pinya_docs_seq).
Proof. split; [typeclasses eauto | reflexivity..]. Qed.

#[global] Instance unchanged_aliases_config : ConfigFrame (unchanged aliases).
Proof. split; [typeclasses eauto | reflexivity..]. Qed.

Section Footprints.
Context `{External}.

Lemma upsert_knowledge_preserves R `{!KnowledgeFrame R}
    topic content spoiler user doc_id check_dup :
  preserves R (Knowledge.upsert_knowledge topic content spoiler user doc_id check_dup).
Proof.
  unfold Knowledge.upsert_knowledge, Database.execute_update_doc,
    Database.fetchval_insert_doc.
  handler_frame.
  - apply frame_docs.
  - eapply frame_trans; [apply frame_docs | apply frame_seq].
Qed.

Lemma save_knowledge_preserves R `{!KnowledgeFrame R} inter topic content spoiler doc_id :
  preserves R (Knowledge.save_knowledge inter topic content spoiler doc_id).
Proof.
  unfold Knowledge.save_knowledge.
  apply preserves_bind; [typeclasses eauto | apply upsert_knowledge_preserves; assumption |].
  handler_frame.
Qed.

(** Whatever a request to the Knowledge cog does, it does to the
    knowledge tables, to the event log and to the fault scripts. *)
Lemma handle_preserves R `{!KnowledgeFrame R} inter request :
  preserves R (Gateway.handle inter request).
Proof.
  destruct request as [|trigger replacement|topic|topic|missing_query origin|m topic content spoiler];
    simpl; unfold Gateway.checked.
  - unfold Knowledge.teach. handler_frame.
  - unfold Knowledge.alias, Database.execute_alias_upsert. handler_frame.
    apply frame_aliases.
  - unfold Knowledge.forget, Database.execute_delete_by_topic. handler_frame.
    apply frame_docs.
  - unfold Knowledge.edit, Knowledge.open_edit_modal. handler_frame.
  - unfold UI.teach_gap. handler_frame.
  - unfold UI.on_submit, UI.gap_callback.
    apply preserves_bind; [typeclasses eauto | handler_frame | intros _].
    destruct (modal_callback m); try (apply save_knowledge_preserves; assumption).
    apply preserves_bind;
      [typeclasses eauto | apply upsert_knowledge_preserves; assumption |].
    handler_frame.
Qed.

Lemma on_message_preserves R `{!Frame R} message :
  preserves R (Query.on_message message).
Proof.
  unfold Query.on_message, Query.permission_gate, Query.respond, Query.replace_aliases,
    Query.report_gap.
  handler_frame.
Qed.

Lemma set_preserves R `{!ConfigFrame R} key value : preserves R (ConfigManager.set key value).
Proof.
  unfold ConfigManager.set, Database.execute_config_upsert. handler_frame.
  - apply frame_config.
  - apply frame_cache.
Qed.

(** X3.  A live query only reads: whatever the message, whatever the
    world and whichever call fails, the config table, the cache, the
    records, the id sequence and the alias table are afterwards what
    they were. *)
Theorem live_query_only_reads (message : Message) (w : World) :
  let w' := snd (Query.on_message message w) in
  config w' = config w /\ _cache w' = _cache w /\ pinya_docs w' = pinya_docs w /\
  pinya_docs_seq w' = pinya_docs_seq w /\ aliases w' = aliases w.
Proof.
  cbv zeta. repeat split.
  - apply (on_message_preserves (unchanged config) message w).
  - apply (on_message_preserves (unchanged _cache) message w).
  - apply (on_message_preserves (unchanged pinya_docs) message w).
  - apply (on_message_preserves (unchanged pinya_docs_seq) message w).
  - apply (on_message_preserves (unchanged aliases) message w).
Qed.

(** X4.  The commands split the state between them: no request to the
    Knowledge cog changes the config table or the cache, and neither the
    threshold command nor the role and channel commands change a record,
    the id sequence or an alias. *)
Theorem handlers_keep_to_their_tables (inter : Interaction) (w : World) :
  (forall request,
     let w' := snd (Gateway.handle inter request w) in
     config w' = config w /\ _cache w' = _cache w) /\
  (forall m : M unit,
     (exists value, m = Admin.config_threshold inter value) \/
     (exists role_type role, m = Admin.config_role inter role_type role) \/
     (exists channel_type channel, m = Admin.config_channel inter channel_type channel) ->
     let w' := snd (m w) in
     pinya_docs w' = pinya_docs w /\ pinya_docs_seq w' = pinya_docs_seq w /\
     aliases w' = aliases w).
Proof.
  split.
  - intros request. cbv zeta. split.
    + apply (handle_preserves (unchanged config) inter request w).
    + apply (handle_preserves (unchanged _cache) inter request w).
  - assert (Hadmin : forall R `{!ConfigFrame R} (m : M unit),
              (exists value, m = Admin.config_threshold inter value) \/
              (exists role_type role, m = Admin.config_role inter role_type role) \/
              (exists channel_type channel,
                 m = Admin.config_channel inter channel_type channel) ->
              preserves R m).
    { intros R HR m [(value & ->) | [(role_type & role & ->) | (channel_type & channel & ->)]].
      - unfold Admin.config_threshold.
        handler_frame; apply set_preserves; assumption.
      - unfold Admin.config_role.
        handler_frame; apply set_preserves; assumption.
      - unfold Admin.config_channel.
        handler_frame; apply set_preserves; assumption. }
    intros m Hm. cbv zeta. repeat split.
    + apply (Hadmin (unchanged pinya_docs) _ m Hm w).
    + apply (Hadmin (unchanged pinya_docs_seq) _ m Hm w).
    + apply (Hadmin (unchanged aliases) _ m Hm w).
Qed.

End Footprints.

(** ** The cache stays a copy of the table *)

#[global] Instance stays_coherent_frame : Frame stays_coherent.
Proof. split; unfold stays_coherent, coherent; intros; simpl; auto. Qed.

Section Coherence.
Context `{External}.

Lemma set_stays_coherent key value : preserves stays_coherent (ConfigManager.set key value).
Proof.
  intros w Hw. rewrite set_run. unfold coherent in *.
  destruct (next_fails (db_faults w)); simpl; [exact Hw|]. rewrite Hw. reflexivity.
Qed.

Lemma delete_stays_coherent key : preserves stays_coherent (ConfigManager.delete key).
Proof.
  intros w Hw. rewrite delete_run. unfold coherent in *.
  destruct (next_fails (db_faults w)); simpl; [exact Hw|].
  case_bool_decide as Hsome; simpl; rewrite <- Hw; [reflexivity|].
  symmetry. apply delete_id. destruct (_cache w !! key) eqn:E; [|reflexivity].
  exfalso. apply Hsome. eauto.
Qed.

(** X5.  Once the cache holds what the config table holds, it keeps
    doing so: [set] and [delete] keep the two equal whether their
    statement succeeds or fails, and so do the threshold, role and
    channel commands, every request to the Knowledge cog and every live
    query.  [load_cache] makes them equal when its statement succeeds. *)
Theorem cache_stays_coherent (w : World) :
  (next_fails (db_faults w) = false -> coherent (snd (ConfigManager.load_cache w))) /\
  (coherent w ->
   (forall key value, coherent (snd (ConfigManager.set key value w))) /\
   (forall key, coherent (snd (ConfigManager.delete key w))) /\
   (forall inter value, coherent (snd (Admin.config_threshold inter value w))) /\
   (forall inter role_type role, coherent (snd (Admin.config_role inter role_type role w))) /\
   (forall inter channel_type channel,
      coherent (snd (Admin.config_channel inter channel_type channel w))) /\
   (forall inter request, coherent (snd (Gateway.handle inter request w))) /\
   (forall message, coherent (snd (Query.on_message message w)))).
Proof.
  split.
  - intros Hnext. rewrite load_cache_run, Hnext. reflexivity.
  - intros Hw. repeat split.
    + intros key value. apply (set_stays_coherent key value w Hw).
    + intros key. apply (delete_stays_coherent key w Hw).
    + intros inter value.
      assert (Hp : preserves stays_coherent (Admin.config_threshold inter value)).
      { unfold Admin.config_threshold. handler_frame; apply set_stays_coherent. }
      apply (Hp w Hw).
    + intros inter role_type role.
      assert (Hp : preserves stays_coherent (Admin.config_role inter role_type role)).
      { unfold Admin.config_role. handler_frame; apply set_stays_coherent. }
      apply (Hp w Hw).
    + intros inter channel_type channel.
      assert (Hp : preserves stays_coherent (Admin.config_channel inter channel_type channel)).
      { unfold Admin.config_channel. handler_frame; apply set_stays_coherent. }
      apply (Hp w Hw).
    + intros inter request. unfold coherent in *.
      rewrite (handle_preserves (unchanged config) inter request w).
      rewrite (handle_preserves (unchanged _cache) inter request w). exact Hw.
    + intros message. unfold coherent in *.
      rewrite (on_message_preserves (unchanged config) message w).
      rewrite (on_message_preserves (unchanged _cache) message w). exact Hw.
Qed.

End Coherence.

(** The sample deployment is coherent, and stays so when the write of
    a new threshold fails. *)
Lemma cache_stays_coherent_sample :
  coherent Sample.stocked_world /\
  coherent (snd (@Admin.config_threshold Sample.external (mkInteraction Sample.librarian)
                   (1 # 5) (with_db_faults [true] Sample.stocked_world))).
Proof.
  assert (Hw : coherent (with_db_faults [true] Sample.stocked_world)) by reflexivity.
  split; [reflexivity|].
  destruct (@cache_stays_coherent Sample.external
              (with_db_faults [true] Sample.stocked_world)) as [_ Hkeeps].
  destruct (Hkeeps Hw) as (_ & _ & Hthreshold & _).
  apply Hthreshold.
Defined.

(** ** Decimal text of an [int] *)

Section DecimalText.

Lemma to_int_proper (n : Z) :
  Z.to_int n <> Decimal.Pos Decimal.Nil /\ Z.to_int n <> Decimal.Neg Decimal.Nil.
Proof.
  destruct n as [|p|p]; simpl; split; try discriminate;
    intros [= Hnil]; exact (Unsigned.to_uint_nonnil p Hnil).
Qed.

(** [int(str(n))] is [n] for the deployment's parser. *)
Lemma parse_int_str_int (n : Z) : Sample.parse_int (Py.str_int n) = Some n.
Proof.
  unfold Sample.parse_int, Py.str_int.
  destruct (to_int_proper n) as [Hpos Hneg].
  rewrite (NilZero.isi _ Hpos Hneg). simpl. rewrite of_to. reflexivity.
Qed.

Lemma str_int_injective (n m : Z) : Py.str_int n = Py.str_int m -> n = m.
Proof.
  intros Heq. pose proof (parse_int_str_int n) as Hn.
  rewrite Heq, parse_int_str_int in Hn. congruence.
Qed.

Lemma str_int_truthy (n : Z) : Py.truthy_str (Py.str_int n) = true.
Proof.
  unfold Py.str_int.
  destruct (to_int_proper n) as [Hpos Hneg].
  destruct (Z.to_int n) as [d|d]; simpl; [|reflexivity].
  destruct d; reflexivity.
Qed.

End DecimalText.

(** ** The role check *)

Section RoleCheck.
Context `{External}.

Lemma role_check_run role_type user w :
  ConfigManager.is_configured_role role_type user w =
  match _cache w !! ("role_" ++ role_type) with
  | Some s =>
      if Py.truthy_str s then
        match py_int s with
        | Some rid =>
            if user_has_roles user then
              if existsb (Z.eqb rid) (user_roles user) then (Ok true, w)
              else (Ok false,
                    with_event (ResponseMessage ("⛔ You need the <@&" ++ Py.str_int rid ++
                                                 "> role to use this command.") true) w)
            else (Raise AttributeError, w)
        | None =>
            (Ok false,
             with_event (ResponseMessage ("❌ Configuration error: `" ++ role_type ++
                                          "` role ID is invalid.") true) w)
        end
      else (Ok false, with_event (ResponseMessage (not_configured_text role_type) true) w)
  | None => (Ok false, with_event (ResponseMessage (not_configured_text role_type) true) w)
  end.
Proof.
  unfold ConfigManager.is_configured_role, bind. rewrite get_run.
  destruct (_cache w !! ("role_" ++ role_type)) as [s|]; simpl; [|reflexivity].
  destruct (Py.truthy_str s); simpl; [|reflexivity].
  destruct (py_int s) as [rid|]; [|reflexivity].
  unfold roles_of. destruct (user_has_roles user); [|reflexivity].
  unfold ret. destruct (existsb (Z.eqb rid) (user_roles user)); reflexivity.
Qed.

Lemma existsb_eqb_In (x : Z) (l : list Z) : existsb (Z.eqb x) l = true <-> In x l.
Proof.
  rewrite existsb_exists. split.
  - intros (y & Hy & Heq). apply Z.eqb_eq in Heq. subst. exact Hy.
  - intros Hin. exists x. split; [exact Hin | apply Z.eqb_refl].
Qed.

Lemma truthy_str_nonempty s : Py.truthy_str s = true <-> s <> "".
Proof. destruct s; simpl; split; congruence. Qed.

(** X6.  The role check touches no table.  It raises in one case only:
    the role setting is a number and the user has no roles to read, as
    in a direct message ([AttributeError], and nothing is sent).  In
    every other case it returns: [True], silently, exactly when the
    setting is a non-empty text that parses to the id of one of the
    user's roles, and otherwise [False] after one ephemeral message to
    the user. *)
Theorem role_check_outcome (role_type : string) (user : User) (w : World) :
  let numeric :=
    exists s rid, _cache w !! ("role_" ++ role_type) = Some s /\ s <> "" /\
      py_int s = Some rid in
  (numeric /\ user_has_roles user = false ->
   ConfigManager.is_configured_role role_type user w = (Raise AttributeError, w)) /\
  (~ numeric \/ user_has_roles user = true ->
   exists b : bool,
     (b = true <->
      exists s rid, _cache w !! ("role_" ++ role_type) = Some s /\ s <> "" /\
        py_int s = Some rid /\ In rid (user_roles user)) /\
     (b = true -> ConfigManager.is_configured_role role_type user w = (Ok true, w)) /\
     (b = false ->
      exists text,
        ConfigManager.is_configured_role role_type user w =
        (Ok false, with_event (ResponseMessage text true) w))).
Proof.
  cbv zeta. rewrite role_check_run. split.
  { intros [(s & rid & Hs & Hne & Hint) Hnone].
    rewrite Hs. apply truthy_str_nonempty in Hne. rewrite Hne, Hint, Hnone. reflexivity. }
  intros Hreadable.
  destruct (_cache w !! ("role_" ++ role_type)) as [s|] eqn:Hs.
  - destruct (Py.truthy_str s) eqn:Htruthy.
    + destruct (py_int s) as [rid|] eqn:Hint.
      * assert (Hroles : user_has_roles user = true).
        { destruct Hreadable as [Hnot | Hyes]; [|exact Hyes].
          exfalso. apply Hnot. exists s, rid. split; [reflexivity|].
          split; [apply truthy_str_nonempty; exact Htruthy | exact Hint]. }
        rewrite Hroles.
        destruct (existsb (Z.eqb rid) (user_roles user)) eqn:Hrole.
        -- exists true. split; [|split]; [|reflexivity|discriminate].
           split; [|reflexivity]. intros _. exists s, rid.
           split; [reflexivity|].
           split; [apply truthy_str_nonempty; exact Htruthy|].
           split; [exact Hint|]. apply existsb_eqb_In. exact Hrole.
        -- exists false. split; [|split]; [|discriminate|eauto].
           split; [discriminate|]. intros (s' & rid' & [= <-] & _ & Hint' & Hin).
           rewrite Hint in Hint'. injection Hint' as <-.
           apply existsb_eqb_In in Hin. congruence.
      * exists false. split; [|split]; [|discriminate|eauto].
        split; [discriminate|]. intros (s' & rid' & [= <-] & _ & Hint' & _). congruence.
    + exists false. split; [|split]; [|discriminate|eauto].
      split; [discriminate|]. intros (s' & rid' & [= <-] & Hne & _).
      apply truthy_str_nonempty in Hne. congruence.
  - exists false. split; [|split]; [|discriminate|eauto].
    split; [discriminate|]. intros (s' & rid' & Hsome & _). discriminate.
Qed.

(** X7.  A slash command of the Knowledge cog from a user who does not
    hold the configured librarian role runs no part of its body, so no
    record, alias or setting changes and no database statement is sent.
    A user whose roles can be read gets the ephemeral refusal, and that
    is the one thing that happens; so does anyone while the setting is
    no number.  With a number configured, a user without roles to read
    (the command run in a direct message) gets nothing: the check
    raises and the world is as it was. *)
Theorem slash_command_needs_role (inter : Interaction) (request : Gateway.Request) (w : World) :
  slash_command request = true ->
  let user := inter_user inter in
  let numeric :=
    exists s rid, _cache w !! "role_librarian" = Some s /\ s <> "" /\ py_int s = Some rid in
  (user_has_roles user = true ->
   (forall s rid, _cache w !! "role_librarian" = Some s -> py_int s = Some rid ->
      ~ In rid (user_roles user)) ->
   exists text,
     Gateway.handle inter request w = (Ok tt, with_event (ResponseMessage text true) w)) /\
  (~ numeric ->
   exists text,
     Gateway.handle inter request w = (Ok tt, with_event (ResponseMessage text true) w)) /\
  (user_has_roles user = false -> numeric ->
   Gateway.handle inter request w = (Raise AttributeError, w)).
Proof.
  intros Hslash. cbv zeta.
  assert (Hrefused : forall text,
            ConfigManager.is_configured_role "librarian" (inter_user inter) w =
            (Ok false, with_event (ResponseMessage text true) w) ->
            Gateway.handle inter request w =
            (Ok tt, with_event (ResponseMessage text true) w)).
  { intros text Hcheck.
    destruct request; try discriminate Hslash; simpl;
      unfold Gateway.checked, bind; rewrite Hcheck; reflexivity. }
  assert (Hraised : ConfigManager.is_configured_role "librarian" (inter_user inter) w =
                    (Raise AttributeError, w) ->
                    Gateway.handle inter request w = (Raise AttributeError, w)).
  { intros Hcheck.
    destruct request; try discriminate Hslash; simpl;
      unfold Gateway.checked, bind; rewrite Hcheck; reflexivity. }
  pose proof (role_check_run "librarian" (inter_user inter) w) as Hrun.
  change ("role_" ++ "librarian") with "role_librarian" in Hrun.
  split; [|split].
  - intros Hroles Hlacks. rewrite Hroles in Hrun.
    destruct (_cache w !! "role_librarian") as [s|] eqn:Hs; [|eauto].
    destruct (Py.truthy_str s); [|eauto].
    destruct (py_int s) as [rid|] eqn:Hint; [|eauto].
    destruct (existsb (Z.eqb rid) (user_roles (inter_user inter))) eqn:Hrole; [|eauto].
    exfalso. apply (Hlacks s rid eq_refl Hint). apply existsb_eqb_In. exact Hrole.
  - intros Hnot.
    destruct (_cache w !! "role_librarian") as [s|] eqn:Hs; [|eauto].
    destruct (Py.truthy_str s) eqn:Htruthy; [|eauto].
    destruct (py_int s) as [rid|] eqn:Hint; [|eauto].
    exfalso. apply Hnot. exists s, rid. split; [reflexivity|].
    split; [apply truthy_str_nonempty; exact Htruthy | exact Hint].
  - intros Hnone (s & rid & Hs & Hne & Hint).
    apply truthy_str_nonempty in Hne.
    rewrite Hs, Hne, Hint, Hnone in Hrun. apply Hraised. exact Hrun.
Qed.

End RoleCheck.

(** In the sample deployment Ben, who has no role, asks to forget the
    Base entry and is refused; Ana, asking the same in a direct message,
    gets no answer. *)
Lemma slash_command_needs_role_sample :
  (exists text,
     @Gateway.handle Sample.external (mkInteraction Sample.member) (@Gateway.Forget "Base")
       Sample.stocked_world =
     (Ok tt, with_event (ResponseMessage text true) Sample.stocked_world)) /\
  @Gateway.handle Sample.external (mkInteraction Sample.visitor) (@Gateway.Forget "Base")
    Sample.stocked_world = (Raise AttributeError, Sample.stocked_world).
Proof.
  split.
  - destruct (@slash_command_needs_role Sample.external (mkInteraction Sample.member)
                (@Gateway.Forget "Base") Sample.stocked_world eq_refl) as (Hrefused & _ & _).
    apply Hrefused; [reflexivity|].
    intros s rid Hs Hint Hin. exact Hin.
  - destruct (@slash_command_needs_role Sample.external (mkInteraction Sample.visitor)
                (@Gateway.Forget "Base") Sample.stocked_world eq_refl) as (_ & _ & Hraised).
    apply Hraised; [reflexivity|].
    exists "10", 10. split; [reflexivity|]. split; [discriminate | reflexivity].
Defined.

(** ** Settings take effect *)

Section SettingsTakeEffect.
Context `{External}.

Lemma config_role_run inter role_type role w :
  next_fails (db_faults w) = false ->
  Admin.config_role inter role_type role w =
  (Ok tt,
   with_event (Followup ("✅ Configured `" ++ Admin.choice_name role_type ++ "` role to " ++
                         Admin.role_mention role) false)
     (snd (ConfigManager.set ("role_" ++ Admin.choice_value role_type)
             (Py.str_int (Admin.role_id role)) (with_event Deferred w)))).
Proof.
  intros Hdb. unfold Admin.config_role, bind, emit.
  rewrite set_run. simpl. rewrite Hdb. reflexivity.
Qed.

Lemma config_channel_run inter channel_type channel w :
  next_fails (db_faults w) = false ->
  Admin.config_channel inter channel_type channel w =
  (Ok tt,
   with_event (Followup ("✅ Configured `" ++ Admin.choice_name channel_type ++
                         "` channel to " ++ Admin.channel_mention channel) false)
     (snd (ConfigManager.set ("channel_" ++ Admin.choice_value channel_type)
             (Py.str_int (Admin.channel_id channel)) (with_event Deferred w)))).
Proof.
  intros Hdb. unfold Admin.config_channel, bind, emit.
  rewrite set_run. simpl. rewrite Hdb. reflexivity.
Qed.

(** X8.  Once [config_role] has stored a role for a permission level
    (the statement succeeds, and [int] reads back what [str] printed),
    the check for that level passes no user but those who have that
    role, whatever was configured before: of the users whose roles can
    be read it passes exactly those who have it and refuses the others;
    for a user with no roles to read, as in a direct message, it
    raises. *)
Theorem configured_role_is_checked (inter : Interaction) (role_type : Admin.Choice)
    (role : Admin.Role) (w : World) :
  next_fails (db_faults w) = false ->
  py_int (Py.str_int (Admin.role_id role)) = Some (Admin.role_id role) ->
  exists w',
    Admin.config_role inter role_type role w = (Ok tt, w') /\
    forall user,
      (user_has_roles user = true -> In (Admin.role_id role) (user_roles user) ->
       ConfigManager.is_configured_role (Admin.choice_value role_type) user w' = (Ok true, w')) /\
      (user_has_roles user = true -> ~ In (Admin.role_id role) (user_roles user) ->
       exists text,
         ConfigManager.is_configured_role (Admin.choice_value role_type) user w' =
         (Ok false, with_event (ResponseMessage text true) w')) /\
      (user_has_roles user = false ->
       ConfigManager.is_configured_role (Admin.choice_value role_type) user w' =
       (Raise AttributeError, w')).
Proof.
  intros Hdb Hint. rewrite (config_role_run inter role_type role w Hdb).
  eexists. split; [reflexivity|].
  intros user. rewrite role_check_run, set_run. simpl. rewrite Hdb. simpl.
  rewrite lookup_insert_eq, str_int_truthy, Hint.
  destruct (user_has_roles user).
  2:{ split; [discriminate|]. split; [discriminate | reflexivity]. }
  destruct (existsb (Z.eqb (Admin.role_id role)) (user_roles user)) eqn:Hrole.
  - split; [reflexivity|]. split; [|discriminate]. intros _ Hnot. exfalso. apply Hnot.
    apply existsb_eqb_In. exact Hrole.
  - split; [|split; [eauto | discriminate]].
    intros _ Hin. apply existsb_eqb_In in Hin. congruence.
Qed.

(** X9.  Once [config_channel] has stored a channel the bot knows (the
    statement succeeds, and [int] reads back what [str] printed): stored
    as the gaps channel, the gap report of a live query goes to it;
    stored as the audit channel, the audit entry of a knowledge command
    goes to it. *)
Theorem configured_channel_is_used (inter : Interaction) (label : string)
    (channel : Admin.TextChannel) (w : World) :
  next_fails (db_faults w) = false ->
  py_int (Py.str_int (Admin.channel_id channel)) = Some (Admin.channel_id channel) ->
  channel_known (Admin.channel_id channel) = true ->
  (exists w',
     Admin.config_channel inter (Admin.mkChoice label "knowledge_gaps") channel w = (Ok tt, w') /\
     forall query_text author,
       Query.report_gap query_text author w' =
       (Ok tt, with_event (gap_notice (Admin.channel_id channel) query_text author) w')) /\
  (exists w',
     Admin.config_channel inter (Admin.mkChoice label "audit_log") channel w = (Ok tt, w') /\
     forall title description user,
       Knowledge.log_audit title description user w' =
       (Ok tt,
        with_event
          (ChannelSend (Admin.channel_id channel)
             (mkEmbed (Some title) description Colors.blue
                (Some (user_display_name user, user_avatar_url user))
                (Some ("User ID: " ++ Py.str_int (user_id user), None)))
             None) w')).
Proof.
  intros Hdb Hint Hknown. split.
  - rewrite (config_channel_run inter _ channel w Hdb).
    eexists. split; [reflexivity|].
    intros query_text author. rewrite report_gap_run, set_run. simpl. rewrite Hdb. simpl.
    change ("channel_" ++ "knowledge_gaps") with "channel_knowledge_gaps".
    rewrite lookup_insert_eq, str_int_truthy, Hint, Hknown. reflexivity.
  - rewrite (config_channel_run inter _ channel w Hdb).
    eexists. split; [reflexivity|].
    intros title description user.
    unfold Knowledge.log_audit, bind. rewrite get_run, set_run. simpl. rewrite Hdb. simpl.
    change ("channel_" ++ "audit_log") with "channel_audit_log".
    rewrite lookup_insert_eq. simpl.
    rewrite str_int_truthy. simpl. rewrite Hint, Hknown. reflexivity.
Qed.

End SettingsTakeEffect.

(** In the sample deployment: role 20 becomes the manager role; channel
    55 becomes the gaps channel. *)
Lemma configured_role_is_checked_sample :
  exists w',
    @Admin.config_role (mkInteraction Sample.librarian)
      (Admin.mkChoice "Manager (Can config)" "manager") (Admin.mkRole 20 "<@&20>")
      Sample.stocked_world = (Ok tt, w') /\
    exists text,
      @ConfigManager.is_configured_role Sample.external "manager" Sample.librarian w' =
      (Ok false, with_event (ResponseMessage text true) w').
Proof.
  destruct (@configured_role_is_checked Sample.external (mkInteraction Sample.librarian)
              (Admin.mkChoice "Manager (Can config)" "manager") (Admin.mkRole 20 "<@&20>")
              Sample.stocked_world eq_refl (parse_int_str_int 20))
    as (w' & Hrun & Hcheck).
  exists w'. split; [exact Hrun|].
  apply (Hcheck Sample.librarian); [reflexivity|].
  intros [Hin | []]. discriminate Hin.
Defined.

Lemma configured_channel_is_used_sample :
  exists w',
    @Admin.config_channel (mkInteraction Sample.librarian)
      (Admin.mkChoice "Knowledge Gaps" "knowledge_gaps") (Admin.mkTextChannel 55 "<#55>")
      Sample.stocked_world = (Ok tt, w') /\
    @Query.report_gap Sample.external "paano mangisda" Sample.member w' =
    (Ok tt, with_event (@gap_notice Sample.external 55 "paano mangisda" Sample.member) w').
Proof.
  destruct (@configured_channel_is_used Sample.external (mkInteraction Sample.librarian)
              "Knowledge Gaps" (Admin.mkTextChannel 55 "<#55>")
              Sample.stocked_world eq_refl (parse_int_str_int 55) eq_refl)
    as [(w' & Hrun & Hgap) _].
  exists w'. split; [exact Hrun | apply Hgap].
Defined.

Section ThresholdTakesEffect.
Context `{External}.

(** The block under the typing indicator, when the services answer
    and the aliases apply. *)
Lemma respond_outcome message content query_text threshold w :
  calm (db_faults w) -> calm (embed_faults w) -> calm (llm_faults w) ->
  substituted content w = Some query_text ->
  py_float (threshold_setting w) = Some threshold ->
  let results := retrieved query_text threshold w in
  let gap_step :=
    match results with
    | [] => Query.report_gap query_text (msg_author message)
    | _ :: _ => ret tt
    end in
  Query.respond message content w =
  match gap_step (after_retrieval query_text w) with
  | (Ok _, w1) =>
      (Ok tt,
       with_event (answer_reply query_text results)
         (with_llm_faults (tl (llm_faults w1))
            (with_event (answer_call query_text results) w1)))
  | (Raise e, w1) => (Raise e, w1)
  end.
Proof.
  intros Hdb Hembed Hllm Hsub Hfloat. cbv zeta.
  rewrite (respond_run message content query_text threshold w Hdb Hembed
             (calm_next _ Hllm) Hsub Hfloat).
  cbv zeta. unfold bind at 1.
  assert (Hstep : forall w1, llm_faults w1 = tl (llm_faults w) ->
            next_fails (llm_faults w1) = false).
  { intros w1 ->. apply calm_next, calm_tl, Hllm. }
  destruct (retrieved query_text threshold w) as [|top rest].
  - rewrite report_gap_run, after_retrieval_cache.
    destruct (_cache w !! "channel_knowledge_gaps") as [s|];
      [destruct (Py.truthy_str s); [destruct (py_int s) as [cid|];
         [destruct (channel_known cid)|]|]|];
      try reflexivity; apply answer_run; apply Hstep; reflexivity.
  - unfold ret at 1. apply answer_run. apply Hstep. reflexivity.
Qed.

Lemma report_gap_raises query_text author w1 e w2 :
  Query.report_gap query_text author w1 = (Raise e, w2) -> e = ValueError.
Proof.
  rewrite report_gap_run.
  destruct (_cache w1 !! "channel_knowledge_gaps") as [s|]; [|discriminate].
  destruct (Py.truthy_str s); [|discriminate].
  destruct (py_int s) as [cid|]; [destruct (channel_known cid); discriminate|].
  congruence.
Qed.

(** X10.  Once [config_threshold] has stored a value of the range (the
    statement succeeds, and [float] reads back what [str] printed), a
    live query that follows retrieves at that value: when the aliases
    apply, its answer call is made on what the server returns for the
    records at the new threshold.  It ends otherwise only on a
    gaps-channel setting that is not a number. *)
Theorem configured_threshold_is_used (inter : Interaction) (v : Q) (message : Message)
    (content query_text : string) (w : World) :
  (1 # 10 <= v /\ v <= 1)%Q ->
  calm (db_faults w) -> calm (embed_faults w) -> calm (llm_faults w) ->
  py_float (str_float v) = Some v ->
  substituted content w = Some query_text ->
  exists w',
    Admin.config_threshold inter v w = (Ok tt, w') /\
    threshold_setting w' = str_float v /\
    let results :=
      Database.select_similar (embed_text (llm_translate query_text)) v (pinya_docs w) in
    match Query.respond message content w' with
    | (Ok _, w'') => In (answer_call query_text results) (events w'')
    | (Raise e, _) => e = ValueError
    end.
Proof.
  intros Hrange Hdb Hembed Hllm Hfloat Hsub.
  apply in_range_iff in Hrange.
  unfold Admin.config_threshold, bind at 1, emit.
  rewrite Hrange. simpl. unfold bind at 1. rewrite set_run. simpl.
  rewrite (calm_next _ Hdb).
  eexists. split; [reflexivity|].
  split; [unfold threshold_setting; simpl; rewrite lookup_insert_eq; reflexivity|].
  cbv zeta.
  match goal with |- context [Query.respond message content ?w1] => set (w' := w1) end.
  assert (Hfloat' : py_float (threshold_setting w') = Some v).
  { unfold threshold_setting, w'. simpl. rewrite lookup_insert_eq. exact Hfloat. }
  assert (Hsub' : substituted content w' = Some query_text) by exact Hsub.
  rewrite (respond_outcome message content query_text v w'
             (calm_tl _ Hdb) Hembed Hllm Hsub' Hfloat').
  cbv zeta.
  change (retrieved query_text v w')
    with (Database.select_similar (embed_text (llm_translate query_text)) v
            (pinya_docs w)).
  destruct (Database.select_similar _ v (pinya_docs w)) as [|top rest].
  - destruct (Query.report_gap query_text (msg_author message)
                (after_retrieval query_text w')) as [[[]|e] w1] eqn:Hgap.
    + simpl. apply List.in_or_app. left. apply List.in_or_app. right. left. reflexivity.
    + eapply report_gap_raises. exact Hgap.
  - unfold ret. simpl. apply List.in_or_app. left. apply List.in_or_app. right.
    left. reflexivity.
Qed.

End ThresholdTakesEffect.

(** In the sample deployment the threshold goes to 0.2; the question
    about bases then has both entries as context. *)
Lemma configured_threshold_is_used_sample :
  exists w',
    @Admin.config_threshold Sample.external (mkInteraction Sample.librarian) (1 # 5)
      Sample.stocked_world = (Ok tt, w') /\
    threshold_setting w' = "0.2" /\
    match @Query.respond Sample.external (Sample.mention Sample.member "where to build a base")
            "where to build a base" w' with
    | (Ok _, w'') =>
        In (answer_call "where to build a base"
              (List.map (@Database.to_row Sample.external [24 # 25; 7 # 25]%Q)
                 [Sample.base_doc; Sample.fishing_doc]))
           (events w'')
    | (Raise e, _) => e = ValueError
    end.
Proof.
  destruct (@configured_threshold_is_used Sample.external (mkInteraction Sample.librarian)
              (1 # 5) (Sample.mention Sample.member "where to build a base")
              "where to build a base" "where to build a base" Sample.stocked_world)
    as (w' & Hrun & Hsetting & Hquery).
  - split; unfold Qle; simpl; lia.
  - apply calm_nil.
  - apply calm_nil.
  - apply calm_nil.
  - reflexivity.
  - reflexivity.
  - exists w'. split; [exact Hrun|]. split; [exact Hsetting|]. exact Hquery.
Defined.

(** ** Forgetting a topic that is there *)

#[global] Instance events_grow_frame : Frame events_grow.
Proof.
  split; unfold events_grow; intros.
  - exists []. rewrite app_nil_r. reflexivity.
  - destruct H as [m1 H1], H0 as [m2 H2]. exists (m1 ++ m2)%list.
    rewrite H2, H1, app_assoc. reflexivity.
  - exists [e]. reflexivity.
  - exists []. simpl. rewrite app_nil_r. reflexivity.
  - exists []. simpl. rewrite app_nil_r. reflexivity.
  - exists []. simpl. rewrite app_nil_r. reflexivity.
Qed.

Section ForgetPresent.
Context `{External}.

Lemma find_present {A} (f : A -> bool) (l : list A) (x : A) :
  In x l -> f x = true -> exists y, List.find f l = Some y /\ In y l /\ f y = true.
Proof.
  intros Hin Hfx. destruct (List.find f l) as [y|] eqn:Hfind.
  - exists y. apply List.find_some in Hfind. tauto.
  - exfalso. pose proof (List.find_none f l Hfind x Hin). congruence.
Qed.

Lemma events_kept_by_audit title description user w1 e :
  In e (events w1) -> In e (events (snd (Knowledge.log_audit title description user w1))).
Proof.
  intros Hin.
  destruct (preserves_log_audit events_grow title description user w1) as [more Hmore].
  rewrite Hmore. apply List.in_or_app. left. exact Hin.
Qed.

(** X11.  [forget] of a topic that some record has, when the lookup and
    the [DELETE] answer (and no id is zero): the records of that topic
    are deleted, every record with another topic is still there and the
    aliases are untouched.  The confirmation, though, is sent with
    [delete_after], which the followup does not take: the command raises
    [TypeError] after the [DELETE], so the requester is told nothing and
    no audit entry is written. *)
Theorem forget_removes_topic (inter : Interaction) (topic : string) (w : World) :
  next_fails (db_faults w) = false ->
  next_fails (tl (db_faults w)) = false ->
  (exists d, In d (pinya_docs w) /\ doc_topic d = topic) ->
  Forall (fun d => doc_id d <> 0) (pinya_docs w) ->
  exists w',
    Knowledge.forget inter topic w = (Raise TypeError, w') /\
    (forall d, In d (pinya_docs w') <-> In d (pinya_docs w) /\ doc_topic d <> topic) /\
    aliases w' = aliases w /\
    events w' = (events w ++ [Deferred])%list.
Proof.
  intros Hdb1 Hdb2 (d & Hd & Htopic) Hids.
  destruct (find_present (fun d => String.eqb (doc_topic d) topic) (pinya_docs w) d Hd)
    as (d0 & Hfind & Hd0 & _); [apply String.eqb_eq; exact Htopic|].
  assert (Hgiven : Py.truthy_int (doc_id d0) = true).
  { unfold Py.truthy_int. apply negb_true_iff, Z.eqb_neq.
    eapply List.Forall_forall in Hids; eassumption. }
  exists (with_docs (List.filter (fun d => negb (String.eqb (doc_topic d) topic)))
            (with_db_faults (tl (tl (db_faults w))) (with_event Deferred w))).
  split; [|split; [|split]].
  - unfold Knowledge.forget, bind at 1, emit. unfold bind at 1.
    unfold Database.fetchval_id_by_topic, bind at 1. rewrite round_trip_run. simpl.
    rewrite Hdb1. unfold gets. simpl. rewrite Hfind. simpl. rewrite Hgiven. simpl.
    unfold bind at 1. unfold Database.execute_delete_by_topic, bind at 1.
    rewrite round_trip_run. simpl. rewrite Hdb2. unfold modify. simpl.
    reflexivity.
  - intros x. simpl. rewrite List.filter_In, negb_true_iff, String.eqb_neq. reflexivity.
  - reflexivity.
  - reflexivity.
Qed.

End ForgetPresent.

(** In the sample deployment the Base entry goes, the Fishing entry
    stays, and Ana is told nothing. *)
Lemma forget_removes_topic_sample :
  exists w',
    @Knowledge.forget Sample.external (mkInteraction Sample.librarian) "Base"
      Sample.stocked_world = (Raise TypeError, w') /\
    pinya_docs w' = [Sample.fishing_doc] /\
    events w' = [Deferred].
Proof.
  destruct (@forget_removes_topic Sample.external (mkInteraction Sample.librarian) "Base"
              Sample.stocked_world eq_refl eq_refl) as (w' & Hrun & _ & _ & Hevents).
  - exists Sample.base_doc. split; [right; left; reflexivity | reflexivity].
  - repeat constructor; discriminate.
  - exists w'. split; [exact Hrun|]. split; [|exact Hevents].
    pose proof (f_equal snd Hrun) as Hw.
    change (snd (@Knowledge.forget Sample.external (mkInteraction Sample.librarian) "Base"
                   Sample.stocked_world) = w') in Hw.
    rewrite <- Hw. reflexivity.
Defined.

(** ** Setting an alias *)

Section AliasTable.
Context `{External}.

Lemma alias_of_upsert_same trigger replacement rows :
  alias_of (Database.upsert_alias trigger replacement rows) trigger = Some replacement.
Proof.
  unfold alias_of. induction rows as [|[t r] rest IH]; simpl.
  - rewrite String.eqb_refl. reflexivity.
  - destruct (String.eqb t trigger) eqn:E; simpl; rewrite E; [reflexivity | exact IH].
Qed.

Lemma alias_of_upsert_other trigger replacement rows t :
  t <> trigger ->
  alias_of (Database.upsert_alias trigger replacement rows) t = alias_of rows t.
Proof.
  intros Hne. unfold alias_of. induction rows as [|[t0 r0] rest IH]; simpl.
  - assert (E : String.eqb trigger t = false) by (apply String.eqb_neq; congruence).
    rewrite E. reflexivity.
  - destruct (String.eqb t0 trigger) eqn:E; simpl.
    + apply String.eqb_eq in E. subst t0.
      assert (E' : String.eqb trigger t = false) by (apply String.eqb_neq; congruence).
      rewrite E'. apply (f_equal (fmap snd)). reflexivity.
    + destruct (String.eqb t0 t); [reflexivity | exact IH].
Qed.

(** An absent trigger goes to the end of the table; a present one
    keeps its place. *)
Lemma upsert_alias_absent trigger replacement rows :
  ~ In trigger (List.map fst rows) ->
  Database.upsert_alias trigger replacement rows = (rows ++ [(trigger, replacement)])%list.
Proof.
  induction rows as [|[t r] rest IH]; simpl; intros Habsent; [reflexivity|].
  destruct (String.eqb t trigger) eqn:E.
  - apply String.eqb_eq in E. tauto.
  - rewrite IH by tauto. reflexivity.
Qed.

Lemma upsert_alias_present trigger replacement rows :
  In trigger (List.map fst rows) ->
  List.map fst (Database.upsert_alias trigger replacement rows) = List.map fst rows.
Proof.
  induction rows as [|[t r] rest IH]; simpl; intros Hin; [tauto|].
  destruct (String.eqb t trigger) eqn:E; simpl; [reflexivity|].
  rewrite IH; [reflexivity|]. destruct Hin as [Heq | Hin]; [|exact Hin].
  apply String.eqb_neq in E. congruence.
Qed.

Lemma upsert_alias_unique trigger replacement rows :
  NoDup (List.map fst rows) ->
  NoDup (List.map fst (Database.upsert_alias trigger replacement rows)).
Proof.
  intros Hunique.
  destruct (List.in_dec String.string_dec trigger (List.map fst rows)) as [Hin | Hout].
  - rewrite upsert_alias_present by exact Hin. exact Hunique.
  - rewrite upsert_alias_absent by exact Hout.
    rewrite List.map_app. simpl. apply NoDup_app. repeat split.
    + exact Hunique.
    + intros t Ht Hsingle. apply list_elem_of_In in Ht, Hsingle.
      destruct Hsingle as [<- | []]. tauto.
    + apply NoDup_singleton.
Qed.

(** The table after an [alias] command whose statement succeeds. *)
Lemma alias_table_after inter trigger replacement w :
  next_fails (db_faults w) = false ->
  aliases (snd (Knowledge.alias inter trigger replacement w)) =
  Database.upsert_alias trigger replacement (aliases w) /\
  In (Followup ("✅ Alias set: `" ++ trigger ++ "` -> `" ++ replacement ++ "`") false)
     (events (snd (Knowledge.alias inter trigger replacement w))).
Proof.
  intros Hdb.
  set (told := Followup ("✅ Alias set: `" ++ trigger ++ "` -> `" ++ replacement ++ "`") false).
  set (w2 := with_event told
               (with_aliases (Database.upsert_alias trigger replacement)
                  (with_db_faults (tl (db_faults w)) (with_event Deferred w)))).
  set (audit := Knowledge.log_audit "Alias Updated"
                  ("**Trigger:** " ++ trigger ++ Py.nl ++ "**Replacement:** " ++ replacement)
                  (inter_user inter)).
  assert (Hrun : Knowledge.alias inter trigger replacement w =
            match audit w2 with
            | (Ok _, w3) => (Ok tt, w3)
            | (Raise e, w3) =>
                (Ok tt,
                 with_event (Followup ("❌ Error setting alias: " ++ exn_message e) false)
                   (with_event (LogException "Error setting alias" e) w3))
            end).
  { unfold Knowledge.alias, bind at 1, emit. unfold try_except.
    unfold bind at 1. unfold Database.execute_alias_upsert, bind at 1.
    rewrite round_trip_run. simpl. rewrite Hdb. unfold modify. simpl.
    unfold bind at 1. simpl. fold told. fold w2. fold audit.
    destruct (audit w2) as [[[]|e] w3]; reflexivity. }
  rewrite Hrun.
  pose proof (preserves_log_audit (unchanged aliases) "Alias Updated"
                ("**Trigger:** " ++ trigger ++ Py.nl ++ "**Replacement:** " ++ replacement)
                (inter_user inter) w2) as Haliases.
  pose proof (events_kept_by_audit "Alias Updated"
                ("**Trigger:** " ++ trigger ++ Py.nl ++ "**Replacement:** " ++ replacement)
                (inter_user inter) w2 told) as Hevents.
  fold audit in Haliases, Hevents. unfold unchanged in Haliases.
  assert (Htold : In told (events w2)).
  { unfold w2. simpl. apply List.in_or_app. right. left. reflexivity. }
  specialize (Hevents Htold).
  destruct (audit w2) as [[[]|e] w3]; simpl in *.
  - split; [exact Haliases | exact Hevents].
  - split; [exact Haliases|].
    apply List.in_or_app. left. apply List.in_or_app. left. exact Hevents.
Qed.

(** X12.  An [alias] command whose statement succeeds is an upsert:
    afterwards the table gives the new replacement for the trigger and
    what it gave before for every other trigger; triggers that were
    unique stay unique; the table has one row more exactly when the
    trigger was absent; and the requester has been told. *)
Theorem alias_command_upserts (inter : Interaction) (trigger replacement : string)
    (w : World) :
  next_fails (db_faults w) = false ->
  let w' := snd (Knowledge.alias inter trigger replacement w) in
  alias_of (aliases w') trigger = Some replacement /\
  (forall t, t <> trigger -> alias_of (aliases w') t = alias_of (aliases w) t) /\
  (NoDup (List.map fst (aliases w)) -> NoDup (List.map fst (aliases w'))) /\
  (In trigger (List.map fst (aliases w)) ->
     List.length (aliases w') = List.length (aliases w)) /\
  (~ In trigger (List.map fst (aliases w)) ->
     List.length (aliases w') = S (List.length (aliases w))) /\
  In (Followup ("✅ Alias set: `" ++ trigger ++ "` -> `" ++ replacement ++ "`") false)
     (events w').
Proof.
  intros Hdb. cbv zeta.
  destruct (alias_table_after inter trigger replacement w Hdb) as [-> Htold].
  split; [apply alias_of_upsert_same|].
  split; [intros t Ht; apply alias_of_upsert_other; exact Ht|].
  split; [apply upsert_alias_unique|].
  split; [|split; [|exact Htold]].
  - intros Hin. rewrite <- (List.length_map fst), upsert_alias_present by exact Hin.
    apply List.length_map.
  - intros Hout. rewrite upsert_alias_absent by exact Hout.
    rewrite List.length_app. simpl. lia.
Qed.




End AliasTable.

(** In the sample deployment "hq" joins "pz". *)
Lemma alias_command_upserts_sample :
  let w' := snd (@Knowledge.alias Sample.external (mkInteraction Sample.librarian)
                   "hq" "headquarters" Sample.stocked_world) in
  alias_of (aliases w') "hq" = Some "headquarters" /\
  alias_of (aliases w') "pz" = Some "Project Zomboid" /\
  List.length (aliases w') = 2%nat.
Proof.
  destruct (@alias_command_upserts Sample.external (mkInteraction Sample.librarian)
              "hq" "headquarters" Sample.stocked_world eq_refl)
    as (Hnew & Hold & _ & _ & Hlen & _).
  cbv zeta. split; [exact Hnew|]. split.
  - rewrite Hold by discriminate. reflexivity.
  - apply Hlen. intros [Hin | []]. discriminate Hin.
Defined.


(** ** A first insertion *)

Section Insertion.
Context `{External}.

(** The run of [upsert_knowledge] without a record id, with the
    duplicate check on, when the two embedding calls and the two
    statements answer and nothing stored is close to the probe. *)
Lemma insert_run topic content spoiler user w :
  next_fails (embed_faults w) = false ->
  next_fails (tl (embed_faults w)) = false ->
  next_fails (db_faults w) = false ->
  next_fails (tl (db_faults w)) = false ->
  Database.select_similar (embed_text (topic ++ " " ++ content)) AI.duplicate_threshold
    (pinya_docs w) = [] ->
  let id := pinya_docs_seq w + 1 in
  let record :=
    mkDoc id topic content (embed_text (stored_text topic content))
      (Knowledge.new_metadata spoiler user) in
  let w2 :=
    with_seq id
      (with_docs (fun ds => (ds ++ [record])%list)
         (with_db_faults (tl (tl (db_faults w)))
            (with_embed_faults (tl (tl (embed_faults w)))
               (with_event (EmbeddingCall (stored_text topic content))
                  (with_event (EmbeddingCall (topic ++ " " ++ content)) w))))) in
  Knowledge.upsert_knowledge topic content spoiler user None true w =
  match Knowledge.log_audit "Knowledge Added" (audit_text topic content) user w2 with
  | (Ok _, w3) => (Ok (Some id, None), w3)
  | (Raise e, w3) =>
      (Ok (None, Some ("An error occurred while saving: " ++ exn_message e)),
       with_event (LogException "Error in upsert_knowledge" e) w3)
  end.
Proof.
  intros Hembed1 Hembed2 Hdb1 Hdb2 Hnone. cbv zeta.
  unfold Knowledge.upsert_knowledge, try_except.
  rewrite bool_decide_eq_true_2 by reflexivity. simpl andb. cbv iota.
  unfold bind at 1.
  rewrite (check_duplicate_answer _ _ w Hembed1 Hdb1), Hnone.
  change (Nat.ltb 0 (@List.length Row [])) with false. cbv iota.
  unfold bind at 1. rewrite get_embedding_run. simpl. rewrite Hembed2.
  unfold bind at 1. unfold bind at 1.
  unfold Database.fetchval_insert_doc, bind at 1. rewrite round_trip_run. simpl.
  rewrite Hdb2. unfold bind at 1, gets, modify, ret at 1. simpl.
  unfold bind at 1. unfold ret at 1. simpl.
  unfold bind at 1. unfold audit_text, stored_text.
  match goal with
  | |- ?run = (let (_, _) := Knowledge.log_audit ?a' ?b' ?c' ?d' in _) =>
      match run with
      | context [Knowledge.log_audit ?a ?b ?c ?d] =>
          change (Knowledge.log_audit a b c d) with (Knowledge.log_audit a' b' c' d')
      end;
      destruct (Knowledge.log_audit a' b' c' d') as [[[]|e] w3]
  end; reflexivity.
Qed.

Lemma audit_silent title description user w1 :
  Py.truthy_opt (_cache w1 !! "channel_audit_log") = false ->
  Knowledge.log_audit title description user w1 = (Ok tt, w1).
Proof.
  intros Hunset. unfold Knowledge.log_audit, bind. rewrite get_run. simpl.
  destruct (_cache w1 !! "channel_audit_log") as [s|]; simpl in *.
  - rewrite Hunset. reflexivity.
  - reflexivity.
Qed.

Lemma audit_raises title description user w1 s :
  _cache w1 !! "channel_audit_log" = Some s -> Py.truthy_str s = true -> py_int s = None ->
  Knowledge.log_audit title description user w1 = (Raise ValueError, w1).
Proof.
  intros Hs Htruthy Hint. unfold Knowledge.log_audit, bind. rewrite get_run, Hs. simpl.
  rewrite Htruthy. simpl. rewrite Hint. reflexivity.
Qed.

(** X14.  A first insertion (no record id) whose calls answer and whose
    duplicate check finds nothing appends one record and touches no
    other: its id is the next of the sequence, its embedding is that of
    the labelled text, it starts with no votes and no flags and credits
    the author.  With no audit channel configured the call returns that
    id and no error. *)
Theorem insertion_appends_record (topic content spoiler : string) (user : User) (w : World) :
  next_fails (embed_faults w) = false ->
  next_fails (tl (embed_faults w)) = false ->
  next_fails (db_faults w) = false ->
  next_fails (tl (db_faults w)) = false ->
  Database.select_similar (embed_text (topic ++ " " ++ content)) AI.duplicate_threshold
    (pinya_docs w) = [] ->
  exists r w' record,
    Knowledge.upsert_knowledge topic content spoiler user None true w = (Ok r, w') /\
    pinya_docs w' = (pinya_docs w ++ [record])%list /\
    pinya_docs_seq w' = pinya_docs_seq w + 1 /\
    doc_id record = pinya_docs_seq w + 1 /\
    doc_topic record = topic /\ doc_content record = content /\
    doc_embedding record = embed_text (stored_text topic content) /\
    doc_metadata record !! "votes" = Some (JNum 0) /\
    doc_metadata record !! "flags" = Some (JNum 0) /\
    doc_metadata record !! "author_id" = Some (JNum (user_id user)) /\
    (Py.truthy_opt (_cache w !! "channel_audit_log") = false ->
     r = (Some (pinya_docs_seq w + 1), None)).
Proof.
  intros Hembed1 Hembed2 Hdb1 Hdb2 Hnone.
  rewrite (insert_run topic content spoiler user w Hembed1 Hembed2 Hdb1 Hdb2 Hnone).
  cbv zeta.
  match goal with |- context [Knowledge.log_audit ?a ?b ?c ?d] =>
    pose proof (preserves_log_audit (unchanged pinya_docs) a b c d) as Hdocs;
    pose proof (preserves_log_audit (unchanged pinya_docs_seq) a b c d) as Hseq;
    pose proof (audit_silent a b c d) as Hsilent;
    destruct (Knowledge.log_audit a b c d) as [[[]|e] w3] end;
    unfold unchanged in Hdocs, Hseq; simpl in Hdocs, Hseq, Hsilent;
    (eexists; eexists; eexists; split; [reflexivity|]);
    simpl; rewrite Hdocs, Hseq;
    (split; [reflexivity|]); repeat (split; [reflexivity|]).
  - reflexivity.
  - intros Hunset. specialize (Hsilent Hunset). discriminate Hsilent.
Qed.

(** X15.  The audit entry is attempted after the write and inside the
    same [try]: when the audit-channel setting is not a number, a first
    insertion whose calls all answer still stores the record, yet
    returns no id and the error text, which is what [save_knowledge]
    then shows the requester. *)
Theorem audit_failure_reported_as_save_error (inter : Interaction)
    (topic content spoiler s : string) (w : World) :
  next_fails (embed_faults w) = false ->
  next_fails (tl (embed_faults w)) = false ->
  next_fails (db_faults w) = false ->
  next_fails (tl (db_faults w)) = false ->
  Database.select_similar (embed_text (topic ++ " " ++ content)) AI.duplicate_threshold
    (pinya_docs w) = [] ->
  _cache w !! "channel_audit_log" = Some s -> Py.truthy_str s = true -> py_int s = None ->
  exists w1,
    Knowledge.save_knowledge inter topic content spoiler None w =
    (Ok tt,
     with_event (Followup ("An error occurred while saving: " ++ exn_message ValueError) true)
       w1) /\
    exists record,
      pinya_docs w1 = (pinya_docs w ++ [record])%list /\
      doc_topic record = topic /\ doc_content record = content.
Proof.
  intros Hembed1 Hembed2 Hdb1 Hdb2 Hnone Hs Htruthy Hint.
  unfold Knowledge.save_knowledge, bind.
  rewrite (insert_run topic content spoiler (inter_user inter) w
             Hembed1 Hembed2 Hdb1 Hdb2 Hnone).
  cbv zeta. erewrite (audit_raises _ _ _ _ s); [|exact Hs|exact Htruthy|exact Hint].
  simpl.
  eexists. split; [reflexivity|]. simpl. eexists. split; [reflexivity|]. split; reflexivity.
Qed.

End Insertion.

(** In the sample deployment Ana teaches a first entry to an empty
    store; then the same with the audit channel set to "general". *)
Lemma insertion_appends_record_sample :
  exists w' record,
    @Knowledge.upsert_knowledge Sample.external "Fishing" "Use a fishing rod near water" "no"
      Sample.librarian None true Sample.empty_world = (Ok (Some 1, None), w') /\
    pinya_docs w' = [record] /\ doc_id record = 1 /\
    doc_metadata record !! "votes" = Some (JNum 0).
Proof.
  destruct (@insertion_appends_record Sample.external "Fishing" "Use a fishing rod near water"
              "no" Sample.librarian Sample.empty_world eq_refl eq_refl eq_refl eq_refl eq_refl)
    as (r & w' & record & Hrun & Hdocs & _ & Hid & _ & _ & _ & Hvotes & _ & _ & Hr).
  rewrite (Hr eq_refl) in Hrun.
  exists w', record. split; [exact Hrun|]. split; [exact Hdocs|].
  split; [exact Hid | exact Hvotes].
Defined.

Lemma audit_failure_reported_as_save_error_sample :
  exists w1,
    @Knowledge.save_knowledge Sample.external (mkInteraction Sample.librarian)
      "Fishing" "Use a fishing rod near water" "no" None
      (with_cache (fun c => <["channel_audit_log" := "general"]> c) Sample.empty_world) =
    (Ok tt, with_event (Followup "An error occurred while saving: failed" true) w1) /\
    List.map doc_topic (pinya_docs w1) = ["Fishing"].
Proof.
  destruct (@audit_failure_reported_as_save_error Sample.external
              (mkInteraction Sample.librarian) "Fishing" "Use a fishing rod near water" "no"
              "general"
              (with_cache (fun c => <["channel_audit_log" := "general"]> c) Sample.empty_world))
    as (w1 & Hrun & record & Hdocs & Htopic & _);
    [first [reflexivity | vm_compute; reflexivity] ..|].
  exists w1. split; [exact Hrun|]. rewrite Hdocs. simpl. rewrite Htopic. reflexivity.
Defined.

(** ** Invariants of the knowledge store *)

#[global] Instance stays_ok_frame : Frame stays_ok.
Proof. split; unfold stays_ok, store_ok; intros; simpl; auto. Qed.

Section StoreInvariants.
Context `{External}.

#[local] Instance stays_indexed_frame : Frame stays_indexed.
Proof. split; unfold stays_indexed, indexed; intros; simpl; auto. Qed.

Lemma insert_doc_stays_ok topic content vec metadata :
  preserves stays_ok (Database.fetchval_insert_doc topic content vec metadata).
Proof.
  intros w (Hseq & Hunique & Hbounds).
  unfold Database.fetchval_insert_doc, bind, gets, modify, ret. rewrite round_trip_run.
  destruct (next_fails (db_faults w)); simpl; [repeat split; assumption|].
  unfold store_ok. simpl. split; [lia|]. split.
  - rewrite List.map_app. simpl. apply NoDup_app. repeat split.
    + exact Hunique.
    + intros id Hold Hnew. apply list_elem_of_In in Hold, Hnew.
      destruct Hnew as [<- | []].
      apply List.in_map_iff in Hold as (d & Hid & Hd).
      eapply List.Forall_forall in Hbounds; [|exact Hd]. lia.
    + apply NoDup_singleton.
  - apply List.Forall_app. split.
    + eapply List.Forall_impl; [|exact Hbounds]. simpl. intros d Hd. lia.
    + constructor; [simpl; lia | constructor].
Qed.

Lemma update_doc_keeps_ids topic content vec patch id docs :
  List.map doc_id
    (List.map (fun d => if Z.eqb (doc_id d) id
                        then Database.update_row topic content vec patch d else d) docs) =
  List.map doc_id docs.
Proof.
  rewrite List.map_map. apply List.map_ext. intros d.
  destruct (Z.eqb (doc_id d) id); reflexivity.
Qed.

Lemma update_doc_stays_ok topic content vec patch id :
  preserves stays_ok (Database.execute_update_doc topic content vec patch id).
Proof.
  intros w (Hseq & Hunique & Hbounds).
  unfold Database.execute_update_doc, bind, modify. rewrite round_trip_run.
  destruct (next_fails (db_faults w)); simpl; [repeat split; assumption|].
  unfold store_ok. simpl. split; [exact Hseq|]. split.
  - rewrite update_doc_keeps_ids. exact Hunique.
  - apply List.Forall_forall. intros d' Hd'.
    apply List.in_map_iff in Hd' as (d & <- & Hd).
    eapply List.Forall_forall in Hbounds; [|exact Hd].
    destruct (Z.eqb (doc_id d) id); exact Hbounds.
Qed.

Lemma NoDup_map_filter {A B} (f : A -> B) (keep : A -> bool) (l : list A) :
  NoDup (List.map f l) -> NoDup (List.map f (List.filter keep l)).
Proof.
  induction l as [|x rest IH]; simpl; intros Hunique; [constructor|].
  apply NoDup_cons in Hunique as [Hx Hrest].
  destruct (keep x); simpl; [|apply IH; exact Hrest].
  apply NoDup_cons. split; [|apply IH; exact Hrest].
  intros Hin. apply Hx. apply list_elem_of_In in Hin. apply list_elem_of_In.
  apply List.in_map_iff in Hin as (y & Hy & Hin).
  apply List.in_map_iff. exists y. split; [exact Hy|].
  apply List.filter_In in Hin. tauto.
Qed.

Lemma delete_by_topic_stays_ok topic :
  preserves stays_ok (Database.execute_delete_by_topic topic).
Proof.
  intros w (Hseq & Hunique & Hbounds).
  unfold Database.execute_delete_by_topic, bind, modify. rewrite round_trip_run.
  destruct (next_fails (db_faults w)); simpl; [repeat split; assumption|].
  unfold store_ok. simpl. split; [exact Hseq|]. split.
  - apply NoDup_map_filter. exact Hunique.
  - apply List.Forall_forall. intros d Hd. apply List.filter_In in Hd as [Hd _].
    eapply List.Forall_forall in Hbounds; eassumption.
Qed.

Lemma upsert_knowledge_stays_ok topic content spoiler user doc_id check_dup :
  preserves stays_ok
    (Knowledge.upsert_knowledge topic content spoiler user doc_id check_dup).
Proof.
  unfold Knowledge.upsert_knowledge. handler_frame.
  - apply update_doc_stays_ok.
  - apply insert_doc_stays_ok.
Qed.

(** X16.  Ids stay those of a [SERIAL] column: if the sequence is not
    negative, no two records share an id and every id lies between one
    and the sequence, then the same holds after any request to the
    Knowledge cog, whatever fails on the way. *)
Theorem handle_keeps_ids_sound (inter : Interaction) (request : Gateway.Request) (w : World) :
  store_ok w -> store_ok (snd (Gateway.handle inter request w)).
Proof.
  revert w. change (preserves stays_ok (Gateway.handle inter request)).
  destruct request as [|trigger replacement|topic|topic|missing_query origin|m topic content spoiler];
    simpl; unfold Gateway.checked.
  - unfold Knowledge.teach. handler_frame.
  - unfold Knowledge.alias, Database.execute_alias_upsert. handler_frame.
    intros Hok. exact Hok.
  - unfold Knowledge.forget. handler_frame. apply delete_by_topic_stays_ok.
  - unfold Knowledge.edit, Knowledge.open_edit_modal. handler_frame.
  - unfold UI.teach_gap. handler_frame.
  - unfold UI.on_submit, UI.gap_callback, Knowledge.save_knowledge.
    apply preserves_bind; [typeclasses eauto | handler_frame | intros _].
    destruct (modal_callback m);
      (apply preserves_bind;
       [typeclasses eauto | apply upsert_knowledge_stays_ok | handler_frame]).
Qed.

Lemma preserves_after_embedding {B} R `{!Frame R} text (k : Vector -> M B) :
  preserves R (k (embed_text text)) -> preserves R (bind (AI.get_embedding text) k).
Proof.
  intros Hk w. unfold bind. rewrite get_embedding_run. cbv zeta.
  assert (Hw : R w (with_embed_faults (tl (embed_faults w))
                      (with_event (EmbeddingCall text) w))).
  { eapply frame_trans; [apply frame_event | apply frame_embed]. }
  destruct (next_fails (embed_faults w)); simpl; [exact Hw|].
  eapply frame_trans; [exact Hw | apply Hk].
Qed.

Lemma insert_doc_stays_indexed topic content metadata :
  preserves stays_indexed
    (Database.fetchval_insert_doc topic content (embed_text (stored_text topic content))
       metadata).
Proof.
  intros w Hindexed.
  unfold Database.fetchval_insert_doc, bind, gets, modify, ret. rewrite round_trip_run.
  destruct (next_fails (db_faults w)); simpl; [exact Hindexed|].
  unfold indexed. simpl. apply List.Forall_app. split; [exact Hindexed|].
  constructor; [reflexivity | constructor].
Qed.

Lemma update_doc_stays_indexed topic content patch id :
  preserves stays_indexed
    (Database.execute_update_doc topic content (embed_text (stored_text topic content))
       patch id).
Proof.
  intros w Hindexed.
  unfold Database.execute_update_doc, bind, modify. rewrite round_trip_run.
  destruct (next_fails (db_faults w)); simpl; [exact Hindexed|].
  unfold indexed. simpl. apply List.Forall_forall. intros d' Hd'.
  apply List.in_map_iff in Hd' as (d & <- & Hd).
  destruct (Z.eqb (doc_id d) id); [reflexivity|].
  eapply List.Forall_forall in Hindexed; eassumption.
Qed.

Lemma upsert_knowledge_stays_indexed topic content spoiler user doc_id check_dup :
  preserves stays_indexed
    (Knowledge.upsert_knowledge topic content spoiler user doc_id check_dup).
Proof.
  unfold Knowledge.upsert_knowledge.
  apply preserves_try_except; [typeclasses eauto | | handler_frame].
  apply preserves_bind; [typeclasses eauto | handler_frame | intros is_dup].
  destruct is_dup; [handler_frame|].
  apply preserves_after_embedding; [typeclasses eauto|].
  change ("Topic: " ++ topic ++ Py.nl ++ "Content: " ++ content)
    with (stored_text topic content).
  handler_frame.
  - apply update_doc_stays_indexed.
  - apply insert_doc_stays_indexed.
Qed.

(** X17.  The stored vectors follow the stored text: if every record's
    embedding is the provider's embedding of its labelled topic and
    content, the same holds after any request to the Knowledge cog (an
    edit replaces text and vector together, an insertion stores both),
    whatever fails on the way. *)
Theorem handle_keeps_store_indexed (inter : Interaction) (request : Gateway.Request)
    (w : World) :
  indexed w -> indexed (snd (Gateway.handle inter request w)).
Proof.
  revert w. change (preserves stays_indexed (Gateway.handle inter request)).
  destruct request as [|trigger replacement|topic|topic|missing_query origin|m topic content spoiler];
    simpl; unfold Gateway.checked.
  - unfold Knowledge.teach. handler_frame.
  - unfold Knowledge.alias, Database.execute_alias_upsert. handler_frame.
    intros Hok. exact Hok.
  - unfold Knowledge.forget, Database.execute_delete_by_topic. handler_frame.
    unfold stays_indexed, indexed. simpl. intros Hindexed.
    apply List.Forall_forall. intros d Hd. apply List.filter_In in Hd as [Hd _].
    eapply List.Forall_forall in Hindexed; eassumption.
  - unfold Knowledge.edit, Knowledge.open_edit_modal. handler_frame.
  - unfold UI.teach_gap. handler_frame.
  - unfold UI.on_submit, UI.gap_callback, Knowledge.save_knowledge.
    apply preserves_bind; [typeclasses eauto | handler_frame | intros _].
    destruct (modal_callback m);
      (apply preserves_bind;
       [typeclasses eauto | apply upsert_knowledge_stays_indexed | handler_frame]).
Qed.

End StoreInvariants.

(** The sample store is sound and indexed; forgetting "Base" and
    submitting an edit of record 1 keep it so. *)
Lemma handle_keeps_ids_sound_sample :
  store_ok Sample.stocked_world /\
  store_ok (snd (@Gateway.handle Sample.external (mkInteraction Sample.librarian)
                   (@Gateway.Forget "Base") Sample.stocked_world)).
Proof.
  assert (Hok : store_ok Sample.stocked_world).
  { split; [discriminate|]. split.
    - simpl. apply NoDup_cons. split; [|apply NoDup_singleton].
      intros Hin. apply list_elem_of_In in Hin. destruct Hin as [Hin | []]. discriminate Hin.
    - repeat constructor; discriminate. }
  split; [exact Hok|].
  apply (@handle_keeps_ids_sound Sample.external). exact Hok.
Defined.

Lemma handle_keeps_store_indexed_sample :
  @indexed Sample.external Sample.stocked_world /\
  @indexed Sample.external
    (snd (@Gateway.handle Sample.external (mkInteraction Sample.librarian)
            (@Gateway.Submit (mkModal (CbEdit 1) None None "no") "Fishing" "Use bait" "no")
            Sample.stocked_world)).
Proof.
  assert (Hindexed : @indexed Sample.external Sample.stocked_world).
  { repeat constructor. }
  split; [exact Hindexed|].
  apply (@handle_keeps_store_indexed Sample.external). exact Hindexed.
Defined.

(** ** A submitted modal is always answered *)

Section Acknowledged.
Context `{External}.

Lemma bind_Ok_inv {A B} (m : M A) (k : A -> M B) w b w' :
  bind m k w = (Ok b, w') -> exists a w1, m w = (Ok a, w1) /\ k a w1 = (Ok b, w').
Proof.
  unfold bind. destruct (m w) as [[a|e] w1]; [eauto | discriminate].
Qed.

(** What [upsert_knowledge] returns: an id and no error, or no id and
    an error text that is not empty. *)
Lemma upsert_result_shape topic content spoiler user doc_id check_dup w :
  exists r w',
    Knowledge.upsert_knowledge topic content spoiler user doc_id check_dup w = (Ok r, w') /\
    ((exists id, r = (Some id, None)) \/
     (exists text, r = (None, Some text) /\ Py.truthy_str text = true)).
Proof.
  unfold Knowledge.upsert_knowledge, try_except.
  match goal with |- context [let (_, _) := ?body w in _] =>
    destruct (body w) as [[r|e] w1] eqn:Hbody end.
  - exists r, w1. split; [reflexivity|].
    apply bind_Ok_inv in Hbody as (is_dup & w2 & _ & Hrest).
    destruct is_dup.
    + injection Hrest as <- _. right. eexists. split; reflexivity.
    + apply bind_Ok_inv in Hrest as (embedding & w3 & _ & Hrest).
      apply bind_Ok_inv in Hrest as (saved & w4 & _ & Hrest).
      apply bind_Ok_inv in Hrest as ([] & w5 & _ & Hrest).
      injection Hrest as <- _. left. eauto.
  - unfold bind, emit, ret. eexists. eexists. split; [reflexivity|].
    right. eexists. split; reflexivity.
Qed.

(** X18.  Whatever a submitted modal carries and whatever fails while
    it is saved, [on_submit] returns, and the last thing it does is an
    ephemeral message to the submitter: an error text that is not empty,
    or the confirmation. *)
Theorem submission_always_answered (m : Modal) (inter : Interaction)
    (topic content spoiler : string) (w : World) :
  exists w1 last,
    UI.on_submit m inter topic content spoiler w = (Ok tt, with_event last w1) /\
    closing_followup last.
Proof.
  unfold UI.on_submit, bind at 1, emit.
  assert (Hsave : forall doc_id w0, exists w1 last,
            Knowledge.save_knowledge inter topic content spoiler doc_id w0 =
            (Ok tt, with_event last w1) /\ closing_followup last).
  { intros doc_id w0. unfold Knowledge.save_knowledge, bind.
    destruct (upsert_result_shape topic content spoiler (inter_user inter) doc_id true w0)
      as (r & w1 & -> & [(id & ->) | (text & -> & Htext)]); simpl.
    - eexists. eexists. split; [reflexivity | exact I].
    - rewrite Htext. eexists. eexists. split; [reflexivity|]. simpl.
      apply truthy_str_nonempty. exact Htext. }
  destruct (modal_callback m) as [|id|origin].
  - apply Hsave.
  - apply Hsave.
  - unfold UI.gap_callback, bind at 1.
    destruct (upsert_result_shape topic content spoiler (inter_user inter) None true
                (with_event Deferred w))
      as (r & w1 & -> & [(id & ->) | (text & -> & Htext)]); simpl.
    + destruct origin as [e|]; unfold bind, emit, ret; simpl;
        (eexists; eexists; split; [reflexivity | simpl; discriminate]).
    + rewrite Htext. eexists. eexists. split; [reflexivity|]. simpl.
      apply truthy_str_nonempty. exact Htext.
Qed.

End Acknowledged.

(** ** Which messages are answered *)

Section Gate.
Context `{External}.

Lemma str_in_In x xs : Py.str_in x xs = true <-> In x xs.
Proof.
  unfold Py.str_in. rewrite existsb_exists. split.
  - intros (y & Hy & Heq). apply String.eqb_eq in Heq. subst. exact Hy.
  - intros Hin. exists x. split; [exact Hin | apply String.eqb_refl].
Qed.

(** The whitelist test, read on ids. *)
Lemma has_allowed_role_iff raw author :
  Query.has_allowed_role raw author = true <->
  exists rid, In rid (user_roles author) /\ In (Py.str_int rid) (Py.split_comma raw).
Proof.
  unfold Query.has_allowed_role. rewrite existsb_exists. split.
  - intros (text & Htext & Hin). apply List.in_map_iff in Htext as (rid & <- & Hrid).
    exists rid. split; [exact Hrid | apply str_in_In; exact Hin].
  - intros (rid & Hrid & Hin). exists (Py.str_int rid). split.
    + apply List.in_map. exact Hrid.
    + apply str_in_In. exact Hin.
Qed.

Lemma respond_starts_typing message content w :
  exists more, events (snd (Query.respond message content w)) = (events w ++ Typing :: more)%list.
Proof.
  unfold Query.respond, bind at 1, emit.
  match goal with |- context [snd (?k (with_event Typing w))] =>
    assert (Hk : preserves events_grow k)
  end.
  { unfold Query.replace_aliases, Query.report_gap. handler_frame.
    all: intros w0; apply (frame_event (R := events_grow)). }
  destruct (Hk (with_event Typing w)) as [more Hmore].
  exists more. rewrite Hmore. simpl. rewrite <- app_assoc. reflexivity.
Qed.

(** X19.  The listener answers a message only past all its checks.  A
    message from a bot, one that does not mention the bot, one that is
    empty once the mention is removed, any message while replies are
    switched off, and one from an author whose roles, read against a
    non-empty whitelist, include none of it: each leaves the world
    exactly as it was, with no call and no event.  With a non-empty
    whitelist, a message that passed the earlier checks from an author
    with no roles to read (a direct message) makes the listener raise,
    again with nothing done.  Any other message gets the typing
    indicator first. *)
Theorem listener_checks_before_answering (message : Message) (w : World) :
  let author := msg_author message in
  let content := Query.strip_mention (msg_content message) in
  (user_bot author = true \/
   msg_mentions_bot message = false \/
   content = "" \/
   _cache w !! "global_reply_enabled" = Some "false" \/
   (user_has_roles author = true /\
    exists raw, _cache w !! "allowed_roles" = Some raw /\ raw <> "" /\
      forall rid, In rid (user_roles author) -> ~ In (Py.str_int rid) (Py.split_comma raw)) ->
   Query.on_message message w = (Ok tt, w)) /\
  (user_bot author = false ->
   msg_mentions_bot message = true ->
   content <> "" ->
   _cache w !! "global_reply_enabled" <> Some "false" ->
   (exists raw, _cache w !! "allowed_roles" = Some raw /\ raw <> "") ->
   user_has_roles author = false ->
   Query.on_message message w = (Raise AttributeError, w)) /\
  (user_bot author = false ->
   msg_mentions_bot message = true ->
   content <> "" ->
   _cache w !! "global_reply_enabled" <> Some "false" ->
   (_cache w !! "allowed_roles" = None \/ _cache w !! "allowed_roles" = Some "" \/
    (user_has_roles author = true /\
     exists raw rid, _cache w !! "allowed_roles" = Some raw /\
       In rid (user_roles author) /\ In (Py.str_int rid) (Py.split_comma raw))) ->
   Query.on_message message w = Query.respond message content w /\
   exists more, events (snd (Query.on_message message w)) = (events w ++ Typing :: more)%list).
Proof.
  cbv zeta.
  assert (Hrun : Query.on_message message w =
                 match fst (Query.permission_gate message w) with
                 | Ok (Some content) => Query.respond message content w
                 | Ok None => (Ok tt, w)
                 | Raise e => (Raise e, w)
                 end).
  { unfold Query.on_message, bind.
    pose proof (permission_gate_reads message w) as Hreads.
    destruct (Query.permission_gate message w) as [[[content|]|e] w1];
      simpl in Hreads; subst w1; reflexivity. }
  rewrite Hrun, permission_gate_run. simpl.
  assert (Hswitch : _cache w !! "global_reply_enabled" <> Some "false" ->
                    String.eqb (default "true" (_cache w !! "global_reply_enabled"))
                      "false" = false).
  { intros Hon. apply String.eqb_neq. intros Hoff.
    destruct (_cache w !! "global_reply_enabled") as [v|]; simpl in Hoff;
      [subst v; apply Hon; reflexivity | discriminate]. }
  split; [|split].
  - intros Hignored.
    destruct (user_bot (msg_author message)) eqn:Hbot; [reflexivity|].
    destruct (msg_mentions_bot message) eqn:Hmention; [|reflexivity]. simpl.
    destruct (Py.truthy_str (Query.strip_mention (msg_content message))) eqn:Hcontent;
      [|reflexivity]. simpl.
    destruct (String.eqb (default "true" (_cache w !! "global_reply_enabled")) "false")
      eqn:Hglobal; [reflexivity|].
    destruct Hignored as [Hb | [Hm | [Hc | [Hg | (Hroles & raw & Hraw & Hne & Hnone)]]]];
      try discriminate.
    + rewrite Hc in Hcontent. discriminate.
    + rewrite Hg in Hglobal. discriminate.
    + unfold whitelist. rewrite Hraw. simpl.
      apply truthy_str_nonempty in Hne. rewrite Hne, Hroles.
      destruct (Query.has_allowed_role raw (msg_author message)) eqn:Hrole; [|reflexivity].
      exfalso. apply has_allowed_role_iff in Hrole as (rid & Hrid & Hin).
      exact (Hnone rid Hrid Hin).
  - intros Hbot Hmention Hcontent Hglobal (raw & Hraw & Hne) Hroles.
    rewrite Hbot, Hmention. simpl.
    apply truthy_str_nonempty in Hcontent. rewrite Hcontent. simpl.
    rewrite (Hswitch Hglobal). unfold whitelist. rewrite Hraw. simpl.
    apply truthy_str_nonempty in Hne. rewrite Hne, Hroles. reflexivity.
  - intros Hbot Hmention Hcontent Hglobal Hroles.
    rewrite Hbot, Hmention. simpl.
    apply truthy_str_nonempty in Hcontent. rewrite Hcontent. simpl.
    rewrite (Hswitch Hglobal). unfold whitelist.
    assert (Hpassed :
              (if Py.truthy_str (default "" (_cache w !! "allowed_roles"))
               then if user_has_roles (msg_author message)
                    then if negb (Query.has_allowed_role
                                    (default "" (_cache w !! "allowed_roles"))
                                    (msg_author message))
                         then Ok None
                         else Ok (Some (Query.strip_mention (msg_content message)))
                    else Raise AttributeError
               else Ok (Some (Query.strip_mention (msg_content message)))) =
              Ok (Some (Query.strip_mention (msg_content message)))).
    { destruct Hroles as [Hunset | [Hempty | (Hreadable & raw & rid & Hraw & Hrid & Hin)]].
      - rewrite Hunset. reflexivity.
      - rewrite Hempty. reflexivity.
      - rewrite Hraw. simpl. rewrite Hreadable.
        assert (Hrole : Query.has_allowed_role raw (msg_author message) = true).
        { apply has_allowed_role_iff. eauto. }
        rewrite Hrole. simpl. destruct (Py.truthy_str raw); reflexivity. }
    rewrite Hpassed. split; [reflexivity|].
    apply respond_starts_typing.
Qed.

End Gate.

Lemma listener_checks_before_answering_sample :
  let w := with_cache (fun c => <["allowed_roles" := "10,30"]> c) Sample.stocked_world in
  @Query.on_message Sample.external (Sample.mention Sample.member "paano mangisda") w =
    (Ok tt, w) /\
  exists more,
    events (snd (@Query.on_message Sample.external
                   (Sample.mention Sample.librarian "paano mangisda") w)) = Typing :: more.
Proof.
  cbv zeta.
  set (w := with_cache (fun c => <["allowed_roles" := "10,30"]> c) Sample.stocked_world).
  split.
  - destruct (@listener_checks_before_answering Sample.external
                (Sample.mention Sample.member "paano mangisda") w) as [Hignored _].
    apply Hignored. right. right. right. right. split; [reflexivity|].
    exists "10,30". split; [vm_compute; reflexivity|]. split; [discriminate|].
    intros rid [].
  - destruct (@listener_checks_before_answering Sample.external
                (Sample.mention Sample.librarian "paano mangisda") w) as (_ & _ & Hanswered).
    destruct Hanswered as [_ Hmore].
    + reflexivity.
    + reflexivity.
    + discriminate.
    + vm_compute. discriminate.
    + right. right. split; [reflexivity|].
      exists "10,30", 10. split; [vm_compute; reflexivity|].
      split; [left; reflexivity | left; reflexivity].
    + exact Hmore.
Defined.

(** ** The confidence shown with an answer *)

Section Confidence.
Context `{External}.

(** [int(x) >= n] for a positive [n] says [x >= n]. *)
Lemma int_of_float_ge (x : Q) (n : Z) :
  (0 < n)%Z -> (n <=? Py.int_of_float x)%Z = true <-> (inject_Z n <= x)%Q.
Proof.
  intros Hn. unfold Py.int_of_float. rewrite Z.leb_le.
  destruct (Qle_bool 0 x) eqn:Hsign.
  - apply Qle_bool_iff in Hsign. split.
    + intros Hle. eapply Qle_trans; [|apply Qfloor_le].
      rewrite <- Zle_Qle. exact Hle.
    + intros Hle. rewrite <- (Qfloor_Z n). apply Qfloor_resp_le. exact Hle.
  - assert (Hneg : (x < 0)%Q).
    { apply Qnot_le_lt. intros Hle. apply Qle_bool_iff in Hle. congruence. }
    split.
    + intros Hle. exfalso.
      assert (Hceil : (Qceiling x <= 0)%Z).
      { rewrite <- (Qceiling_Z 0). apply Qceiling_resp_le. apply Qlt_le_weak. exact Hneg. }
      lia.
    + intros Hle. exfalso.
      assert (Hpos : (inject_Z 0 < inject_Z n)%Q) by (rewrite <- Zlt_Qlt; exact Hn).
      eapply Qlt_irrefl. eapply Qlt_trans; [exact Hpos|].
      eapply Qle_lt_trans; eassumption.
Qed.

Lemma percent_ge (s : Q) (n : Z) :
  (inject_Z n <= s * 100)%Q <-> (n # 100 <= s)%Q.
Proof.
  destruct s as [a b]. unfold Qle, Qmult, inject_Z. simpl. split; intros Hle; lia.
Qed.

(** X20.  The tier in the footer follows the top result's similarity:
    "High Confidence" from 0.45 up, "Medium Confidence" from 0.30 up to
    0.45, "Low Confidence" below 0.30 (negative similarities included),
    and "General Knowledge" when retrieval returned nothing. *)
Theorem confidence_tiers (top : Row) (rest : list Row) :
  snd (Query.confidence []) = "General Knowledge" /\
  ((45 # 100 <= row_similarity top)%Q ->
   snd (Query.confidence (top :: rest)) = "High Confidence") /\
  ((30 # 100 <= row_similarity top)%Q -> (row_similarity top < 45 # 100)%Q ->
   snd (Query.confidence (top :: rest)) = "Medium Confidence") /\
  ((row_similarity top < 30 # 100)%Q ->
   snd (Query.confidence (top :: rest)) = "Low Confidence").
Proof.
  assert (Hge : forall n, (0 < n)%Z ->
            (n <=? Py.int_of_float (row_similarity top * 100))%Z = true <->
            (n # 100 <= row_similarity top)%Q).
  { intros n Hn. rewrite int_of_float_ge by exact Hn. apply percent_ge. }
  assert (Hlt : forall n, (0 < n)%Z -> (row_similarity top < n # 100)%Q ->
            (n <=? Py.int_of_float (row_similarity top * 100))%Z = false).
  { intros n Hn Hbelow.
    destruct (n <=? Py.int_of_float (row_similarity top * 100))%Z eqn:E; [|reflexivity].
    apply Hge in E; [|exact Hn]. exfalso. eapply Qlt_not_le; eassumption. }
  split; [reflexivity|]. unfold Query.confidence. split; [|split].
  - intros Hhigh. apply (Hge 45) in Hhigh; [|lia]. rewrite Hhigh. reflexivity.
  - intros Hmid Hbelow. rewrite (Hlt 45) by (lia || exact Hbelow).
    apply (Hge 30) in Hmid; [|lia]. rewrite Hmid. reflexivity.
  - intros Hlow. rewrite (Hlt 30) by (lia || exact Hlow).
    rewrite (Hlt 45); [reflexivity | lia |].
    eapply Qlt_trans; [exact Hlow|]. reflexivity.
Qed.

End Confidence.

(** ** Running the bot *)

Section BotRuns.

Lemma lift_run {A} (m : M A) b :
  lift m b = (fst (m (world b)), with_world (snd (m (world b))) b).
Proof. unfold lift. destruct (m (world b)); reflexivity. Qed.

Lemma upload_count_action a b :
  upload_count (with_action a b) =
  (upload_count b + (if is_upload a then 1 else 0))%nat.
Proof.
  unfold upload_count, performed, with_action. simpl.
  rewrite List.map_app, List.filter_app, List.length_app. simpl.
  destruct (is_upload a); reflexivity.
Qed.

Lemma performed_action a b : performed (with_action a b) = (performed b ++ [a])%list.
Proof. unfold performed, with_action. simpl. apply List.map_app. Qed.

End BotRuns.

(** ** The avatar: retries end *)

Section Avatar.
Context `{Host}.

(** One call: it returns, sends the picture at most once, and leaves at
    most one task, whose delay is the next of the back-off; past ten
    minutes of delay it does neither. *)
Lemma update_avatar_outcome state d b :
  exists b', PinyaBot.update_avatar state d b = (Ok tt, b') /\
    (upload_count b' <= S (upload_count b))%nat /\
    (tasks b' = tasks b \/
     (d <= 600 /\ tasks b' = (tasks b ++ [(state, PinyaBot.new_delay d)])%list)) /\
    (600 < d -> upload_count b' = upload_count b).
Proof.
  unfold PinyaBot.update_avatar, bindB, getsB, modifyB, retB, act, PinyaBot.create_task.
  case_bool_decide.
  { eexists. split; [reflexivity|]. split; [lia|]. split; [left; reflexivity|reflexivity]. }
  destruct (Z.gtb_spec d 600) as [Hgt|Hle].
  { eexists. split; [reflexivity|]. rewrite upload_count_action. simpl.
    split; [lia|]. split; [left; reflexivity|intros _; lia]. }
  destruct (Z.gtb d 0); destruct (asset_exists _); simpl;
    try (eexists; split; [reflexivity|]; rewrite ?upload_count_action; simpl;
         split; [lia|]; split; [left; reflexivity|intros; lia]).
  all: destruct (uploads b) as [|[| |message|message|message] rest]; simpl;
    rewrite ?lift_run; simpl;
    (eexists; split; [reflexivity|]);
    unfold upload_count, performed in *; simpl;
    rewrite ?List.map_app, ?List.filter_app, ?List.length_app; simpl;
    rewrite ?List.map_app, ?List.filter_app, ?List.length_app; simpl;
    (split; [lia|]);
    (split; [first [left; reflexivity | right; split; [lia|reflexivity]]|intros; lia]).
Qed.

Lemma new_delay_ge d : 300 <= PinyaBot.new_delay d.
Proof. unfold PinyaBot.new_delay. destruct (Py.truthy_int d); lia. Qed.

Lemma new_delay_doubles d : 300 <= d -> PinyaBot.new_delay d = 2 * d.
Proof.
  intros Hd. unfold PinyaBot.new_delay, Py.truthy_int.
  destruct (Z.eqb_spec d 0); simpl; lia.
Qed.

Lemma run_task_idle b : tasks b = [] -> PinyaBot.run_task b = (Ok tt, b).
Proof.
  intros Hb. unfold PinyaBot.run_task, bindB, getsB. rewrite Hb. reflexivity.
Qed.

Lemma run_task_one b state d :
  tasks b = [(state, d)] ->
  PinyaBot.run_task b = PinyaBot.update_avatar state d (with_tasks [] b).
Proof.
  intros Hb. unfold PinyaBot.run_task, bindB, getsB, modifyB. rewrite Hb. reflexivity.
Qed.

(** A run of the oldest task when at most one is waiting, for [state]
    after a delay of at least [low]: at most one more upload, and what
    waits afterwards waits at least twice as long. *)
Lemma run_task_backs_off state low b :
  300 <= low ->
  (tasks b = [] \/ exists d, low <= d /\ tasks b = [(state, d)]) ->
  exists b', PinyaBot.run_task b = (Ok tt, b') /\
    (upload_count b' <= S (upload_count b))%nat /\
    (tasks b' = [] \/ exists d, 2 * low <= d /\ tasks b' = [(state, d)]) /\
    (600 < low -> tasks b' = [] /\ upload_count b' = upload_count b).
Proof.
  intros Hlow [Hidle | (d & Hd & Hone)].
  - exists b. rewrite (run_task_idle _ Hidle).
    split; [reflexivity|]. split; [lia|]. split; [left; exact Hidle|].
    intros _. split; [exact Hidle | reflexivity].
  - rewrite (run_task_one _ _ _ Hone).
    destruct (update_avatar_outcome state d (with_tasks [] b))
      as (b' & -> & Hcount & Htasks & Hgive).
    exists b'. split; [reflexivity|]. split; [exact Hcount|]. split.
    + destruct Htasks as [-> | [Hle ->]]; [left; reflexivity|].
      right. exists (PinyaBot.new_delay d). split; [|reflexivity].
      rewrite new_delay_doubles by lia. lia.
    + intros Hpast. destruct Htasks as [-> | [Hle _]]; [|lia].
      split; [reflexivity|]. apply Hgive. lia.
Qed.

(** X21.  Retries of an avatar change end: whatever the uploads do and
    whatever delay the first call is given, after the call and three
    runs of the tasks it leaves, no task is waiting, and the picture has
    been sent at most three times. *)
Theorem avatar_retries_end (state : string) (retry_delay : Z) (b : Bot) :
  tasks b = [] ->
  exists b',
    bindB (PinyaBot.update_avatar state retry_delay) (fun _ => PinyaBot.run_tasks 3) b =
    (Ok tt, b') /\
    tasks b' = [] /\
    (upload_count b' <= upload_count b + 3)%nat.
Proof.
  intros Hidle. unfold bindB at 1.
  destruct (update_avatar_outcome state retry_delay b) as (b0 & -> & Hc0 & Ht0 & _).
  rewrite Hidle in Ht0. simpl in Ht0.
  assert (Hw0 : tasks b0 = [] \/ exists d, 300 <= d /\ tasks b0 = [(state, d)]).
  { destruct Ht0 as [-> | [_ ->]]; [left; reflexivity|].
    right. eexists. split; [apply new_delay_ge | reflexivity]. }
  unfold PinyaBot.run_tasks, bindB.
  destruct (run_task_backs_off state 300 b0 ltac:(lia) Hw0) as (b1 & -> & Hc1 & Hw1 & _).
  destruct (run_task_backs_off state 600 b1 ltac:(lia) Hw1) as (b2 & -> & Hc2 & Hw2 & _).
  destruct (run_task_backs_off state 1200 b2 ltac:(lia) Hw2) as (b3 & -> & _ & _ & Hend).
  destruct (Hend ltac:(lia)) as [Hnone Hsame].
  exists b3. split; [reflexivity|]. split; [exact Hnone | lia].
Qed.

End Avatar.

Lemma avatar_retries_end_sample :
  exists b',
    bindB (@PinyaBot.update_avatar SampleBot.host "sleeping" 0)
      (fun _ => @PinyaBot.run_tasks SampleBot.host 3)
      (mkBot Sample.empty_world None [RateLimited; RateLimited; RateLimited] [] []) =
    (Ok tt, b') /\
    tasks b' = [] /\ (upload_count b' <= 0 + 3)%nat.
Proof.
  exact (avatar_retries_end (H := SampleBot.host) "sleeping" 0
           (mkBot Sample.empty_world None [RateLimited; RateLimited; RateLimited] [] [])
           eq_refl).
Defined.

(** ** The presence and the reply switch *)

Section Presence.
Context `{External} `{Host}.

Lemma on_message_run_gate message w :
  Query.on_message message w =
  match fst (Query.permission_gate message w) with
  | Ok (Some content) => Query.respond message content w
  | Ok None => (Ok tt, w)
  | Raise e => (Raise e, w)
  end.
Proof.
  unfold Query.on_message, bind.
  pose proof (permission_gate_reads message w) as Hreads.
  destruct (Query.permission_gate message w) as [[[content|]|e] w1];
    simpl in Hreads; subst w1; reflexivity.
Qed.

(** A change of avatar shows no presence and writes at most a log line. *)
Lemma update_avatar_quiet state d b :
  exists b', PinyaBot.update_avatar state d b = (Ok tt, b') /\
    presence b' = presence b /\
    (world b' = world b \/ exists text, world b' = with_event (LogInfo text) (world b)).
Proof.
  unfold PinyaBot.update_avatar, bindB, getsB, modifyB, retB, act, PinyaBot.create_task.
  case_bool_decide.
  { eexists. split; [reflexivity|]. split; [reflexivity | left; reflexivity]. }
  destruct (Z.gtb d 600).
  { eexists. split; [reflexivity|]. unfold presence. rewrite performed_action.
    rewrite omap_app. simpl. rewrite app_nil_r. split; [reflexivity | left; reflexivity]. }
  destruct (Z.gtb d 0); destruct (asset_exists _); simpl;
    try (eexists; split; [reflexivity|]; unfold presence; rewrite ?performed_action;
         rewrite ?omap_app; simpl; rewrite ?app_nil_r;
         split; [reflexivity | left; reflexivity]).
  all: destruct (uploads b) as [|[| |message|message|message] rest]; simpl;
    rewrite ?lift_run; simpl;
    (eexists; split; [reflexivity|]);
    unfold presence, performed; simpl;
    rewrite ?List.map_app; simpl; rewrite ?List.map_app; simpl;
    rewrite ?omap_app; simpl; rewrite ?omap_app; simpl; rewrite ?app_nil_r;
    (split; [reflexivity|]);
    first [left; reflexivity | right; eexists; reflexivity].
Qed.

(** [update_status] returns, and shows what the two settings say. *)
Lemma update_status_outcome b :
  exists b', PinyaBot.update_status b = (Ok tt, b') /\
    presence b' =
    Some (if String.eqb (default "true" (_cache (world b) !! "global_reply_enabled")) "false"
          then (StatusDnd, "Sleeping 💤 (Replies Off)")
          else if Py.truthy_str (whitelist (world b))
               then (StatusOnline, "Helping specific roles 🔒")
               else (StatusOnline, "Ask me via @Encyclopinya")) /\
    (world b' = world b \/ exists text, world b' = with_event (LogInfo text) (world b)).
Proof.
  unfold PinyaBot.update_status, whitelist.
  unfold bindB at 1. rewrite lift_run, get_or_run. simpl.
  unfold bindB at 1. rewrite lift_run, get_or_run. simpl.
  assert (Hsame : with_world (world b) (with_world (world b) b) = b) by (destruct b; reflexivity).
  rewrite Hsame.
  assert (Hshown : forall status activity,
            presence (with_action (ChangePresence status activity) b) =
            Some (status, activity)).
  { intros. unfold presence. rewrite performed_action, omap_app. simpl.
    apply last_snoc. }
  destruct (String.eqb _ "false"); [|destruct (Py.truthy_str _)];
    unfold bindB, act;
    match goal with
    | |- context [PinyaBot.update_avatar ?s ?d ?b0] =>
        destruct (update_avatar_quiet s d b0) as (b' & -> & Hpresence & Hworld)
    end;
    exists b'; (split; [reflexivity|]); rewrite Hpresence, Hshown;
    (split; [reflexivity | exact Hworld]).
Qed.

(** X22.  The reply switch.  When its write succeeds, [reply_global]
    stores the value in table and cache, and the bot shows it: switched
    off, the presence is "do not disturb" and the listener leaves every
    message unanswered and the world as it is; switched on, the presence
    is "online" and a message that mentions the bot, is not from a bot,
    is not empty and passes the whitelist is answered, provided there is
    no whitelist or the author's roles can be read; with a whitelist, a
    message from an author with no roles to read (a direct message)
    makes the listener raise.  When the write
    fails, the command raises with the switch and the presence as they
    were. *)
Theorem reply_switch_takes_effect (inter : Interaction) (enabled : bool) (b : Bot) :
  (next_fails (db_faults (world b)) = false ->
   exists b',
     AdminBot.config_reply_global inter enabled b = (Ok tt, b') /\
     config (world b') !! "global_reply_enabled" = Some (AdminBot.str_bool_lower enabled) /\
     _cache (world b') !! "global_reply_enabled" = Some (AdminBot.str_bool_lower enabled) /\
     (enabled = false ->
      presence b' = Some (StatusDnd, "Sleeping 💤 (Replies Off)") /\
      forall message, Query.on_message message (world b') = (Ok tt, world b')) /\
     (enabled = true ->
      (exists activity, presence b' = Some (StatusOnline, activity)) /\
      forall message,
        user_bot (msg_author message) = false ->
        msg_mentions_bot message = true ->
        Query.strip_mention (msg_content message) <> "" ->
        whitelist (world b) = "" \/
        Query.has_allowed_role (whitelist (world b)) (msg_author message) = true ->
        (whitelist (world b) = "" \/ user_has_roles (msg_author message) = true ->
         Query.on_message message (world b') =
         Query.respond message (Query.strip_mention (msg_content message)) (world b')) /\
        (whitelist (world b) <> "" -> user_has_roles (msg_author message) = false ->
         Query.on_message message (world b') = (Raise AttributeError, world b')))) /\
  (next_fails (db_faults (world b)) = true ->
   exists b',
     AdminBot.config_reply_global inter enabled b = (Raise DatabaseError, b') /\
     config (world b') = config (world b) /\ _cache (world b') = _cache (world b) /\
     performed b' = performed b /\
     events (world b') = (events (world b) ++ [Deferred])%list).
Proof.
  split; intros Hdb; unfold AdminBot.config_reply_global;
    unfold bindB at 1; rewrite lift_run; simpl;
    unfold bindB at 1; rewrite lift_run, set_run; simpl; rewrite Hdb; simpl.
  2:{ eexists. split; [reflexivity|]. repeat split; reflexivity. }
  unfold bindB at 1.
  match goal with
  | |- context [PinyaBot.update_status ?b0] =>
      destruct (update_status_outcome b0) as (b1 & -> & Hpresence & Hworld)
  end.
  simpl in Hpresence, Hworld. rewrite lookup_insert_eq in Hpresence. simpl in Hpresence.
  rewrite lift_run. simpl.
  eexists. split; [reflexivity|]. simpl.
  assert (Hconfig : config (world b1) =
                    <["global_reply_enabled" := AdminBot.str_bool_lower enabled]>
                      (config (world b)))
    by (destruct Hworld as [-> | [text ->]]; reflexivity).
  assert (Hcache : _cache (world b1) =
                   <["global_reply_enabled" := AdminBot.str_bool_lower enabled]>
                     (_cache (world b)))
    by (destruct Hworld as [-> | [text ->]]; reflexivity).
  rewrite Hconfig, Hcache, !lookup_insert_eq.
  split; [reflexivity|]. split; [reflexivity|].
  split; intros ->; simpl in Hpresence.
  - split; [exact Hpresence|].
    intros message. rewrite on_message_run_gate, permission_gate_run. simpl.
    rewrite Hcache, lookup_insert_eq. simpl.
    destruct (user_bot _); [reflexivity|].
    destruct (negb (msg_mentions_bot _)); [reflexivity|].
    destruct (negb (Py.truthy_str _)); reflexivity.
  - split.
    { unfold whitelist in Hpresence. simpl in Hpresence.
      rewrite lookup_insert_ne in Hpresence by discriminate.
      destruct (Py.truthy_str _) in Hpresence; eexists; exact Hpresence. }
    intros message Hbot Hmention Hcontent Hroles.
    rewrite on_message_run_gate, permission_gate_run. simpl.
    rewrite Hbot, Hmention. simpl.
    apply truthy_str_nonempty in Hcontent. rewrite Hcontent. simpl.
    rewrite Hcache, lookup_insert_eq. simpl.
    assert (Hlist : forall e, whitelist (with_event e (world b1)) = whitelist (world b)).
    { intros e. unfold whitelist. simpl. rewrite Hcache.
      rewrite lookup_insert_ne by discriminate. reflexivity. }
    rewrite Hlist. split.
    + intros [Hempty | Hreadable].
      * rewrite Hempty. reflexivity.
      * rewrite Hreadable.
        destruct Hroles as [-> | ->]; [reflexivity|].
        destruct (Py.truthy_str (whitelist (world b))); reflexivity.
    + intros Hlisted Hnone. apply truthy_str_nonempty in Hlisted.
      rewrite Hlisted, Hnone. reflexivity.
Qed.

End Presence.

Lemma reply_switch_takes_effect_sample :
  exists b',
    @AdminBot.config_reply_global SampleBot.host (mkInteraction Sample.librarian) false
      (SampleBot.started Sample.stocked_world) = (Ok tt, b') /\
    presence b' = Some (StatusDnd, "Sleeping 💤 (Replies Off)") /\
    @Query.on_message Sample.external (Sample.mention Sample.member "where is the base")
      (world b') = (Ok tt, world b').
Proof.
  destruct (@reply_switch_takes_effect Sample.external SampleBot.host
              (mkInteraction Sample.librarian) false
              (SampleBot.started Sample.stocked_world))
    as [Hok _].
  destruct (Hok eq_refl) as (b' & Hrun & _ & _ & Hoff & _).
  destruct (Hoff eq_refl) as [Hpresence Hsilent].
  exists b'. split; [exact Hrun|]. split; [exact Hpresence | apply Hsilent].
Defined.

(** ** Comma-separated lists *)

Section CommaLists.

Lemma string_app_cons c (s t : string) : String c s ++ t = String c (s ++ t).
Proof. reflexivity. Qed.

Lemma string_app_nil_l (s : string) : "" ++ s = s.
Proof. reflexivity. Qed.

Lemma string_app_assoc (s t u : string) : (s ++ t) ++ u = s ++ t ++ u.
Proof.
  induction s as [|c s IH]; [reflexivity|].
  rewrite !string_app_cons, IH. reflexivity.
Qed.

Lemma string_app_nil_r (s : string) : s ++ "" = s.
Proof.
  induction s as [|c s IH]; [reflexivity|].
  rewrite string_app_cons, IH. reflexivity.
Qed.

Lemma comma_free_app s t : comma_free (s ++ t) = andb (comma_free s) (comma_free t).
Proof.
  induction s as [|c s IH]; [reflexivity|].
  rewrite string_app_cons. simpl. rewrite IH. apply andb_assoc.
Qed.

(** A part without commas goes whole into the piece being read. *)
Lemma split_comma_acc_part cur p :
  comma_free p = true -> Py.split_comma_acc cur p = [cur ++ p].
Proof.
  revert cur. induction p as [|c p IH]; intros cur Hfree; simpl.
  - rewrite string_app_nil_r. reflexivity.
  - simpl in Hfree. apply andb_true_iff in Hfree as [Hc Hp].
    apply negb_true_iff in Hc.
    rewrite Hc, (IH _ Hp), string_app_assoc, string_app_cons, string_app_nil_l.
    reflexivity.
Qed.

Lemma split_comma_acc_cut cur p rest :
  comma_free p = true ->
  Py.split_comma_acc cur (p ++ "," ++ rest) = (cur ++ p) :: Py.split_comma_acc "" rest.
Proof.
  revert cur. induction p as [|c p IH]; intros cur Hfree.
  - rewrite string_app_nil_l, string_app_cons, string_app_nil_l, string_app_nil_r.
    reflexivity.
  - simpl in Hfree. apply andb_true_iff in Hfree as [Hc Hp].
    apply negb_true_iff in Hc. rewrite string_app_cons. simpl.
    rewrite Hc, (IH _ Hp), string_app_assoc, string_app_cons, string_app_nil_l.
    reflexivity.
Qed.

(** [",".join(parts).split(",")] gives the parts back, when there is
    one at least and none has a comma. *)
Lemma split_comma_join parts :
  parts <> [] -> Forall (fun p => comma_free p = true) parts ->
  Py.split_comma (Py.join "," parts) = parts.
Proof.
  unfold Py.split_comma.
  induction parts as [|p rest IH]; intros Hne Hfree; [congruence|].
  inversion Hfree as [|? ? Hp Hrest]; subst.
  destruct rest as [|q rest].
  - simpl. apply (split_comma_acc_part "" p Hp).
  - change (Py.join "," (p :: q :: rest)) with (p ++ "," ++ Py.join "," (q :: rest)).
    rewrite (split_comma_acc_cut "" p _ Hp). simpl. f_equal.
    apply IH; [discriminate | exact Hrest].
Qed.

Lemma split_comma_acc_free cur s :
  comma_free cur = true ->
  Forall (fun p => comma_free p = true) (Py.split_comma_acc cur s).
Proof.
  revert cur. induction s as [|c s IH]; intros cur Hcur; simpl.
  - constructor; [exact Hcur | constructor].
  - destruct (Ascii.eqb c ",") eqn:Hc.
    + constructor; [exact Hcur | apply IH; reflexivity].
    + apply IH. rewrite comma_free_app, Hcur. simpl. rewrite Hc. reflexivity.
Qed.

(** The pieces of a split have no comma. *)
Lemma split_comma_free s : Forall (fun p => comma_free p = true) (Py.split_comma s).
Proof. apply split_comma_acc_free. reflexivity. Qed.

Lemma digits_comma_free d : comma_free (NilEmpty.string_of_uint d) = true.
Proof. induction d; simpl; first [reflexivity | assumption]. Qed.

Lemma uint_comma_free d : comma_free (NilZero.string_of_uint d) = true.
Proof. destruct d; first [reflexivity | apply digits_comma_free]. Qed.

(** The decimal text of an [int] has no comma. *)
Lemma str_int_comma_free n : comma_free (Py.str_int n) = true.
Proof.
  unfold Py.str_int. destruct (Z.to_int n) as [d|d]; simpl; apply uint_comma_free.
Qed.

Lemma current_list_free raw :
  Forall (fun p => comma_free p = true) (AdminBot.current_list raw).
Proof.
  unfold AdminBot.current_list. apply List.Forall_forall. intros p Hp.
  apply List.filter_In in Hp as [Hp _].
  destruct (Py.truthy_str raw); [|destruct Hp].
  exact (proj1 (List.Forall_forall _ _) (split_comma_free raw) p Hp).
Qed.

Lemma current_list_truthy raw :
  Forall (fun p => Py.truthy_str p = true) (AdminBot.current_list raw).
Proof.
  unfold AdminBot.current_list. apply List.Forall_forall. intros p Hp.
  apply List.filter_In in Hp. tauto.
Qed.

Lemma join_empty parts : Py.join "," parts = "" -> parts = [] \/ parts = [""].
Proof.
  destruct parts as [|p [|q rest]]; simpl; intros Heq.
  - left. reflexivity.
  - right. rewrite Heq. reflexivity.
  - destruct p; rewrite ?string_app_nil_l, ?string_app_cons in Heq; discriminate.
Qed.

End CommaLists.

(** ** The role whitelist *)

Section Whitelist.
Context `{External} `{Host}.

(** What the command writes, it reads back. *)
Lemma current_list_join parts :
  Forall (fun p => Py.truthy_str p = true) parts ->
  Forall (fun p => comma_free p = true) parts ->
  AdminBot.current_list (Py.join "," parts) = parts.
Proof.
  intros Htruthy Hfree. unfold AdminBot.current_list.
  assert (Hkeep : List.filter Py.truthy_str parts = parts).
  { clear Hfree. induction Htruthy as [|p rest Hp _ IH]; simpl; [reflexivity|].
    rewrite Hp, IH. reflexivity. }
  destruct parts as [|p rest]; [reflexivity|].
  destruct (Py.truthy_str (Py.join "," (p :: rest))) eqn:Hjoin.
  - rewrite split_comma_join by (discriminate || exact Hfree). exact Hkeep.
  - exfalso. destruct (Py.join "," (p :: rest)) eqn:Htext; [|discriminate].
    apply join_empty in Htext as [Hnil | Hone]; [discriminate|].
    inversion Hone; subst. inversion Htruthy; subst. discriminate.
Qed.

Lemma current_list_empty : AdminBot.current_list "" = [].
Proof. reflexivity. Qed.

(** The listener and the command agree on which roles are listed. *)
Lemma split_comma_listed raw rid :
  In (Py.str_int rid) (Py.split_comma raw) <->
  In (Py.str_int rid) (AdminBot.current_list raw).
Proof.
  unfold AdminBot.current_list. rewrite List.filter_In.
  destruct (Py.truthy_str raw) eqn:Hraw.
  - pose proof (str_int_truthy rid). tauto.
  - destruct raw; [|discriminate]. simpl. split; [|tauto].
    intros [Heq | []]. pose proof (str_int_truthy rid) as Ht.
    rewrite <- Heq in Ht. discriminate.
Qed.

Lemma allowed_iff_whitelisted w user :
  Query.has_allowed_role (whitelist w) user = true <->
  exists rid, In rid (user_roles user) /\ whitelisted w rid.
Proof.
  rewrite has_allowed_role_iff. unfold whitelisted.
  split; intros (rid & Hrid & Hin); exists rid; (split; [exact Hrid|]);
    apply split_comma_listed; exact Hin.
Qed.

Lemma list_remove_incl x y l : In x (AdminBot.list_remove y l) -> In x l.
Proof.
  induction l as [|z l IH]; simpl; [tauto|].
  destruct (String.eqb z y); simpl; tauto.
Qed.

Lemma list_remove_other x y l : x <> y -> In x l -> In x (AdminBot.list_remove y l).
Proof.
  intros Hne. induction l as [|z l IH]; simpl; [tauto|].
  destruct (String.eqb_spec z y) as [-> | Hz]; simpl.
  - intros [Heq | Hin]; [congruence | exact Hin].
  - tauto.
Qed.

Lemma list_remove_gone y l : NoDup l -> ~ In y (AdminBot.list_remove y l).
Proof.
  induction 1 as [|z l Hz _ IH]; simpl; [tauto|].
  destruct (String.eqb_spec z y) as [-> | Hne]; simpl.
  - intros Hin. apply Hz. apply list_elem_of_In. exact Hin.
  - intros [Heq | Hin]; [congruence | exact (IH Hin)].
Qed.

(** The three steps of a change of the whitelist: write, show, tell. *)
Lemma whitelist_write_run raw e b :
  next_fails (db_faults (world b)) = false ->
  exists b',
    bindB (lift (ConfigManager.set "allowed_roles" raw))
      (fun _ => bindB PinyaBot.update_status (fun _ => lift (emit e))) b = (Ok tt, b') /\
    _cache (world b') = <["allowed_roles" := raw]> (_cache (world b)) /\
    config (world b') = <["allowed_roles" := raw]> (config (world b)) /\
    presence b' =
    Some (if String.eqb (default "true" (_cache (world b) !! "global_reply_enabled")) "false"
          then (StatusDnd, "Sleeping 💤 (Replies Off)")
          else if Py.truthy_str raw
               then (StatusOnline, "Helping specific roles 🔒")
               else (StatusOnline, "Ask me via @Encyclopinya")).
Proof.
  intros Hdb. unfold bindB at 1. rewrite lift_run, set_run, Hdb. simpl.
  unfold bindB at 1.
  match goal with
  | |- context [PinyaBot.update_status ?b0] =>
      destruct (update_status_outcome b0) as (b1 & -> & Hpresence & Hworld)
  end.
  unfold whitelist in Hpresence. simpl in Hpresence, Hworld.
  rewrite lookup_insert_eq in Hpresence. simpl in Hpresence.
  rewrite lookup_insert_ne in Hpresence by discriminate.
  rewrite lift_run. simpl. eexists. split; [reflexivity|]. simpl.
  split; [|split; [|exact Hpresence]];
    destruct Hworld as [-> | [text ->]]; reflexivity.
Qed.

(** X23.  Adding a role to the whitelist.  When the write succeeds the
    whitelist is in force (the setting is not empty), the roles it lists
    are the new one and those listed before, and so the listener's role
    test holds of exactly the users who hold the new role or of whom it
    held before (of nobody when nothing was listed: the first role added
    closes the bot to everyone else).  If the role was not yet listed and
    replies are not switched off, the presence says so. *)
Theorem whitelist_add (inter : Interaction) (label : string) (role : Admin.Role) (b : Bot) :
  next_fails (db_faults (world b)) = false ->
  exists b',
    AdminBot.config_reply_role inter (Admin.mkChoice label "add") (Some role) b =
    (Ok tt, b') /\
    whitelist (world b') <> "" /\
    (forall rid, whitelisted (world b') rid <->
                 rid = Admin.role_id role \/ whitelisted (world b) rid) /\
    (forall user,
       Query.has_allowed_role (whitelist (world b')) user = true <->
       In (Admin.role_id role) (user_roles user) \/
       Query.has_allowed_role (whitelist (world b)) user = true) /\
    (~ whitelisted (world b) (Admin.role_id role) ->
     _cache (world b) !! "global_reply_enabled" <> Some "false" ->
     presence b' = Some (StatusOnline, "Helping specific roles 🔒")).
Proof.
  intros Hdb.
  set (l := AdminBot.current_list (whitelist (world b))).
  set (s := Py.str_int (Admin.role_id role)).
  assert (Hcore : exists b',
    AdminBot.config_reply_role inter (Admin.mkChoice label "add") (Some role) b =
    (Ok tt, b') /\
    (In s l /\ whitelist (world b') = whitelist (world b) \/
     ~ In s l /\ whitelist (world b') = Py.join "," (l ++ [s]) /\
     presence b' =
     Some (if String.eqb (default "true" (_cache (world b) !! "global_reply_enabled")) "false"
           then (StatusDnd, "Sleeping 💤 (Replies Off)")
           else if Py.truthy_str (Py.join "," (l ++ [s]))
                then (StatusOnline, "Helping specific roles 🔒")
                else (StatusOnline, "Ask me via @Encyclopinya")))).
  { unfold AdminBot.config_reply_role.
    unfold bindB at 1. rewrite lift_run. simpl.
    unfold bindB at 1. rewrite lift_run, get_or_run. simpl.
    fold (whitelist (world b)). fold l. fold s.
    destruct (Py.str_in s l) eqn:Hin; simpl.
    - rewrite lift_run. simpl. eexists. split; [reflexivity|]. left.
      split; [apply str_in_In; exact Hin | reflexivity].
    - match goal with
      | |- context [bindB (lift (ConfigManager.set _ ?raw)) (fun _ => bindB _ (fun _ => lift (emit ?e))) ?b0] =>
          destruct (whitelist_write_run raw e b0 Hdb) as (b' & -> & Hcache & _ & Hpresence)
      end.
      exists b'. split; [reflexivity|]. right. split.
      { intros Hyes. apply str_in_In in Hyes. congruence. }
      split; [|exact Hpresence].
      unfold whitelist. rewrite Hcache, lookup_insert_eq. reflexivity. }
  destruct Hcore as (b' & Hrun & Hcases).
  assert (Hl_truthy : Forall (fun p => Py.truthy_str p = true) (l ++ [s])).
  { apply Forall_app. split; [apply current_list_truthy|].
    constructor; [apply str_int_truthy | constructor]. }
  assert (Hl_free : Forall (fun p => comma_free p = true) (l ++ [s])).
  { apply Forall_app. split; [apply current_list_free|].
    constructor; [apply str_int_comma_free | constructor]. }
  assert (Hlisted : forall rid, whitelisted (world b') rid <->
                                rid = Admin.role_id role \/ whitelisted (world b) rid).
  { intros rid. unfold whitelisted.
    destruct Hcases as [[Hin ->] | (Hout & -> & _)].
    - fold l. split; [tauto|]. intros [-> | Hrid]; [exact Hin | exact Hrid].
    - rewrite (current_list_join _ Hl_truthy Hl_free), List.in_app_iff. fold l. simpl.
      split.
      + intros [Hold | [Heq | []]]; [tauto|]. left. symmetry.
        apply str_int_injective. exact Heq.
      + intros [-> | Hold]; [right; left; reflexivity | left; exact Hold]. }
  exists b'. split; [exact Hrun|]. split; [|split; [exact Hlisted|split]].
  - intros Hempty.
    assert (Hyes : whitelisted (world b') (Admin.role_id role)) by (apply Hlisted; tauto).
    unfold whitelisted in Hyes. rewrite Hempty in Hyes. exact Hyes.
  - intros user. rewrite !allowed_iff_whitelisted. split.
    + intros (rid & Hrid & Hyes). apply Hlisted in Hyes as [-> | Hold]; [tauto|].
      right. eauto.
    + intros [Hrole | (rid & Hrid & Hold)].
      * exists (Admin.role_id role). split; [exact Hrole | apply Hlisted; tauto].
      * exists rid. split; [exact Hrid | apply Hlisted; tauto].
  - intros Hnew Hon. destruct Hcases as [[Hin _] | (_ & Hraw & Hpresence)].
    { exfalso. apply Hnew. exact Hin. }
    rewrite Hpresence.
    assert (Hglobal : String.eqb (default "true" (_cache (world b) !! "global_reply_enabled"))
                        "false" = false).
    { apply String.eqb_neq. intros Hoff.
      destruct (_cache (world b) !! "global_reply_enabled") as [v|]; simpl in Hoff;
        [subst v; apply Hon; reflexivity | discriminate]. }
    rewrite Hglobal.
    destruct (Py.truthy_str (Py.join "," (l ++ [s]))) eqn:Hjoin; [reflexivity|].
    exfalso. destruct (Py.join "," (l ++ [s])) eqn:Htext; [|discriminate].
    pose proof (current_list_join _ Hl_truthy Hl_free) as Hback.
    rewrite Htext in Hback. simpl in Hback. destruct l; discriminate.
Qed.

(** X24.  Removing a role from the whitelist.  When the write succeeds,
    every other role is listed afterwards exactly if it was before; the
    role itself is no longer listed, provided it was listed once at most
    ([remove] takes out the first occurrence).  If it was the only
    entry, the setting is empty afterwards: the whitelist is off. *)
Theorem whitelist_remove (inter : Interaction) (label : string) (role : Admin.Role)
    (b : Bot) :
  next_fails (db_faults (world b)) = false ->
  exists b',
    AdminBot.config_reply_role inter (Admin.mkChoice label "remove") (Some role) b =
    (Ok tt, b') /\
    (forall rid, rid <> Admin.role_id role ->
       (whitelisted (world b') rid <-> whitelisted (world b) rid)) /\
    (NoDup (AdminBot.current_list (whitelist (world b))) ->
     ~ whitelisted (world b') (Admin.role_id role)) /\
    (AdminBot.current_list (whitelist (world b)) = [Py.str_int (Admin.role_id role)] ->
     whitelist (world b') = "").
Proof.
  intros Hdb.
  set (l := AdminBot.current_list (whitelist (world b))).
  set (s := Py.str_int (Admin.role_id role)).
  assert (Hcore : exists b',
    AdminBot.config_reply_role inter (Admin.mkChoice label "remove") (Some role) b =
    (Ok tt, b') /\
    (~ In s l /\ whitelist (world b') = whitelist (world b) \/
     In s l /\ whitelist (world b') = Py.join "," (AdminBot.list_remove s l))).
  { unfold AdminBot.config_reply_role.
    unfold bindB at 1. rewrite lift_run. simpl.
    unfold bindB at 1. rewrite lift_run, get_or_run. simpl.
    fold (whitelist (world b)). fold l. fold s.
    destruct (Py.str_in s l) eqn:Hin; simpl.
    - match goal with
      | |- context [bindB (lift (ConfigManager.set _ ?raw)) (fun _ => bindB _ (fun _ => lift (emit ?e))) ?b0] =>
          destruct (whitelist_write_run raw e b0 Hdb) as (b' & -> & Hcache & _ & _)
      end.
      exists b'. split; [reflexivity|]. right.
      split; [apply str_in_In; exact Hin|].
      unfold whitelist. rewrite Hcache, lookup_insert_eq. reflexivity.
    - rewrite lift_run. simpl. eexists. split; [reflexivity|]. left.
      split; [|reflexivity].
      intros Hyes. apply str_in_In in Hyes. congruence. }
  destruct Hcore as (b' & Hrun & Hcases).
  assert (Hl_truthy : Forall (fun p => Py.truthy_str p = true) (AdminBot.list_remove s l)).
  { apply List.Forall_forall. intros p Hp. apply list_remove_incl in Hp.
    exact (proj1 (List.Forall_forall _ _) (current_list_truthy _) p Hp). }
  assert (Hl_free : Forall (fun p => comma_free p = true) (AdminBot.list_remove s l)).
  { apply List.Forall_forall. intros p Hp. apply list_remove_incl in Hp.
    exact (proj1 (List.Forall_forall _ _) (current_list_free _) p Hp). }
  exists b'. split; [exact Hrun|]. unfold whitelisted.
  destruct Hcases as [[Hout ->] | [Hin ->]]; fold l; fold s.
  - split; [tauto|]. split; [tauto|].
    intros Honly. exfalso. apply Hout. rewrite Honly. left. reflexivity.
  - rewrite (current_list_join _ Hl_truthy Hl_free). split; [|split].
    + intros rid Hne. split; [apply list_remove_incl|].
      apply list_remove_other. intros Heq. apply Hne.
      apply str_int_injective. exact Heq.
    + intros Hnodup. apply list_remove_gone. exact Hnodup.
    + intros ->. simpl. rewrite String.eqb_refl. reflexivity.
Qed.

(** X25.  An emptied whitelist opens the bot.  After [clear], and after
    [remove] of the only role listed, the setting is empty; then, unless
    replies are switched off, the presence invites everyone and the
    listener answers every message that mentions the bot, is not from a
    bot and is not empty, whatever roles its author has. *)
Theorem emptied_whitelist_opens (inter : Interaction) (action : Admin.Choice)
    (role : option Admin.Role) (b : Bot) :
  next_fails (db_faults (world b)) = false ->
  Admin.choice_value action = "clear" \/
  (Admin.choice_value action = "remove" /\
   exists r, role = Some r /\
     AdminBot.current_list (whitelist (world b)) = [Py.str_int (Admin.role_id r)]) ->
  exists b',
    AdminBot.config_reply_role inter action role b = (Ok tt, b') /\
    whitelist (world b') = "" /\
    (_cache (world b) !! "global_reply_enabled" <> Some "false" ->
     presence b' = Some (StatusOnline, "Ask me via @Encyclopinya") /\
     forall message,
       user_bot (msg_author message) = false ->
       msg_mentions_bot message = true ->
       Query.strip_mention (msg_content message) <> "" ->
       Query.on_message message (world b') =
       Query.respond message (Query.strip_mention (msg_content message)) (world b')).
Proof.
  intros Hdb Haction.
  assert (Hcore : exists b',
    AdminBot.config_reply_role inter action role b = (Ok tt, b') /\
    _cache (world b') = <["allowed_roles" := ""]> (_cache (world b)) /\
    presence b' =
    Some (if String.eqb (default "true" (_cache (world b) !! "global_reply_enabled")) "false"
          then (StatusDnd, "Sleeping 💤 (Replies Off)")
          else (StatusOnline, "Ask me via @Encyclopinya"))).
  { unfold AdminBot.config_reply_role.
    unfold bindB at 1. rewrite lift_run. simpl.
    destruct Haction as [-> | (-> & r & -> & Honly)]; simpl.
    - unfold bindB at 1. rewrite lift_run, get_or_run. simpl.
      match goal with
      | |- context [bindB (lift (ConfigManager.set _ ?raw)) (fun _ => bindB _ (fun _ => lift (emit ?e))) ?b0] =>
          destruct (whitelist_write_run raw e b0 Hdb) as (b' & -> & Hcache & _ & Hpresence)
      end.
      exists b'. split; [reflexivity|]. split; [exact Hcache | exact Hpresence].
    - unfold bindB at 1. rewrite lift_run, get_or_run. simpl.
      fold (whitelist (world b)). rewrite Honly. simpl.
      rewrite String.eqb_refl. simpl.
      match goal with
      | |- context [bindB (lift (ConfigManager.set _ ?raw)) (fun _ => bindB _ (fun _ => lift (emit ?e))) ?b0] =>
          destruct (whitelist_write_run raw e b0 Hdb) as (b' & -> & Hcache & _ & Hpresence)
      end.
      exists b'. split; [reflexivity|]. split; [exact Hcache | exact Hpresence]. }
  destruct Hcore as (b' & Hrun & Hcache & Hpresence).
  assert (Hempty : whitelist (world b') = "").
  { unfold whitelist. rewrite Hcache, lookup_insert_eq. reflexivity. }
  exists b'. split; [exact Hrun|]. split; [exact Hempty|].
  intros Hon.
  assert (Hglobal : String.eqb (default "true" (_cache (world b) !! "global_reply_enabled"))
                      "false" = false).
  { apply String.eqb_neq. intros Hoff.
    destruct (_cache (world b) !! "global_reply_enabled") as [v|]; simpl in Hoff;
      [subst v; apply Hon; reflexivity | discriminate]. }
  rewrite Hglobal in Hpresence. split; [exact Hpresence|].
  intros message Hbot Hmention Hcontent.
  rewrite on_message_run_gate, permission_gate_run. simpl.
  rewrite Hbot, Hmention. simpl.
  apply truthy_str_nonempty in Hcontent. rewrite Hcontent. simpl.
  rewrite Hcache, lookup_insert_ne by discriminate. rewrite Hglobal, Hempty. reflexivity.
Qed.

Lemma list_remove_unique y l : NoDup l -> NoDup (AdminBot.list_remove y l).
Proof.
  induction 1 as [|z l Hz Hl IH]; simpl; [constructor|].
  destruct (String.eqb z y); [exact Hl|].
  constructor; [|exact IH].
  intros Hin. apply Hz. apply list_elem_of_In, (list_remove_incl _ y).
  apply list_elem_of_In. exact Hin.
Qed.

(** A write of the whitelist leaves it as written, or, when the
    statement fails, as it was. *)
Lemma whitelist_write_any raw e b :
  let b' := snd (bindB (lift (ConfigManager.set "allowed_roles" raw))
                   (fun _ => bindB PinyaBot.update_status (fun _ => lift (emit e))) b) in
  whitelist (world b') = raw \/ whitelist (world b') = whitelist (world b).
Proof.
  destruct (next_fails (db_faults (world b))) eqn:Hdb.
  - right. unfold bindB at 1. rewrite lift_run, set_run, Hdb. reflexivity.
  - left. destruct (whitelist_write_run raw e b Hdb) as (b' & -> & Hcache & _).
    unfold whitelist. simpl. rewrite Hcache, lookup_insert_eq. reflexivity.
Qed.

(** X30.  The whitelist never gains a duplicate through the command:
    if no role is listed twice, the same holds after [reply_role],
    whatever the action, the role and the outcome of the write. *)
Theorem whitelist_stays_duplicate_free (inter : Interaction) (action : Admin.Choice)
    (role : option Admin.Role) (b : Bot) :
  NoDup (AdminBot.current_list (whitelist (world b))) ->
  NoDup (AdminBot.current_list
           (whitelist (world (snd (AdminBot.config_reply_role inter action role b))))).
Proof.
  intros Hunique.
  set (l := AdminBot.current_list (whitelist (world b))) in *.
  assert (Hwrite : forall parts e b0,
            whitelist (world b0) = whitelist (world b) ->
            NoDup parts ->
            Forall (fun p => Py.truthy_str p = true) parts ->
            Forall (fun p => comma_free p = true) parts ->
            NoDup (AdminBot.current_list
                     (whitelist (world (snd (bindB
                        (lift (ConfigManager.set "allowed_roles" (Py.join "," parts)))
                        (fun _ => bindB PinyaBot.update_status (fun _ => lift (emit e)))
                        b0)))))).
  { intros parts e b0 Hsame Hparts Htruthy Hfree.
    destruct (whitelist_write_any (Py.join "," parts) e b0) as [-> | ->].
    - rewrite current_list_join by assumption. exact Hparts.
    - rewrite Hsame. exact Hunique. }
  unfold AdminBot.config_reply_role.
  unfold bindB at 1. rewrite lift_run. simpl.
  destruct (andb _ _); [exact Hunique|].
  unfold bindB at 1. rewrite lift_run, get_or_run. simpl.
  fold (whitelist (world b)). fold l.
  destruct (String.eqb (Admin.choice_value action) "add").
  { destruct role as [role|]; [|exact Hunique].
    destruct (Py.str_in _ l) eqn:Hin; simpl; [exact Hunique|].
    apply Hwrite; [reflexivity| | |].
    - apply NoDup_app. split; [exact Hunique|]. split; [|apply NoDup_singleton].
      intros x Hx Hs. apply list_elem_of_In in Hs as [<- | []].
      apply list_elem_of_In, str_in_In in Hx. congruence.
    - apply Forall_app. split; [apply current_list_truthy|].
      constructor; [apply str_int_truthy | constructor].
    - apply Forall_app. split; [apply current_list_free|].
      constructor; [apply str_int_comma_free | constructor]. }
  destruct (String.eqb (Admin.choice_value action) "remove").
  { destruct role as [role|]; [|exact Hunique].
    destruct (Py.str_in _ l) eqn:Hin; simpl; [|exact Hunique].
    apply Hwrite; [reflexivity| | |].
    - apply list_remove_unique. exact Hunique.
    - apply List.Forall_forall. intros p Hp. apply list_remove_incl in Hp.
      exact (proj1 (List.Forall_forall _ _) (current_list_truthy _) p Hp).
    - apply List.Forall_forall. intros p Hp. apply list_remove_incl in Hp.
      exact (proj1 (List.Forall_forall _ _) (current_list_free _) p Hp). }
  destruct (String.eqb (Admin.choice_value action) "clear"); [|exact Hunique].
  apply (Hwrite []); [reflexivity | constructor | constructor | constructor].
Qed.

End Whitelist.

Lemma whitelist_add_sample :
  exists b',
    @AdminBot.config_reply_role SampleBot.host (mkInteraction Sample.librarian)
      (Admin.mkChoice "Add" "add") (Some (Admin.mkRole 10 "<@&10>"))
      (SampleBot.started Sample.stocked_world) = (Ok tt, b') /\
    Query.has_allowed_role (whitelist (world b')) Sample.librarian = true /\
    Query.has_allowed_role (whitelist (world b')) Sample.member = false.
Proof.
  destruct (@whitelist_add SampleBot.host (mkInteraction Sample.librarian)
              "Add" (Admin.mkRole 10 "<@&10>") (SampleBot.started Sample.stocked_world)
              eq_refl)
    as (b' & Hrun & _ & _ & Hallowed & _).
  exists b'. split; [exact Hrun|]. split.
  - apply Hallowed. left. left. reflexivity.
  - destruct (Query.has_allowed_role (whitelist (world b')) Sample.member) eqn:Hmember;
      [|reflexivity].
    apply Hallowed in Hmember as [[] | Hbefore]. discriminate Hbefore.
Defined.

Lemma whitelist_remove_sample :
  let b := SampleBot.started
             (with_cache (fun c => <["allowed_roles" := "10,20"]> c) Sample.stocked_world) in
  exists b',
    @AdminBot.config_reply_role SampleBot.host (mkInteraction Sample.librarian)
      (Admin.mkChoice "Remove" "remove") (Some (Admin.mkRole 10 "<@&10>")) b = (Ok tt, b') /\
    whitelisted (world b') 20 /\ ~ whitelisted (world b') 10.
Proof.
  intros b.
  destruct (@whitelist_remove SampleBot.host (mkInteraction Sample.librarian)
              "Remove" (Admin.mkRole 10 "<@&10>") b eq_refl)
    as (b' & Hrun & Hothers & Hgone & _).
  exists b'. split; [exact Hrun|]. split.
  - apply (Hothers 20); [discriminate|]. right. left. reflexivity.
  - apply Hgone. repeat constructor; rewrite ?list_elem_of_In; simpl; intuition discriminate.
Defined.

Lemma whitelist_stays_duplicate_free_sample :
  NoDup (AdminBot.current_list
           (whitelist (world (snd (@AdminBot.config_reply_role SampleBot.host
              (mkInteraction Sample.librarian) (Admin.mkChoice "Add" "add")
              (Some (Admin.mkRole 10 "<@&10>"))
              (SampleBot.started
                 (with_cache (fun c => <["allowed_roles" := "10,20"]> c)
                    Sample.stocked_world))))))).
Proof.
  apply (@whitelist_stays_duplicate_free SampleBot.host).
  simpl. repeat constructor; rewrite ?list_elem_of_In; simpl; intuition discriminate.
Defined.

Lemma emptied_whitelist_opens_sample :
  let b := SampleBot.started
             (with_cache (fun c => <["allowed_roles" := "10"]> c) Sample.stocked_world) in
  exists b',
    @AdminBot.config_reply_role SampleBot.host (mkInteraction Sample.librarian)
      (Admin.mkChoice "Clear All" "clear") None b = (Ok tt, b') /\
    whitelist (world b') = "" /\
    presence b' = Some (StatusOnline, "Ask me via @Encyclopinya").
Proof.
  intros b.
  destruct (@emptied_whitelist_opens Sample.external SampleBot.host
              (mkInteraction Sample.librarian) (Admin.mkChoice "Clear All" "clear") None b
              eq_refl (or_introl eq_refl))
    as (b' & Hrun & Hempty & Hopen).
  exists b'. split; [exact Hrun|]. split; [exact Hempty|].
  apply Hopen. discriminate.
Defined.

(** ** Frames over the bot *)

Section BotFrames.
Context (R : World -> World -> Prop) `{!Frame R}.

Lemma preservesB_ret {A} (a : A) : preservesB R (retB a).
Proof. intros b. apply frame_refl. Qed.

Lemma preservesB_act a : preservesB R (act a).
Proof. intros b. apply frame_refl. Qed.

Lemma preservesB_lift {A} (m : M A) : preserves R m -> preservesB R (lift m).
Proof. intros Hm b. rewrite lift_run. simpl. apply Hm. Qed.

Lemma preservesB_bind {A C} (m : B A) (k : A -> B C) :
  preservesB R m -> (forall a, preservesB R (k a)) -> preservesB R (bindB m k).
Proof.
  intros Hm Hk b. unfold bindB. specialize (Hm b).
  destruct (m b) as [[a|e] b1]; simpl in *.
  - eapply frame_trans; [exact Hm | apply Hk].
  - exact Hm.
Qed.

Lemma preservesB_try_except {A} (body : B A) (handler : Exn -> B A) :
  preservesB R body -> (forall e, preservesB R (handler e)) ->
  preservesB R (try_exceptB body handler).
Proof.
  intros Hm Hk b. unfold try_exceptB. specialize (Hm b).
  destruct (body b) as [[a|e] b1]; simpl in *.
  - exact Hm.
  - eapply frame_trans; [exact Hm | apply Hk].
Qed.

End BotFrames.

(** Takes apart goals [preservesB R m]; what it leaves are the steps
    that write to a table. *)
Ltac bot_frame_step :=
  lazymatch goal with
  | |- preservesB _ (retB _) => apply preservesB_ret
  | |- preservesB _ (act _) => apply preservesB_act
  | |- preservesB _ (lift _) => apply preservesB_lift
  | |- preservesB _ (bindB _ _) => apply preservesB_bind
  | |- preservesB _ (try_exceptB _ _) => apply preservesB_try_except
  | |- preservesB _ (if ?b then _ else _) => destruct b
  | _ => handler_frame_step
  end.

Ltac bot_frame := repeat bot_frame_step.

(** ** The re-index *)

#[global] Instance vectors_apart_frame : Frame vectors_apart.
Proof.
  split; unfold vectors_apart; simpl; try tauto.
  intros w1 w2 w3 (? & ? & ? & ? & ?) (? & ? & ? & ? & ?).
  repeat split; congruence.
Qed.

Section Reindex.
Context `{External} `{Host}.

Lemma update_embedding_apart vec id :
  preserves vectors_apart (Maintenance.execute_update_embedding vec id).
Proof.
  unfold Maintenance.execute_update_embedding. handler_frame.
  unfold vectors_apart. simpl.
  repeat split. rewrite List.map_map. apply List.map_ext.
  intros d. destruct (Z.eqb (doc_id d) id); reflexivity.
Qed.

Lemma reindex_doc_apart total updated doc :
  preservesB vectors_apart (AdminBot.reindex_doc total updated doc).
Proof.
  destruct doc as [[id topic] content]. unfold AdminBot.reindex_doc.
  bot_frame. apply update_embedding_apart.
Qed.

Lemma reindex_loop_apart total docs :
  forall updated, preservesB vectors_apart (AdminBot.reindex_loop total updated docs).
Proof.
  induction docs as [|doc rest IH]; intros updated; simpl.
  - bot_frame.
  - bot_frame; [apply reindex_doc_apart | apply IH].
Qed.

Lemma fetch_docs_run w :
  Maintenance.fetch_docs w =
  (if next_fails (db_faults w) then Raise DatabaseError
   else Ok (List.map snapshot (pinya_docs w)),
   with_db_faults (tl (db_faults w)) w).
Proof.
  unfold Maintenance.fetch_docs, bind, gets. rewrite round_trip_run.
  destruct (next_fails (db_faults w)); reflexivity.
Qed.

(** X26.  A re-index always ends with a word to the requester and
    writes vectors only.  Whatever the store holds and whichever call
    fails, the command returns, its last event is an ephemeral message
    (nothing to do, done, or the failure), and the config table, the
    cache, the aliases, the id sequence and every record's id, topic,
    content and metadata are what they were. *)
Theorem reindex_writes_vectors_only (inter : Interaction) (b : Bot) :
  exists b' before report,
    AdminBot.reindex inter b = (Ok tt, b') /\
    events (world b') = (before ++ [report])%list /\ reindex_report report /\
    vectors_apart (world b) (world b').
Proof.
  assert (Hframe : preservesB vectors_apart (AdminBot.reindex inter)).
  { unfold AdminBot.reindex, Maintenance.fetch_docs. bot_frame.
    apply reindex_loop_apart. }
  specialize (Hframe b).
  assert (Hshape : exists b' before report,
            AdminBot.reindex inter b = (Ok tt, b') /\
            events (world b') = (before ++ [report])%list /\ reindex_report report).
  { unfold AdminBot.reindex.
    unfold bindB at 1. rewrite lift_run. simpl.
    unfold bindB at 1. rewrite lift_run. simpl.
    unfold try_exceptB.
    match goal with
    | |- context [let (_, _) := ?body ?b0 in _] => destruct (body b0) as [[[]|e] b1] eqn:Hbody
    end.
    2:{ rewrite lift_run. simpl. eexists _, _, _.
        split; [reflexivity|]. split; [reflexivity | exact I]. }
    exists b1. unfold bindB in Hbody. rewrite lift_run, fetch_docs_run in Hbody.
    simpl in Hbody.
    destruct (next_fails (db_faults (world b))); simpl in Hbody; [discriminate|].
    destruct (Nat.eqb _ 0).
    { rewrite lift_run in Hbody. simpl in Hbody. injection Hbody as <-.
      eexists _, _. split; [reflexivity|]. split; [reflexivity | exact I]. }
    destruct (AdminBot.reindex_loop _ 0 _ _) as [[n|e] b2]; [|discriminate].
    rewrite lift_run in Hbody. simpl in Hbody. injection Hbody as <-.
    eexists _, _. split; [reflexivity|]. split; [reflexivity | exact I]. }
  destruct Hshape as (b' & before & report & Hrun & Hevents & Hreport).
  rewrite Hrun in Hframe. exists b', before, report. auto.
Qed.

Lemma map_fixed {A} (f : A -> A) (l : list A) :
  (forall x, In x l -> f x = x) -> List.map f l = l.
Proof.
  induction l as [|x l IH]; intros Hf; simpl; [reflexivity|].
  rewrite (Hf x (or_introl eq_refl)), IH; [reflexivity|].
  intros y Hy. apply Hf. right. exact Hy.
Qed.

(** With ids that are unique, the [UPDATE] reaches one row. *)
Lemma update_embedding_at (before after : list Doc) d vec :
  NoDup (List.map doc_id (before ++ d :: after)) ->
  List.map (fun x => if Z.eqb (doc_id x) (doc_id d)
                     then Maintenance.with_embedding vec x else x)
           (before ++ d :: after) =
  (before ++ Maintenance.with_embedding vec d :: after)%list.
Proof.
  intros Hids. rewrite List.map_app in Hids. simpl in Hids.
  apply NoDup_app in Hids as (_ & Hapart & Hrest).
  apply NoDup_cons in Hrest as [Hafter _].
  rewrite List.map_app. simpl. rewrite Z.eqb_refl. f_equal; [|f_equal].
  - apply map_fixed. intros x Hx.
    destruct (Z.eqb_spec (doc_id x) (doc_id d)) as [Heq|]; [|reflexivity].
    exfalso. apply (Hapart (doc_id x)).
    + apply list_elem_of_In, List.in_map, Hx.
    + rewrite Heq. left.
  - apply map_fixed. intros x Hx.
    destruct (Z.eqb_spec (doc_id x) (doc_id d)) as [Heq|]; [|reflexivity].
    exfalso. apply Hafter. rewrite <- Heq.
    apply list_elem_of_In, List.in_map, Hx.
Qed.

Lemma reindex_doc_ok total updated d b :
  next_fails (embed_faults (world b)) = false ->
  next_fails (db_faults (world b)) = false ->
  exists b',
    AdminBot.reindex_doc total updated (snapshot d) b = (Ok (S updated), b') /\
    pinya_docs (world b') =
    List.map (fun x => if Z.eqb (doc_id x) (doc_id d)
                       then Maintenance.with_embedding
                              (embed_text (stored_text (doc_topic d) (doc_content d))) x
                       else x)
             (pinya_docs (world b)) /\
    db_faults (world b') = tl (db_faults (world b)) /\
    embed_faults (world b') = tl (embed_faults (world b)).
Proof.
  intros Hembed Hdb. unfold AdminBot.reindex_doc, snapshot.
  unfold bindB at 1. rewrite lift_run, get_embedding_run. simpl. rewrite Hembed. simpl.
  unfold bindB at 1. rewrite lift_run. simpl.
  unfold Maintenance.execute_update_embedding, bind, modify.
  rewrite round_trip_run. simpl. rewrite Hdb. simpl.
  unfold bindB, act, retB.
  destruct (Nat.eqb _ 0); eexists; (split; [reflexivity|]); simpl; auto.
Qed.

Lemma reindex_doc_embed_fails total updated doc b :
  next_fails (embed_faults (world b)) = true ->
  exists b',
    AdminBot.reindex_doc total updated doc b = (Raise EmbeddingError, b') /\
    pinya_docs (world b') = pinya_docs (world b) /\
    events (world b') =
    (events (world b) ++
     [EmbeddingCall (stored_text (snd (fst doc)) (snd doc))])%list.
Proof.
  intros Hembed. destruct doc as [[id topic] content]. unfold AdminBot.reindex_doc.
  unfold bindB at 1. rewrite lift_run, get_embedding_run. simpl. rewrite Hembed. simpl.
  eexists. split; [reflexivity|]. simpl. auto.
Qed.

Lemma calm_take_S n script :
  calm (take (S n) script) -> next_fails script = false /\ calm (take n (tl script)).
Proof.
  destruct script as [|x rest]; simpl; intros Hcalm.
  - split; [reflexivity|]. rewrite take_nil. constructor.
  - inversion Hcalm; subst. split; [reflexivity | assumption].
Qed.

Lemma drop_S_tl {A} n (l : list A) : drop (S n) l = drop n (tl l).
Proof. destruct l; simpl; [rewrite drop_nil; reflexivity | reflexivity]. Qed.

(** The loop over rows whose calls answer: each gets the vector of its
    own text; the rows around them stay. *)
Lemma reindex_loop_ok total todo :
  forall before after updated b,
    pinya_docs (world b) = (before ++ todo ++ after)%list ->
    NoDup (List.map doc_id (before ++ todo ++ after)) ->
    calm (db_faults (world b)) ->
    calm (take (List.length todo) (embed_faults (world b))) ->
    exists b',
      AdminBot.reindex_loop total updated (List.map snapshot todo) b =
      (Ok (updated + List.length todo)%nat, b') /\
      pinya_docs (world b') = (before ++ List.map reembedded todo ++ after)%list /\
      calm (db_faults (world b')) /\
      embed_faults (world b') = drop (List.length todo) (embed_faults (world b)).
Proof.
  induction todo as [|d rest IH]; intros before after updated b Hdocs Hids Hdb Hembed.
  - exists b. simpl. rewrite Nat.add_0_r. auto.
  - simpl in Hembed. apply calm_take_S in Hembed as [Hnext Hlater].
    destruct (reindex_doc_ok total updated d b Hnext (calm_next _ Hdb))
      as (b1 & Hrun & Hdocs1 & Hdb1 & Hembed1).
    cbn [List.map AdminBot.reindex_loop List.length]. unfold bindB. rewrite Hrun.
    rewrite Hdocs in Hdocs1.
    change (before ++ (d :: rest) ++ after)%list
      with (before ++ d :: (rest ++ after))%list in Hdocs1, Hids.
    rewrite (update_embedding_at _ _ _ _ Hids) in Hdocs1.
    fold (reembedded d) in Hdocs1.
    destruct (IH (before ++ [reembedded d])%list after (S updated) b1) as
      (b' & Hloop & Hdocs' & Hdb' & Hembed').
    + rewrite Hdocs1, <- app_assoc. reflexivity.
    + rewrite <- app_assoc. simpl.
      rewrite List.map_app in Hids |- *. exact Hids.
    + rewrite Hdb1. apply calm_tl. exact Hdb.
    + rewrite Hembed1. exact Hlater.
    + exists b'. rewrite Hloop. split; [f_equal; f_equal; lia|].
      split; [rewrite Hdocs', <- app_assoc; reflexivity|].
      split; [exact Hdb'|]. rewrite Hembed', Hembed1. symmetry. apply drop_S_tl.
Qed.

Lemma reindex_loop_app total todo later :
  forall updated b,
    AdminBot.reindex_loop total updated (todo ++ later) b =
    bindB (AdminBot.reindex_loop total updated todo)
          (fun n => AdminBot.reindex_loop total n later) b.
Proof.
  induction todo as [|doc rest IH]; intros updated b; [reflexivity|].
  cbn [app AdminBot.reindex_loop]. unfold bindB.
  destruct (AdminBot.reindex_doc total updated doc b) as [[n|e] b1]; [|reflexivity].
  rewrite IH. reflexivity.
Qed.

Lemma reembedded_indexed docs :
  Forall (fun d => doc_embedding d = embed_text (stored_text (doc_topic d) (doc_content d)))
         (List.map reembedded docs).
Proof.
  apply List.Forall_forall. intros d Hd.
  apply List.in_map_iff in Hd as (d0 & <- & _). reflexivity.
Qed.

(** X27.  A re-index whose calls all answer renews every vector.  With
    ids that are unique, each record afterwards carries the embedding of
    its own labelled topic and content and is otherwise what it was, so
    the store is indexed whatever vectors it held; the requester is told
    how many records were done, or that there was none. *)
Theorem reindex_renews_every_vector (inter : Interaction) (b : Bot) :
  calm (db_faults (world b)) -> calm (embed_faults (world b)) ->
  NoDup (List.map doc_id (pinya_docs (world b))) ->
  exists b',
    AdminBot.reindex inter b = (Ok tt, b') /\
    pinya_docs (world b') = List.map reembedded (pinya_docs (world b)) /\
    indexed (world b') /\
    last (events (world b')) =
    Some (Followup
            (match pinya_docs (world b) with
             | [] => "⚠️ Database is empty. Nothing to re-index."
             | _ :: _ =>
                 let n := Py.str_int (Z.of_nat (List.length (pinya_docs (world b)))) in
                 "✅ Re-indexing complete! Updated " ++ n ++ "/" ++ n ++ " documents."
             end) true).
Proof.
  intros Hdb Hembed Hids.
  unfold AdminBot.reindex.
  unfold bindB at 1. rewrite lift_run. simpl.
  unfold bindB at 1. rewrite lift_run. simpl.
  unfold try_exceptB. unfold bindB at 1. rewrite lift_run, fetch_docs_run. simpl.
  rewrite (calm_next _ Hdb). simpl.
  rewrite List.length_map.
  destruct (pinya_docs (world b)) as [|d rest] eqn:Hdocs.
  { simpl. eexists. split; [reflexivity|]. simpl.
    split; [exact Hdocs|]. split; [unfold indexed; simpl; rewrite Hdocs; constructor|].
    apply last_snoc. }
  change (Nat.eqb (List.length (d :: rest)) 0) with false. cbv iota.
  unfold bindB.
  match goal with
  | |- context [AdminBot.reindex_loop ?total 0 _ ?b0] =>
      destruct (reindex_loop_ok total (d :: rest) [] [] 0 b0) as
        (b1 & Hloop & Hdocs1 & _ & _)
  end.
  - simpl. rewrite Hdocs, app_nil_r. reflexivity.
  - simpl. rewrite app_nil_r. exact Hids.
  - simpl. apply calm_tl. exact Hdb.
  - simpl. apply Forall_take. exact Hembed.
  - rewrite Hloop. rewrite lift_run. simpl.
    eexists. split; [reflexivity|]. simpl.
    rewrite app_nil_r in Hdocs1. simpl in Hdocs1.
    split; [exact Hdocs1|]. split.
    + unfold indexed. simpl. rewrite Hdocs1. apply (reembedded_indexed (d :: rest)).
    + apply last_snoc.
Qed.

(** X28.  A re-index is not undone when it fails half way.  If the
    first [k] embedding calls answer and the next one fails, the first
    [k] records carry their new vectors, the others are untouched, and
    the requester is told of the failure. *)
Theorem reindex_stops_at_failure (inter : Interaction) (k : nat) (b : Bot) :
  calm (db_faults (world b)) ->
  NoDup (List.map doc_id (pinya_docs (world b))) ->
  (k < List.length (pinya_docs (world b)))%nat ->
  calm (take k (embed_faults (world b))) ->
  next_fails (drop k (embed_faults (world b))) = true ->
  exists b',
    AdminBot.reindex inter b = (Ok tt, b') /\
    pinya_docs (world b') =
    (List.map reembedded (take k (pinya_docs (world b))) ++
     drop k (pinya_docs (world b)))%list /\
    last (events (world b')) =
    Some (Followup ("❌ Re-indexing failed: " ++ exn_message EmbeddingError) true).
Proof.
  intros Hdb Hids Hk Hembed Hfail.
  unfold AdminBot.reindex.
  unfold bindB at 1. rewrite lift_run. simpl.
  unfold bindB at 1. rewrite lift_run. simpl.
  unfold try_exceptB. unfold bindB at 1. rewrite lift_run, fetch_docs_run. simpl.
  rewrite (calm_next _ Hdb). simpl.
  rewrite List.length_map.
  destruct (Nat.eqb_spec (List.length (pinya_docs (world b))) 0) as [Hnone|_]; [lia|].
  set (docs := pinya_docs (world b)) in *.
  destruct (drop k docs) as [|d later] eqn:Hdrop.
  { exfalso. apply (f_equal (@List.length Doc)) in Hdrop.
    rewrite length_drop in Hdrop. simpl in Hdrop. lia. }
  assert (Hsplit : docs = (take k docs ++ d :: later)%list).
  { rewrite <- Hdrop. symmetry. apply take_drop. }
  assert (Hlen : List.length (take k docs) = k).
  { rewrite length_take. lia. }
  replace (List.map snapshot docs)
    with (List.map snapshot (take k docs) ++ List.map snapshot (d :: later))%list
    by (rewrite <- List.map_app, <- Hsplit; reflexivity).
  unfold bindB at 1. rewrite reindex_loop_app. unfold bindB at 1.
  match goal with
  | |- context [AdminBot.reindex_loop ?total 0 (List.map snapshot (take k docs)) ?b0] =>
      destruct (reindex_loop_ok total (take k docs) [] (d :: later) 0 b0) as
        (b1 & Hloop & Hdocs1 & _ & Hembed1)
  end.
  - simpl. fold docs. exact Hsplit.
  - simpl. rewrite <- Hsplit. exact Hids.
  - simpl. apply calm_tl. exact Hdb.
  - simpl. rewrite Hlen. exact Hembed.
  - rewrite Hloop.
    simpl in Hembed1. rewrite Hlen in Hembed1.
    cbn [List.map AdminBot.reindex_loop]. unfold bindB at 1.
    destruct (reindex_doc_embed_fails (List.length docs) (0 + List.length (take k docs))
                (snapshot d) b1) as (b2 & Hdoc & Hdocs2 & _).
    { rewrite Hembed1. exact Hfail. }
    rewrite Hdoc. rewrite lift_run. simpl.
    eexists. split; [reflexivity|]. simpl.
    split; [rewrite Hdocs2, Hdocs1; reflexivity | apply last_snoc].
Qed.

End Reindex.

Lemma reindex_renews_every_vector_sample :
  exists b',
    @AdminBot.reindex Sample.external (mkInteraction Sample.librarian)
      (SampleBot.started Sample.stocked_world) = (Ok tt, b') /\
    pinya_docs (world b') =
    [@reembedded Sample.external Sample.fishing_doc;
     @reembedded Sample.external Sample.base_doc] /\
    @indexed Sample.external (world b').
Proof.
  assert (Hids : NoDup (List.map doc_id
                          (pinya_docs (world (SampleBot.started Sample.stocked_world))))).
  { simpl. repeat constructor; rewrite ?list_elem_of_In; simpl; intuition discriminate. }
  destruct (@reindex_renews_every_vector Sample.external (mkInteraction Sample.librarian)
              (SampleBot.started Sample.stocked_world) calm_nil calm_nil Hids)
    as (b' & Hrun & Hdocs & Hindexed & _).
  exists b'. split; [exact Hrun|]. split; [exact Hdocs | exact Hindexed].
Defined.

Lemma reindex_stops_at_failure_sample :
  let b := SampleBot.started (with_embed_faults [false; true] Sample.stocked_world) in
  exists b',
    @AdminBot.reindex Sample.external (mkInteraction Sample.librarian) b = (Ok tt, b') /\
    pinya_docs (world b') =
    [@reembedded Sample.external Sample.fishing_doc; Sample.base_doc].
Proof.
  intros b.
  assert (Hids : NoDup (List.map doc_id (pinya_docs (world b)))).
  { simpl. repeat constructor; rewrite ?list_elem_of_In; simpl; intuition discriminate. }
  assert (Hcalm : calm (take 1 (embed_faults (world b)))).
  { simpl. repeat constructor. }
  destruct (@reindex_stops_at_failure Sample.external (mkInteraction Sample.librarian)
              1%nat b calm_nil Hids ltac:(simpl; lia) Hcalm eq_refl)
    as (b' & Hrun & Hdocs & _).
  exists b'. split; [exact Hrun | exact Hdocs].
Defined.

(** ** Votes and flags *)

#[global] Instance tallies_kept_frame : Frame tallies_kept.
Proof.
  assert (Hrefl : forall w, tallies_kept w w).
  { intros w. split; [lia|]. intros d' Hd'. left. exists d'. auto. }
  split; try exact Hrefl;
    try (intros x w; exact (Hrefl w)).
  intros w1 w2 w3 [Hseq12 H12] [Hseq23 H23]. split; [lia|].
  intros d3 Hd3. destruct (H23 d3 Hd3) as [(d2 & Hd2 & Hid & Htally) | [Hnew Hzero]].
  - destruct (H12 d2 Hd2) as [(d1 & Hd1 & Hid1 & Htally1) | [Hnew Hzero]].
    + left. exists d1. split; [exact Hd1|]. split; congruence.
    + right. split; [lia | congruence].
  - right. split; [lia | exact Hzero].
Qed.

Section Tallies.
Context `{External}.

Lemma insert_doc_tallies topic content vec spoiler user :
  preserves tallies_kept
    (Database.fetchval_insert_doc topic content vec (Knowledge.new_metadata spoiler user)).
Proof.
  intros w.
  unfold Database.fetchval_insert_doc, bind, gets, modify, ret. rewrite round_trip_run.
  destruct (next_fails (db_faults w)); simpl; [apply frame_db|].
  split; simpl; [lia|].
  intros d' Hd'. apply List.in_app_iff in Hd' as [Hold | [<- | []]].
  - left. exists d'. auto.
  - right. simpl. split; [lia|]. reflexivity.
Qed.

Lemma update_doc_tallies topic content vec spoiler user id :
  preserves tallies_kept
    (Database.execute_update_doc topic content vec (Knowledge.update_meta spoiler user) id).
Proof.
  intros w.
  unfold Database.execute_update_doc, bind, modify. rewrite round_trip_run.
  destruct (next_fails (db_faults w)); simpl; [apply frame_db|].
  split; simpl; [lia|].
  intros d' Hd'. apply List.in_map_iff in Hd' as (d & <- & Hd).
  left. exists d. split; [exact Hd|].
  destruct (Z.eqb (doc_id d) id); [|auto].
  split; [reflexivity|]. unfold tally, Database.update_row. simpl.
  rewrite update_meta_votes, update_meta_flags. reflexivity.
Qed.

Lemma delete_by_topic_tallies topic :
  preserves tallies_kept (Database.execute_delete_by_topic topic).
Proof.
  intros w.
  unfold Database.execute_delete_by_topic, bind, modify. rewrite round_trip_run.
  destruct (next_fails (db_faults w)); simpl; [apply frame_db|].
  split; simpl; [lia|].
  intros d' Hd'. apply List.filter_In in Hd' as [Hd' _].
  left. exists d'. auto.
Qed.

Lemma upsert_knowledge_tallies topic content spoiler user doc_id check_dup :
  preserves tallies_kept
    (Knowledge.upsert_knowledge topic content spoiler user doc_id check_dup).
Proof.
  unfold Knowledge.upsert_knowledge. handler_frame.
  - apply update_doc_tallies.
  - apply insert_doc_tallies.
Qed.

Lemma handle_tallies inter request : preserves tallies_kept (Gateway.handle inter request).
Proof.
  destruct request as [|trigger replacement|topic|topic|missing_query origin|m topic content spoiler];
    simpl; unfold Gateway.checked.
  - unfold Knowledge.teach. handler_frame.
  - unfold Knowledge.alias, Database.execute_alias_upsert. handler_frame.
    split; simpl; [lia|]. intros d' Hd'. left. exists d'. auto.
  - unfold Knowledge.forget. handler_frame. apply delete_by_topic_tallies.
  - unfold Knowledge.edit, Knowledge.open_edit_modal. handler_frame.
  - unfold UI.teach_gap. handler_frame.
  - unfold UI.on_submit, UI.gap_callback, Knowledge.save_knowledge.
    apply preserves_bind; [typeclasses eauto | handler_frame | intros _].
    destruct (modal_callback m);
      (apply preserves_bind;
       [typeclasses eauto | apply upsert_knowledge_tallies | handler_frame]).
Qed.

(** X29.  Votes are never counted.  A click on "Helpful" or "Wrong"
    edits the message so that both buttons are disabled (the clicked one
    relabelled) and reaches no table; and after any request to the
    Knowledge cog or any live query, whatever fails, each record is a
    record from before with the votes and flags it had, or a new record
    whose votes and flags are zero. *)
Theorem votes_are_never_counted (b : Bot) :
  (forall view, exists view' b',
     VoteView.helpful view b = (Ok view', b') /\
     world b' = world b /\
     performed b' = (performed b ++ [EditMessage view'])%list /\
     button_label (helpful_button view') = "Voted" /\
     button_disabled (helpful_button view') = true /\
     button_disabled (wrong_button view') = true) /\
  (forall view, exists view' b',
     VoteView.wrong view b = (Ok view', b') /\
     world b' = world b /\
     performed b' = (performed b ++ [EditMessage view'])%list /\
     button_label (wrong_button view') = "Flagged" /\
     button_disabled (helpful_button view') = true /\
     button_disabled (wrong_button view') = true) /\
  (forall inter request,
     tallies_kept (world b) (snd (Gateway.handle inter request (world b)))) /\
  (forall message, tallies_kept (world b) (snd (Query.on_message message (world b)))).
Proof.
  split; [|split; [|split]].
  - intros view. eexists _, _. split; [reflexivity|]. split; [reflexivity|].
    split; [apply performed_action|]. auto.
  - intros view. eexists _, _. split; [reflexivity|]. split; [reflexivity|].
    split; [apply performed_action|]. auto.
  - intros inter request. apply handle_tallies.
  - intros message. apply on_message_preserves. typeclasses eauto.
Qed.

End Tallies.
